(** * Autyvia posts generator: session context, profile form and usage accounting

    A shallow embedding of the client code of the application:
    - [AuthProvider] (src/contexts/AuthContext.tsx): [loadUserData],
      [refreshData], [signIn], [signUp], [signOut];
    - [Login.handleSubmit] (src/pages/Login.tsx);
    - the [PostGenerator] page: [loadTemplates], [handleGenerate];
    - the [Profile] page: [handleAddService], [handleRemoveService],
      [handleSubmit].

    The handlers are asynchronous functions that call a hosted backend
    (the supabase client) and an HTTP webhook, and set React state.  They
    are embedded in a state-and-exception monad over a [World] that holds
    the component states, the backend tables, the scripted behaviour of
    the network and the trace of every request, alert and log line.

    Modelling conventions:
    - a JavaScript string is a [string], read as a sequence of code units
      below 256; a JavaScript [number] that holds a counter is a [Z];
    - the supabase client resolves every request to [{data, error}] and
      never rejects: a failed request is the [Failure] reply, which the
      caller must inspect (the sources do so with [if (error) throw error]);
    - [fetch] may reject, and may resolve to a response whose [ok] flag is
      false or whose body is not JSON; the endpoint is a build-time
      constant and is left out;
    - a handler reads the values of its render closure; here it reads them
      from the world it is started in;
    - one handler runs at a time: the effects that start the chain on
      their own (the initial session lookup and the auth-change
      subscription) and their interleaving with a running handler are
      outside the model. *)

From Stdlib Require Import String Ascii List ZArith Bool Lia.
Import ListNotations.
Local Open Scope string_scope.
Local Open Scope list_scope.

(** ** Data model: the rows the client reads and writes *)

Module User.
Record t : Type := mk {
  id : string;
  email : string;
  first_name : string;
  last_name : string;
  role : string;
  company_id : string
}.
End User.

Module Company.
Record t : Type := mk {
  id : string;
  name : string;
  business_sector : string;
  services : list string;
  target_audience : string;
  brand_colors : list string;
  logo_url : option string;
  tone_of_voice : string;
  visual_style : string
}.
End Company.

Module Pack.
Record t : Type := mk {
  id : string;
  company_id : string;
  pack_type : string;
  monthly_posts_limit : Z;
  posts_used : Z;
  price : Z;
  status : string
}.
End Pack.

Module Template.
(** The row of table [template]; [is_active] is a column the generator
    filters on although its TypeScript interface does not list it. *)
Record t : Type := mk {
  id : string;
  name : string;
  category : string;
  prompt_base : string;
  thumbnail_url : option string;
  works_best_for : list string;
  platforms : list string;
  formats : list string;
  is_active : bool
}.
End Template.

Module GeneratedPost.
Record t : Type := mk {
  id : string;
  company_id : string;
  platform : string;
  format : string;
  template_id : string;
  user_suggestions : string;
  image_url : string;
  caption_text : string;
  hashtags : list string;
  created_at : string
}.
End GeneratedPost.

(** The object [signUp] inserts into [company]: no [id], no [logo_url]. *)
Record CompanyInsert : Type := mkCompanyInsert {
  ci_name : string;
  ci_business_sector : string;
  ci_services : list string;
  ci_target_audience : string;
  ci_brand_colors : list string;
  ci_tone_of_voice : string;
  ci_visual_style : string
}.

(** The object [Profile.handleSubmit] sends as the update of a company:
    every mutable field, and the [updated_at] stamp. *)
Record CompanyUpdate : Type := mkCompanyUpdate {
  cu_name : string;
  cu_business_sector : string;
  cu_services : list string;
  cu_target_audience : string;
  cu_brand_colors : list string;
  cu_logo_url : option string;
  cu_tone_of_voice : string;
  cu_visual_style : string;
  cu_updated_at : string
}.

(** The object [handleGenerate] inserts into [generated_post]. *)
Record PostInsert : Type := mkPostInsert {
  pi_company_id : string;
  pi_platform : string;
  pi_format : string;
  pi_template_id : string;
  pi_user_suggestions : string;
  pi_image_url : string;
  pi_caption_text : string;
  pi_hashtags : list string;
  pi_created_at : string
}.

(** The JSON body posted to the generation webhook. *)
Record Payload : Type := mkPayload {
  p_company_id : string;
  p_company_name : string;
  p_business_sector : string;
  p_services : list string;
  p_target_audience : string;
  p_brand_colors : list string;
  p_tone_of_voice : string;
  p_visual_style : string;
  p_platform : string;
  p_format : string;
  p_template_id : string;
  p_template_name : string;
  p_prompt_base : string;
  p_user_suggestions : string
}.

(** What the webhook answers on success. *)
Record Generated : Type := mkGenerated {
  image_url : string;
  caption : string;
  hashtags : list string
}.

(** ** Errors, replies and completions *)

(** A JavaScript error object: always truthy, carries a message. *)
Record error : Type := Err { message : string }.

(** The [{data, error}] object a supabase request resolves to. *)
Inductive reply (A : Type) : Type :=
| Data (data : A)
| Failure (e : error).
Arguments Data {A} data.
Arguments Failure {A} e.

(** How an [async] function settles. *)
Inductive completion (A : Type) : Type :=
| Normal (a : A)
| Thrown (e : error).
Arguments Normal {A} a.
Arguments Thrown {A} e.

(** What a call of [fetch] on the webhook may produce. *)
Inductive WebhookReply : Type :=
| FetchRejects (e : error)
| Response (ok : bool) (body : option Generated).

(** ** JavaScript string helpers *)

(** Truthiness of a string: the empty string is the only falsy one. *)
Definition truthy (s : string) : bool := negb (s =? "").

(** White space and line terminators of [String.prototype.trim], among the
    code units below 256: TAB, LF, VT, FF, CR, SPACE and NBSP. *)
Definition is_ws (c : ascii) : bool :=
  let n := nat_of_ascii c in
  ((9 <=? n) && (n <=? 13) || (n =? 32) || (n =? 160))%nat.

Fixpoint trimStart (s : string) : string :=
  match s with
  | EmptyString => EmptyString
  | String c r => if is_ws c then trimStart r else s
  end.

Fixpoint trimEnd (s : string) : string :=
  match s with
  | EmptyString => EmptyString
  | String c r =>
      match trimEnd r with
      | EmptyString => if is_ws c then EmptyString else String c EmptyString
      | r' => String c r'
      end
  end.

Definition trim (s : string) : string := trimEnd (trimStart s).

(** [Array.prototype.includes] on an array of strings. *)
Definition includes (l : list string) (x : string) : bool :=
  existsb (String.eqb x) l.

(** ** The backend: tables, identities and the session

    The backend is a remote service.  Its tables are lists of rows in
    insertion order; rows are keyed by [id].  [uuid] is the sequence of
    identifiers the backend generates and [issued] counts those drawn. *)

Record AuthIdentity : Type := mkIdentity {
  ident_id : string;
  ident_email : string;
  ident_password : string
}.

Record DB : Type := mkDB {
  identities : list AuthIdentity;
  session : option string;
  user_tbl : list User.t;
  company_tbl : list Company.t;
  pack_tbl : list Pack.t;
  template_tbl : list Template.t;
  generated_post_tbl : list GeneratedPost.t;
  uuid : nat -> string;
  issued : nat
}.

(** ** Component states *)

(** The four [useState] cells of [AuthProvider]. *)
Record AuthState : Type := mkAuth {
  user : option User.t;
  company : option Company.t;
  pack : option Pack.t;
  loading : bool
}.

Inductive Step : Type := Step1 | Step2 | Step3.

(** The state cells of the [PostGenerator] page. *)
Record GeneratorState : Type := mkGenerator {
  currentStep : Step;
  platform : string;
  format : string;
  templates : list Template.t;
  selectedTemplate : option Template.t;
  loadingTemplates : bool;
  categoryFilter : string;
  userSuggestions : string;
  generating : bool;
  generatedPost : option Generated
}.

Inductive MessageType : Type := success | failure.

(** The state cells of the [Profile] page. *)
Record ProfileState : Type := mkProfile {
  pf_name : string;
  businessSector : string;
  services : list string;
  targetAudience : string;
  brandColors : list string;
  logoUrl : string;
  toneOfVoice : string;
  visualStyle : string;
  pf_loading : bool;
  pf_message : option (MessageType * string);
  newService : string
}.

(** The state cells of the [Login] page. *)
Record LoginState : Type := mkLogin {
  lg_email : string;
  lg_password : string;
  rememberMe : bool;
  lg_error : string;
  lg_loading : bool
}.

(** ** Observable events *)

(** The requests that leave the client. *)
Inductive Call : Type :=
| AuthSignInWithPassword (email password : string)
| AuthSignUp (email password : string)
| AuthSignOut
| SelectUser (id : string)
| SelectCompany (id : string)
| SelectActivePack (company_id : string)
| InsertCompany (row : CompanyInsert)
| InsertUser (row : User.t)
| UpdateCompany (id : string) (row : CompanyUpdate)
| SelectTemplates (platform format : string)
| InsertGeneratedPost (row : PostInsert)
| UpdatePackPostsUsed (id : string) (posts_used : Z)
| Fetch (body : Payload).

Inductive Event : Type :=
| Net (c : Call)
| Alert (msg : string)
| ConsoleError (msg : string) (e : error)
| Navigate (path : string)
| ScrollToTop.

(** The network requests of a trace, in order. *)
Definition calls (tr : list Event) : list Call :=
  flat_map (fun e => match e with Net c => [c] | _ => [] end) tr.

(** ** The world *)

Record World : Type := mkWorld {
  db : DB;
  (** for each coming backend request, the failure to answer with, if any;
      past the end of the list the backend answers normally *)
  faults : list (option error);
  (** the answers of the coming webhook calls; past the end of the list
      [fetch] rejects *)
  webhook : list WebhookReply;
  (** the reading of the clock, as an ISO string *)
  now : string;
  (** [localStorage] *)
  storage : list (string * string);
  (** everything observable done so far, oldest first *)
  trace : list Event;
  auth : AuthState;
  generator : GeneratorState;
  profile : ProfileState;
  login : LoginState
}.

Definition with_db (d : DB) (w : World) : World :=
  mkWorld d (faults w) (webhook w) (now w) (storage w) (trace w)
          (auth w) (generator w) (profile w) (login w).
Definition with_faults (f : list (option error)) (w : World) : World :=
  mkWorld (db w) f (webhook w) (now w) (storage w) (trace w)
          (auth w) (generator w) (profile w) (login w).
Definition with_webhook (h : list WebhookReply) (w : World) : World :=
  mkWorld (db w) (faults w) h (now w) (storage w) (trace w)
          (auth w) (generator w) (profile w) (login w).
Definition with_storage (s : list (string * string)) (w : World) : World :=
  mkWorld (db w) (faults w) (webhook w) (now w) s (trace w)
          (auth w) (generator w) (profile w) (login w).
Definition with_trace (t : list Event) (w : World) : World :=
  mkWorld (db w) (faults w) (webhook w) (now w) (storage w) t
          (auth w) (generator w) (profile w) (login w).
Definition with_auth (a : AuthState) (w : World) : World :=
  mkWorld (db w) (faults w) (webhook w) (now w) (storage w) (trace w)
          a (generator w) (profile w) (login w).
Definition with_generator (g : GeneratorState) (w : World) : World :=
  mkWorld (db w) (faults w) (webhook w) (now w) (storage w) (trace w)
          (auth w) g (profile w) (login w).
Definition with_profile (p : ProfileState) (w : World) : World :=
  mkWorld (db w) (faults w) (webhook w) (now w) (storage w) (trace w)
          (auth w) (generator w) p (login w).
Definition with_login (l : LoginState) (w : World) : World :=
  mkWorld (db w) (faults w) (webhook w) (now w) (storage w) (trace w)
          (auth w) (generator w) (profile w) l.

(** ** The monad of handlers

    A handler runs from a world to a completion and a world.  State set
    before an exception is thrown stays set. *)

Definition M (A : Type) : Type := World -> completion A * World.

Definition ret {A} (a : A) : M A := fun w => (Normal a, w).

Definition bind {A B} (m : M A) (k : A -> M B) : M B :=
  fun w =>
    match m w with
    | (Normal a, w') => k a w'
    | (Thrown e, w') => (Thrown e, w')
    end.

Definition throw {A} (e : error) : M A := fun w => (Thrown e, w).

(** [try { body } catch (e) { handler e }] *)
Definition try_catch {A} (body : M A) (handler : error -> M A) : M A :=
  fun w =>
    match body w with
    | (Normal a, w') => (Normal a, w')
    | (Thrown e, w') => handler e w'
    end.

(** [try { body } finally { fin }] *)
Definition finally {A} (body : M A) (fin : M unit) : M A :=
  fun w =>
    let (r, w') := body w in
    match fin w' with
    | (Normal _, w'') => (r, w'')
    | (Thrown e, w'') => (Thrown e, w'')
    end.

Declare Scope handler_scope.
Delimit Scope handler_scope with handler.
Notation "x <- c1 ;; c2" := (bind c1 (fun x => c2))
  (at level 61, c1 at next level, right associativity) : handler_scope.
Notation "c1 ;; c2" := (bind c1 (fun _ => c2))
  (at level 61, right associativity) : handler_scope.
Local Open Scope handler_scope.

Definition emit (e : Event) : M unit :=
  fun w => (Normal tt, with_trace (trace w ++ [e]) w).

Definition alert (msg : string) : M unit := emit (Alert msg).
Definition console_error (msg : string) (e : error) : M unit :=
  emit (ConsoleError msg e).
Definition navigate (path : string) : M unit := emit (Navigate path).

(** ** Backend operations

    Each operation is what the backend does with one request when the
    request reaches it: a reply and the tables afterwards. *)

Definition PGRST116 : error :=
  Err "JSON object requested, multiple (or no) rows returned".
Definition duplicate_key : error :=
  Err "duplicate key value violates unique constraint".
Definition invalid_credentials : error := Err "Invalid login credentials".
Definition already_registered : error := Err "User already registered".

(** [.single()]: exactly one row, or an error. *)
Definition single {A} (rows : list A) : reply A :=
  match rows with
  | [r] => Data r
  | _ => Failure PGRST116
  end.

(** The rows matched by [.eq('id', uid)] in [user]. *)
Definition users_with_id (uid : string) (d : DB) : list User.t :=
  filter (fun u => User.id u =? uid) (user_tbl d).

(** The rows matched by [.eq('id', cid)] in [company]. *)
Definition companies_with_id (cid : string) (d : DB) : list Company.t :=
  filter (fun c => Company.id c =? cid) (company_tbl d).

(** The rows matched by [.eq('company_id', cid).eq('status', 'active')] in
    [pack]. *)
Definition active_packs (cid : string) (d : DB) : list Pack.t :=
  filter (fun p => (Pack.company_id p =? cid) && (Pack.status p =? "active"))
         (pack_tbl d).

(** [from('user').select('*').eq('id', uid).single()] *)
Definition select_user (uid : string) (d : DB) : reply User.t * DB :=
  (single (users_with_id uid d), d).

(** [from('company').select('*').eq('id', cid).single()] *)
Definition select_company (cid : string) (d : DB) : reply Company.t * DB :=
  (single (companies_with_id cid d), d).

(** [from('pack').select('*').eq('company_id', cid).eq('status', 'active').single()] *)
Definition select_active_pack (cid : string) (d : DB) : reply Pack.t * DB :=
  (single (active_packs cid d), d).

(** [contains(column, [tag])]: the array column holds the tag. *)
Definition contains (column : list string) (tag : string) : bool :=
  existsb (String.eqb tag) column.

(** [from('template').select('*').eq('is_active', true)
      .contains('platforms', [p]).contains('formats', [f])] *)
Definition select_templates (p f : string) (d : DB) : reply (list Template.t) * DB :=
  (Data (filter (fun t => Template.is_active t
                          && contains (Template.platforms t) p
                          && contains (Template.formats t) f)
                (template_tbl d)), d).

Definition draw (d : DB) : DB :=
  mkDB (identities d) (session d) (user_tbl d) (company_tbl d) (pack_tbl d)
       (template_tbl d) (generated_post_tbl d) (uuid d) (S (issued d)).

Definition new_company (id : string) (r : CompanyInsert) : Company.t :=
  Company.mk id (ci_name r) (ci_business_sector r) (ci_services r)
             (ci_target_audience r) (ci_brand_colors r) None
             (ci_tone_of_voice r) (ci_visual_style r).

(** [from('company').insert(row).select().single()]: the backend draws the
    identifier; the key must be new. *)
Definition insert_company (r : CompanyInsert) (d : DB)
  : reply (option Company.t) * DB :=
  let id := uuid d (issued d) in
  if existsb (fun c => Company.id c =? id) (company_tbl d)
  then (Failure duplicate_key, draw d)
  else
    let c := new_company id r in
    (Data (Some c),
     mkDB (identities d) (session d) (user_tbl d) (company_tbl d ++ [c]) (pack_tbl d)
          (template_tbl d) (generated_post_tbl d) (uuid d) (S (issued d))).

(** [from('user').insert(row).select().single()]: the client gives the
    identifier; the key must be new. *)
Definition insert_user (r : User.t) (d : DB) : reply User.t * DB :=
  if existsb (fun u => User.id u =? User.id r) (user_tbl d)
  then (Failure duplicate_key, d)
  else
    (Data r,
     mkDB (identities d) (session d) (user_tbl d ++ [r]) (company_tbl d) (pack_tbl d)
          (template_tbl d) (generated_post_tbl d) (uuid d) (issued d)).

Definition new_post (id : string) (r : PostInsert) : GeneratedPost.t :=
  GeneratedPost.mk id (pi_company_id r) (pi_platform r) (pi_format r)
                   (pi_template_id r) (pi_user_suggestions r) (pi_image_url r)
                   (pi_caption_text r) (pi_hashtags r) (pi_created_at r).

(** [from('generated_post').insert(row)] *)
Definition insert_generated_post (r : PostInsert) (d : DB) : reply unit * DB :=
  let id := uuid d (issued d) in
  if existsb (fun g => GeneratedPost.id g =? id) (generated_post_tbl d)
  then (Failure duplicate_key, draw d)
  else
    (Data tt,
     mkDB (identities d) (session d) (user_tbl d) (company_tbl d) (pack_tbl d)
          (template_tbl d) (generated_post_tbl d ++ [new_post id r]) (uuid d)
          (S (issued d))).

Definition set_posts_used (n : Z) (p : Pack.t) : Pack.t :=
  Pack.mk (Pack.id p) (Pack.company_id p) (Pack.pack_type p)
          (Pack.monthly_posts_limit p) n (Pack.price p) (Pack.status p).

(** [from('pack').update({ posts_used: n }).eq('id', pid)]: every row with
    that key is rewritten; matching no row is not an error. *)
Definition update_pack_posts_used (pid : string) (n : Z) (d : DB) : reply unit * DB :=
  (Data tt,
   mkDB (identities d) (session d) (user_tbl d) (company_tbl d)
        (map (fun p => if Pack.id p =? pid then set_posts_used n p else p) (pack_tbl d))
        (template_tbl d) (generated_post_tbl d) (uuid d) (issued d)).

Definition apply_company_update (r : CompanyUpdate) (c : Company.t) : Company.t :=
  Company.mk (Company.id c) (cu_name r) (cu_business_sector r) (cu_services r)
             (cu_target_audience r) (cu_brand_colors r) (cu_logo_url r)
             (cu_tone_of_voice r) (cu_visual_style r).

(** [from('company').update(row).eq('id', cid)] *)
Definition update_company (cid : string) (r : CompanyUpdate) (d : DB) : reply unit * DB :=
  (Data tt,
   mkDB (identities d) (session d) (user_tbl d)
        (map (fun c => if Company.id c =? cid then apply_company_update r c else c)
             (company_tbl d))
        (pack_tbl d) (template_tbl d) (generated_post_tbl d) (uuid d) (issued d)).

Definition with_session (s : option string) (d : DB) : DB :=
  mkDB (identities d) s (user_tbl d) (company_tbl d) (pack_tbl d)
       (template_tbl d) (generated_post_tbl d) (uuid d) (issued d).

Definition credentials_match (email password : string) (i : AuthIdentity) : bool :=
  (ident_email i =? email) && (ident_password i =? password).

(** [auth.signInWithPassword]: the reply carries [data.user]. *)
Definition sign_in_with_password (email password : string) (d : DB)
  : reply (option string) * DB :=
  match find (credentials_match email password) (identities d) with
  | Some i => (Data (Some (ident_id i)), with_session (Some (ident_id i)) d)
  | None => (Failure invalid_credentials, d)
  end.

(** [auth.signUp]: a new identity under a drawn identifier. *)
Definition sign_up (email password : string) (d : DB) : reply (option string) * DB :=
  if existsb (fun i => ident_email i =? email) (identities d)
  then (Failure already_registered, d)
  else
    let id := uuid d (issued d) in
    (Data (Some id),
     mkDB (identities d ++ [mkIdentity id email password]) (Some id) (user_tbl d)
          (company_tbl d) (pack_tbl d) (template_tbl d) (generated_post_tbl d)
          (uuid d) (S (issued d))).

(** [auth.signOut] *)
Definition sign_out (d : DB) : reply unit * DB := (Data tt, with_session None d).

(** ** The clients

    [request] is one call through the supabase client: the request is
    sent, and the promise resolves to the scripted failure or to the
    backend's reply.  It never rejects. *)
Definition request {A} (c : Call) (serve : DB -> reply A * DB) : M (reply A) :=
  fun w =>
    let w1 := with_trace (trace w ++ [Net c]) w in
    match faults w1 with
    | Some e :: rest => (Normal (Failure e), with_faults rest w1)
    | None :: rest =>
        let (r, d) := serve (db w1) in (Normal r, with_db d (with_faults rest w1))
    | [] =>
        let (r, d) := serve (db w1) in (Normal r, with_db d w1)
    end.

Definition failed_to_fetch : error := Err "Failed to fetch".
Definition unexpected_token : error := Err "Unexpected token in JSON".

(** [fetch(url, { method: 'POST', body })] on the webhook: rejects on a
    transport error, otherwise resolves to [ok] and a body. *)
Definition fetch (body : Payload) : M (bool * option Generated) :=
  fun w =>
    let w1 := with_trace (trace w ++ [Net (Fetch body)]) w in
    match webhook w1 with
    | [] => (Thrown failed_to_fetch, w1)
    | FetchRejects e :: rest => (Thrown e, with_webhook rest w1)
    | Response ok b :: rest => (Normal (ok, b), with_webhook rest w1)
    end.

(** [response.json()]: rejects when the body is not JSON. *)
Definition json (body : option Generated) : M Generated :=
  match body with
  | Some g => ret g
  | None => throw unexpected_token
  end.

(** [new Date().toISOString()] *)
Definition toISOString_now : M string := fun w => (Normal (now w), w).

(** [localStorage.setItem] and [localStorage.removeItem] *)
Definition removeItem (key : string) : M unit :=
  fun w => (Normal tt,
            with_storage (filter (fun kv => negb (fst kv =? key)) (storage w)) w).
Definition setItem (key value : string) : M unit :=
  fun w => (Normal tt,
            with_storage (filter (fun kv => negb (fst kv =? key)) (storage w)
                          ++ [(key, value)]) w).

(** ** AuthProvider (src/contexts/AuthContext.tsx) *)

Definition setUser (u : option User.t) : M unit :=
  fun w => (Normal tt,
            with_auth (mkAuth u (company (auth w)) (pack (auth w)) (loading (auth w))) w).
Definition setCompany (c : option Company.t) : M unit :=
  fun w => (Normal tt,
            with_auth (mkAuth (user (auth w)) c (pack (auth w)) (loading (auth w))) w).
Definition setPack (p : option Pack.t) : M unit :=
  fun w => (Normal tt,
            with_auth (mkAuth (user (auth w)) (company (auth w)) p (loading (auth w))) w).
Definition setLoading (b : bool) : M unit :=
  fun w => (Normal tt,
            with_auth (mkAuth (user (auth w)) (company (auth w)) (pack (auth w)) b) w).

(** The load chain: user, then company, then the active pack. *)
Definition loadUserData (userId : string) : M unit :=
  finally
    (try_catch
       (r <- request (SelectUser userId) (select_user userId) ;;
        match r with
        | Failure userError => throw userError
        | Data userData =>
            setUser (Some userData) ;;
            if truthy (User.company_id userData) then
              r <- request (SelectCompany (User.company_id userData))
                           (select_company (User.company_id userData)) ;;
              match r with
              | Failure companyError => throw companyError
              | Data companyData =>
                  setCompany (Some companyData) ;;
                  r <- request (SelectActivePack (User.company_id userData))
                               (select_active_pack (User.company_id userData)) ;;
                  match r with
                  | Data packData => setPack (Some packData)
                  | Failure _ => ret tt
                  end
              end
            else ret tt
        end)
       (fun error => console_error "Error loading user data:" error))
    (setLoading false).

Definition refreshData : M unit :=
  fun w =>
    match user (auth w) with
    | Some u => loadUserData (User.id u) w
    | None => ret tt w
    end.

Definition signIn (email password : string) : M unit :=
  r <- request (AuthSignInWithPassword email password)
               (sign_in_with_password email password) ;;
  match r with
  | Failure e => throw e
  | Data (Some uid) => loadUserData uid
  | Data None => ret tt
  end.

Definition signUp (email password firstName lastName companyName : string) : M unit :=
  r <- request (AuthSignUp email password) (sign_up email password) ;;
  match r with
  | Failure authError => throw authError
  | Data None => throw (Err "No user returned from signup")
  | Data (Some userId) =>
      try_catch
        (let row := mkCompanyInsert companyName "" [] "" [] "" "" in
         r <- request (InsertCompany row) (insert_company row) ;;
         match r with
         | Failure companyError => throw companyError
         | Data None => throw (Err "No company returned from insert")
         | Data (Some companyData) =>
             let companyId := Company.id companyData in
             let urow := User.mk userId email firstName lastName "user" companyId in
             r <- request (InsertUser urow) (insert_user urow) ;;
             match r with
             | Failure userError => throw userError
             | Data _ => loadUserData userId
             end
         end)
        (fun error => throw error)
  end.

Definition signOut : M unit :=
  request AuthSignOut sign_out ;;
  setUser None ;;
  setCompany None ;;
  setPack None.

(** ** Login page (src/pages/Login.tsx) *)

Module Login.

Definition setError (s : string) : M unit :=
  fun w => (Normal tt,
            with_login (mkLogin (lg_email (login w)) (lg_password (login w))
                                (rememberMe (login w)) s (lg_loading (login w))) w).
Definition setLoading (b : bool) : M unit :=
  fun w => (Normal tt,
            with_login (mkLogin (lg_email (login w)) (lg_password (login w))
                                (rememberMe (login w)) (lg_error (login w)) b) w).

Definition handleSubmit : M unit :=
  fun w =>
    let email := lg_email (login w) in
    let password := lg_password (login w) in
    let rememberMe := rememberMe (login w) in
    (setError "" ;;
     setLoading true ;;
     finally
       (try_catch
          (signIn email password ;;
           (if rememberMe
            then setItem "rememberMe" "true" ;; setItem "rememberedEmail" email
            else removeItem "rememberMe" ;; removeItem "rememberedEmail") ;;
           navigate "/dashboard")
          (fun err =>
             setError (if truthy (message err) then message err
                       else "Erreur de connexion")))
       (setLoading false)) w.

End Login.

(** ** PostGenerator page *)

Module PostGenerator.

Definition setTemplates (l : list Template.t) : M unit :=
  fun w =>
    let g := generator w in
    (Normal tt,
     with_generator
       (mkGenerator (currentStep g) (platform g) (format g) l (selectedTemplate g)
                    (loadingTemplates g) (categoryFilter g) (userSuggestions g)
                    (generating g) (generatedPost g)) w).
Definition setLoadingTemplates (b : bool) : M unit :=
  fun w =>
    let g := generator w in
    (Normal tt,
     with_generator
       (mkGenerator (currentStep g) (platform g) (format g) (templates g)
                    (selectedTemplate g) b (categoryFilter g) (userSuggestions g)
                    (generating g) (generatedPost g)) w).
Definition setGenerating (b : bool) : M unit :=
  fun w =>
    let g := generator w in
    (Normal tt,
     with_generator
       (mkGenerator (currentStep g) (platform g) (format g) (templates g)
                    (selectedTemplate g) (loadingTemplates g) (categoryFilter g)
                    (userSuggestions g) b (generatedPost g)) w).
Definition setGeneratedPost (p : option Generated) : M unit :=
  fun w =>
    let g := generator w in
    (Normal tt,
     with_generator
       (mkGenerator (currentStep g) (platform g) (format g) (templates g)
                    (selectedTemplate g) (loadingTemplates g) (categoryFilter g)
                    (userSuggestions g) (generating g) p) w).

(** The templates offered at step 2 for the chosen platform and format. *)
Definition loadTemplates : M unit :=
  fun w =>
    let platform := platform (generator w) in
    let format := format (generator w) in
    (setLoadingTemplates true ;;
     finally
       (try_catch
          (r <- request (SelectTemplates platform format)
                        (select_templates platform format) ;;
           match r with
           | Failure error => throw error
           | Data data => setTemplates data
           end)
          (fun error =>
             console_error "Erreur chargement templates:" error ;;
             setTemplates []))
       (setLoadingTemplates false)) w.

(** The list rendered at step 2: [templates] under the category filter. *)
Definition visibleTemplates (g : GeneratorState) : list Template.t :=
  filter (fun t => (categoryFilter g =? "all")
                   || (Template.category t =? categoryFilter g))
         (templates g).

Definition quota_reached : string :=
  "Vous avez atteint votre limite mensuelle de posts !".
Definition generation_failed : string :=
  "Erreur lors de la génération du post. Réessayez.".

Definition payload (company : Company.t) (platform format : string)
           (selectedTemplate : Template.t) (userSuggestions : string) : Payload :=
  mkPayload (Company.id company) (Company.name company)
            (Company.business_sector company) (Company.services company)
            (Company.target_audience company) (Company.brand_colors company)
            (Company.tone_of_voice company) (Company.visual_style company)
            platform format (Template.id selectedTemplate)
            (Template.name selectedTemplate) (Template.prompt_base selectedTemplate)
            userSuggestions.

(** The part of [handleGenerate] after its two guards: webhook, insert,
    counter, result. *)
Definition generate (company : Company.t) (pack : option Pack.t)
           (selectedTemplate : Template.t)
           (platform format userSuggestions : string) : M unit :=
  setGenerating true ;;
  finally
    (try_catch
       (response <- fetch (payload company platform format selectedTemplate
                                   userSuggestions) ;;
        if negb (fst response) then throw (Err "Erreur génération")
        else
          data <- json (snd response) ;;
          created_at <- toISOString_now ;;
          let row := mkPostInsert (Company.id company) platform format
                                  (Template.id selectedTemplate) userSuggestions
                                  (image_url data) (caption data) (hashtags data)
                                  created_at in
          r <- request (InsertGeneratedPost row) (insert_generated_post row) ;;
          match r with
          | Failure insertError => throw insertError
          | Data _ =>
              match pack with
              | Some pack =>
                  request (UpdatePackPostsUsed (Pack.id pack) (Pack.posts_used pack + 1))
                          (update_pack_posts_used (Pack.id pack)
                                                  (Pack.posts_used pack + 1)) ;;
                  ret tt
              | None => ret tt
              end ;;
              setGeneratedPost
                (Some (mkGenerated (image_url data) (caption data) (hashtags data)))
          end)
       (fun error =>
          console_error "Erreur génération:" error ;;
          alert generation_failed))
    (setGenerating false).

(** The quota test: a pack is loaded and its counter has reached the limit. *)
Definition over_quota (pack : option Pack.t) : bool :=
  match pack with
  | Some pack => (Pack.monthly_posts_limit pack <=? Pack.posts_used pack)%Z
  | None => false
  end.

Definition handleGenerate : M unit :=
  fun w =>
    let company := company (auth w) in
    let pack := pack (auth w) in
    let selectedTemplate := selectedTemplate (generator w) in
    let platform := platform (generator w) in
    let format := format (generator w) in
    let userSuggestions := userSuggestions (generator w) in
    match company, selectedTemplate with
    | Some company, Some selectedTemplate =>
        if negb (truthy (Company.id company)) then ret tt w
        else if over_quota pack then alert quota_reached w
        else generate company pack selectedTemplate platform format
                      userSuggestions w
    | _, _ => ret tt w
    end.

End PostGenerator.

(** ** Profile page *)

Module Profile.

Definition setServices (l : list string) : M unit :=
  fun w =>
    let p := profile w in
    (Normal tt,
     with_profile
       (mkProfile (pf_name p) (businessSector p) l (targetAudience p) (brandColors p)
                  (logoUrl p) (toneOfVoice p) (visualStyle p) (pf_loading p)
                  (pf_message p) (newService p)) w).
Definition setNewService (s : string) : M unit :=
  fun w =>
    let p := profile w in
    (Normal tt,
     with_profile
       (mkProfile (pf_name p) (businessSector p) (services p) (targetAudience p)
                  (brandColors p) (logoUrl p) (toneOfVoice p) (visualStyle p)
                  (pf_loading p) (pf_message p) s) w).
Definition setLoading (b : bool) : M unit :=
  fun w =>
    let p := profile w in
    (Normal tt,
     with_profile
       (mkProfile (pf_name p) (businessSector p) (services p) (targetAudience p)
                  (brandColors p) (logoUrl p) (toneOfVoice p) (visualStyle p)
                  b (pf_message p) (newService p)) w).
Definition setMessage (m : option (MessageType * string)) : M unit :=
  fun w =>
    let p := profile w in
    (Normal tt,
     with_profile
       (mkProfile (pf_name p) (businessSector p) (services p) (targetAudience p)
                  (brandColors p) (logoUrl p) (toneOfVoice p) (visualStyle p)
                  (pf_loading p) m (newService p)) w).

(** The effect on [company]: the form takes the values of the loaded
    company. *)
Definition loadCompany : M unit :=
  fun w =>
    match company (auth w) with
    | Some c =>
        (Normal tt,
         with_profile
           (mkProfile (Company.name c) (Company.business_sector c)
                      (Company.services c) (Company.target_audience c)
                      (Company.brand_colors c)
                      (match Company.logo_url c with Some u => u | None => "" end)
                      (Company.tone_of_voice c) (Company.visual_style c)
                      (pf_loading (profile w)) (pf_message (profile w))
                      (newService (profile w))) w)
    | None => (Normal tt, w)
    end.

Definition handleAddService : M unit :=
  fun w =>
    let newService := newService (profile w) in
    let services := services (profile w) in
    (if truthy (trim newService) && negb (includes services (trim newService))
     then setServices (services ++ [trim newService]) ;; setNewService ""
     else ret tt) w.

Definition handleRemoveService (serviceToRemove : string) : M unit :=
  fun w =>
    setServices (filter (fun s => negb (s =? serviceToRemove))
                        (services (profile w))) w.

Definition company_not_found : string := "Erreur : entreprise non trouvée".
Definition saved : string := "✅ Profil mis à jour avec succès !".
Definition save_failed : string := "Erreur lors de la mise à jour".

Definition handleSubmit : M unit :=
  fun w =>
    let p := profile w in
    match company (auth w) with
    | Some company =>
        if negb (truthy (Company.id company))
        then setMessage (Some (failure, company_not_found)) w
        else
          (setLoading true ;;
           setMessage None ;;
           finally
             (try_catch
                (updated_at <- toISOString_now ;;
                 let row :=
                   mkCompanyUpdate (pf_name p) (businessSector p) (services p)
                                   (targetAudience p) (brandColors p)
                                   (if truthy (logoUrl p) then Some (logoUrl p)
                                    else None)
                                   (toneOfVoice p) (visualStyle p) updated_at in
                 r <- request (UpdateCompany (Company.id company) row)
                              (update_company (Company.id company) row) ;;
                 match r with
                 | Failure error => throw error
                 | Data _ =>
                     refreshData ;;
                     setMessage (Some (success, saved)) ;;
                     emit ScrollToTop
                 end)
                (fun error =>
                   console_error "Erreur mise à jour:" error ;;
                   setMessage (Some (failure, save_failed))))
             (setLoading false)) w
    | None => setMessage (Some (failure, company_not_found)) w
    end.

End Profile.

(** ** Notions used to state the properties *)

(** The failure scripted for the [n]-th coming backend request, if any. *)
Definition fault_at (n : nat) (w : World) : option error := nth n (faults w) None.

(** The reply the client gets to its [n]-th coming request, when the
    tables are [d] at that time: the scripted failure, or the backend's
    answer. *)
Definition reply_at {A} (n : nat) (w : World) (serve : DB -> reply A * DB) (d : DB)
  : reply A :=
  match fault_at n w with
  | Some e => Failure e
  | None => fst (serve d)
  end.

(** The webhook answered with a usable result. *)
Definition webhook_ok (r : WebhookReply) : bool :=
  match r with
  | Response true (Some _) => true
  | _ => false
  end.

(** The identifier the backend will draw next is not yet a key of
    [generated_post]. *)
Definition fresh_post_id (d : DB) : bool :=
  negb (existsb (fun g => GeneratedPost.id g =? uuid d (issued d))
                (generated_post_tbl d)).

(** The world after a chain in which the user and the company were read. *)
Definition loaded (w : World) (uid : string) (u : User.t) (c : Company.t) : World :=
  mkWorld (db w) (skipn 3 (faults w)) (webhook w) (now w) (storage w)
          (trace w ++ [Net (SelectUser uid);
                       Net (SelectCompany (User.company_id u));
                       Net (SelectActivePack (User.company_id u))])
          (mkAuth (Some u) (Some c)
                  (match reply_at 2 w (select_active_pack (User.company_id u)) (db w) with
                   | Data p => Some p
                   | Failure _ => pack (auth w)
                   end)
                  false)
          (generator w) (profile w) (login w).

(** The world once the sign-in request has been answered with identity [i]. *)
Definition signed_in (w : World) (email password : string) (i : AuthIdentity) : World :=
  mkWorld (with_session (Some (ident_id i)) (db w)) (tl (faults w)) (webhook w) (now w)
          (storage w)
          (trace w ++ [Net (AuthSignInWithPassword email password)])
          (auth w) (generator w) (profile w) (login w).

(** The row [signUp] inserts for a new company: the name, and empty
    profile fields. *)
Definition blank_company (companyName : string) : CompanyInsert :=
  mkCompanyInsert companyName "" [] "" [] "" "".

(** The world once a request has been sent and answered: the call is in
    the trace, its scripted answer is consumed, and the tables are as the
    backend left them. *)
Definition answered {A} (c : Call) (serve : DB -> reply A * DB) (w : World) : World :=
  mkWorld (match fault_at 0 w with
           | Some _ => db w
           | None => snd (serve (db w))
           end)
          (tl (faults w)) (webhook w) (now w) (storage w) (trace w ++ [Net c])
          (auth w) (generator w) (profile w) (login w).

(** The world once the three provisioning requests of a sign-up have been
    answered. *)
Definition provisioned (w : World) (email password : string) (urow : User.t)
           (companyName : string) : World :=
  answered (InsertUser urow) (insert_user urow)
    (answered (InsertCompany (blank_company companyName))
              (insert_company (blank_company companyName))
       (answered (AuthSignUp email password) (sign_up email password) w)).

(** ** Sample data

    A small salon, its owner, a template and a plan, used to run the
    handlers on concrete worlds. *)

Module Sample.

Definition uuids (n : nat) : string := String (ascii_of_nat (97 + n)) "-uuid".

Definition owner : User.t :=
  User.mk "u1" "zoe@spa.example" "Zoe" "Martin" "user" "c1".

Definition salon : Company.t :=
  Company.mk "c1" "Spa Zen" "wellness" ["Massage"; "Facial"] "adults"
             ["#000000"; "#ffffff"] None "warm" "minimal".

Definition plan (used limit : Z) : Pack.t :=
  Pack.mk "p1" "c1" "starter" limit used 29 "active".

Definition story : Template.t :=
  Template.mk "t1" "Promo story" "promotion" "A bright promotional story" None
              ["wellness"] ["instagram"; "facebook"] ["story"; "post"] true.

Definition retired_story : Template.t :=
  Template.mk "t2" "Old story" "promotion" "A retired story" None
              ["wellness"] ["instagram"] ["story"] false.

Definition feed_post : Template.t :=
  Template.mk "t3" "Feed post" "news" "A plain feed post" None
              ["wellness"] ["instagram"] ["post"] true.

Definition picture : Generated :=
  mkGenerated "https://img.example/1.png" "Relax today" ["spa"; "zen"].

Definition zoe : AuthIdentity := mkIdentity "u1" "zoe@spa.example" "s3cret".

(** The backend of the salon, with the plan at [used] posts out of
    [limit]. *)
Definition backend (used limit : Z) : DB :=
  mkDB [zoe] (Some "u1") [owner] [salon] [plan used limit]
       [story; retired_story; feed_post] [] uuids 0.

Definition fresh_generator : GeneratorState :=
  mkGenerator Step1 "" "" [] None false "all" "" false None.

Definition empty_form : ProfileState :=
  mkProfile "" "" [] "" ["#000000"; "#ffffff"] "" "" "" false None "".

Definition empty_login : LoginState := mkLogin "" "" false "" false.

Definition clock : string := "2026-01-01T00:00:00.000Z".

(** The generator at step 3: instagram story, template chosen, the owner
    signed in with the plan as loaded. *)
Definition at_step3 (used limit : Z) (fs : list (option error))
           (hk : list WebhookReply) : World :=
  mkWorld (backend used limit) fs hk clock [] []
          (mkAuth (Some owner) (Some salon) (Some (plan used limit)) false)
          (mkGenerator Step3 "instagram" "story" [story] (Some story) false "all"
                       "-20% this week" false None)
          empty_form empty_login.

(** The generator arriving at step 2 with instagram and story chosen. *)
Definition at_step2 (fs : list (option error)) : World :=
  mkWorld (backend 0 30) fs [] clock [] []
          (mkAuth (Some owner) (Some salon) (Some (plan 0 30)) false)
          (mkGenerator Step2 "instagram" "story" [] None false "all" "" false None)
          empty_form empty_login.

(** The profile page of the salon, with [entry] typed in the new-service
    box. *)
Definition at_profile (entry : string) (fs : list (option error)) : World :=
  mkWorld (backend 0 30) fs [] clock [] []
          (mkAuth (Some owner) (Some salon) (Some (plan 0 30)) false)
          fresh_generator
          (mkProfile "Spa Zen" "wellness" ["Massage"; "Facial"] "adults"
                     ["#000000"; "#ffffff"] "" "warm" "minimal" false None entry)
          empty_login.

(** A backend where the identity exists but its [user] row was never
    written. *)
Definition orphaned : DB :=
  mkDB [zoe] None [] [salon] [plan 0 30] [story] [] uuids 0.

(** The backend of the salon once its plan was cancelled: the row is
    still there, no longer [active]. *)
Definition lapsed : DB :=
  mkDB [zoe] (Some "u1") [owner] [salon]
       [Pack.mk "p1" "c1" "starter" 30 0 29 "cancelled"]
       [story; retired_story; feed_post] [] uuids 0.

(** A backend nobody has registered with yet. *)
Definition unused : DB := mkDB [] None [] [] [] [story] [] uuids 0.

(** The login page, filled in, nobody signed in. *)
Definition at_login (d : DB) (fs : list (option error)) : World :=
  mkWorld d fs [] clock [] [] (mkAuth None None None true) fresh_generator empty_form
          (mkLogin "zoe@spa.example" "s3cret" false "" false).

End Sample.


(** ** Repeated attempts *)

(** The handler run [n] times in a row. *)
Fixpoint attempts (n : nat) (h : M unit) : M unit :=
  match n with
  | O => ret tt
  | S k => h ;; attempts k h
  end.

Definition is_fetch (c : Call) : bool :=
  match c with Fetch _ => true | _ => false end.

Definition is_counter_update (c : Call) : bool :=
  match c with UpdatePackPostsUsed _ _ => true | _ => false end.

(** How many times the webhook was called in a trace. *)
Definition fetches (tr : list Event) : nat := length (filter is_fetch (calls tr)).

(** How many counter updates were sent in a trace. *)
Definition counter_updates (tr : list Event) : nat :=
  length (filter is_counter_update (calls tr)).

(** ** The convention on services *)

(** No stored company lists a service twice. *)
Definition db_wf (d : DB) : Prop :=
  Forall (fun c => NoDup (Company.services c)) (company_tbl d).

(** No list of services in sight holds a duplicate: not the form's, not
    the loaded company's, not any stored company's. *)
Definition services_wf (w : World) : Prop :=
  NoDup (services (profile w))
  /\ (forall c, company (auth w) = Some c -> NoDup (Company.services c))
  /\ db_wf (db w).

(** [m] keeps the convention, and the values it returns satisfy [Q]. *)
Definition keeps {A} (m : M A) (Q : A -> Prop) : Prop :=
  forall w,
    services_wf w ->
    services_wf (snd (m w)) /\ (forall a, fst (m w) = Normal a -> Q a).

(** What the user can do, screen by screen. *)
Inductive Action : Type :=
| DoSignIn (email password : string)
| DoSignUp (email password firstName lastName companyName : string)
| DoSignOut
| DoRefresh
| DoLoginSubmit
| DoLoadTemplates
| DoGenerate
| DoTypeService (text : string)
| DoAddService
| DoRemoveService (s : string)
| DoLoadCompany
| DoSaveProfile.

Definition perform (a : Action) : M unit :=
  match a with
  | DoSignIn email password => signIn email password
  | DoSignUp email password firstName lastName companyName =>
      signUp email password firstName lastName companyName
  | DoSignOut => signOut
  | DoRefresh => refreshData
  | DoLoginSubmit => Login.handleSubmit
  | DoLoadTemplates => PostGenerator.loadTemplates
  | DoGenerate => PostGenerator.handleGenerate
  | DoTypeService text => Profile.setNewService text
  | DoAddService => Profile.handleAddService
  | DoRemoveService s => Profile.handleRemoveService s
  | DoLoadCompany => Profile.loadCompany
  | DoSaveProfile => Profile.handleSubmit
  end.

(** The world after a sequence of actions, whatever each one threw. *)
Fixpoint perform_all (l : list Action) (w : World) : World :=
  match l with
  | [] => w
  | a :: l' => perform_all l' (snd (perform a w))
  end.

(** * Further code of the application

    The effects of [AuthProvider], the remaining handlers of the pages and
    the figures of the dashboard. *)

(** ** AuthProvider: the effect run on mount *)

(** The first half of the effect, [getSession().then(...)]: the callback,
    for the [session] the client answered with.  It loads the session's
    user, or stops loading. *)
Definition initialize (session : option string) : M unit :=
  match session with
  | Some uid => loadUserData uid
  | None => setLoading false
  end.

(** The callback given to [onAuthStateChange], for a notification that
    carries [session]. *)
Definition onAuthStateChange (session : option string) : M unit :=
  match session with
  | Some uid => loadUserData uid
  | None =>
      setUser None ;;
      setCompany None ;;
      setPack None ;;
      setLoading false
  end.

(** ** Profile page: leaving *)

Definition handleSignOut : M unit :=
  signOut ;;
  navigate "/login".

(** ** PostGenerator page: the wizard *)

Definition setCurrentStep (s : Step) : M unit :=
  fun w =>
    let g := generator w in
    (Normal tt,
     with_generator
       (mkGenerator s (platform g) (format g) (templates g) (selectedTemplate g)
                    (loadingTemplates g) (categoryFilter g) (userSuggestions g)
                    (generating g) (generatedPost g)) w).
Definition setPlatform (p : string) : M unit :=
  fun w =>
    let g := generator w in
    (Normal tt,
     with_generator
       (mkGenerator (currentStep g) p (format g) (templates g) (selectedTemplate g)
                    (loadingTemplates g) (categoryFilter g) (userSuggestions g)
                    (generating g) (generatedPost g)) w).
Definition setFormat (f : string) : M unit :=
  fun w =>
    let g := generator w in
    (Normal tt,
     with_generator
       (mkGenerator (currentStep g) (platform g) f (templates g) (selectedTemplate g)
                    (loadingTemplates g) (categoryFilter g) (userSuggestions g)
                    (generating g) (generatedPost g)) w).
Definition setSelectedTemplate (t : option Template.t) : M unit :=
  fun w =>
    let g := generator w in
    (Normal tt,
     with_generator
       (mkGenerator (currentStep g) (platform g) (format g) (templates g) t
                    (loadingTemplates g) (categoryFilter g) (userSuggestions g)
                    (generating g) (generatedPost g)) w).
Definition setUserSuggestions (s : string) : M unit :=
  fun w =>
    let g := generator w in
    (Normal tt,
     with_generator
       (mkGenerator (currentStep g) (platform g) (format g) (templates g)
                    (selectedTemplate g) (loadingTemplates g) (categoryFilter g) s
                    (generating g) (generatedPost g)) w).
Definition setCategoryFilter (c : string) : M unit :=
  fun w =>
    let g := generator w in
    (Normal tt,
     with_generator
       (mkGenerator (currentStep g) (platform g) (format g) (templates g)
                    (selectedTemplate g) (loadingTemplates g) c (userSuggestions g)
                    (generating g) (generatedPost g)) w).

Definition resetGenerator : M unit :=
  setCurrentStep Step1 ;;
  setPlatform "" ;;
  setFormat "" ;;
  setSelectedTemplate None ;;
  setUserSuggestions "" ;;
  PostGenerator.setGeneratedPost None ;;
  setCategoryFilter "all".

Definition is_step2 (s : Step) : bool :=
  match s with Step2 => true | _ => false end.

(** The effect on [currentStep], [platform] and [format]: the templates
    are fetched on arrival at step 2 with both choices made. *)
Definition templates_effect : M unit :=
  fun w =>
    if is_step2 (currentStep (generator w))
       && truthy (platform (generator w))
       && truthy (format (generator w))
    then PostGenerator.loadTemplates w
    else ret tt w.

(** [Array.from(new Set(l))]: the distinct values, in order of first
    occurrence. *)
Fixpoint distinct (l : list string) : list string :=
  match l with
  | [] => []
  | x :: r => x :: filter (fun y => negb (y =? x)) (distinct r)
  end.

(** The category buttons of step 2 and the count each one shows. *)
Definition categories (g : GeneratorState) : list string :=
  distinct (map Template.category (templates g)).
Definition category_count (g : GeneratorState) (cat : string) : nat :=
  length (filter (fun t => Template.category t =? cat) (templates g)).

(** ** Dashboard page: the figures rendered from the pack *)

Module Dashboard.

(** [pack?.posts_used || 0] *)
Definition postsUsed (pack : option Pack.t) : Z :=
  match pack with
  | Some p => if (Pack.posts_used p =? 0)%Z then 0%Z else Pack.posts_used p
  | None => 0%Z
  end.

(** [pack?.monthly_posts_limit || 30] *)
Definition postsLimit (pack : option Pack.t) : Z :=
  match pack with
  | Some p =>
      if (Pack.monthly_posts_limit p =? 0)%Z then 30%Z else Pack.monthly_posts_limit p
  | None => 30%Z
  end.

Definition remainingPosts (pack : option Pack.t) : Z :=
  (postsLimit pack - postsUsed pack)%Z.

(** The line under the usage bar: how many posts are left, or that the
    monthly limit is reached. *)
Inductive UsageLine : Type :=
| PostsLeft (n : Z) (plural : bool)
| LimitReached.

Definition usageLine (pack : option Pack.t) : UsageLine :=
  if (0 <? remainingPosts pack)%Z
  then PostsLeft (remainingPosts pack) (1 <? remainingPosts pack)%Z
  else LimitReached.

End Dashboard.

(** ** Notions used to state the further properties *)

(** [localStorage.getItem] *)
Definition getItem (key : string) (st : list (string * string)) : option string :=
  match find (fun kv => fst kv =? key) st with
  | Some kv => Some (snd kv)
  | None => None
  end.

(** The counter updates sent in a trace: key and value, in order. *)
Definition counter_updates_sent (tr : list Event) : list (string * Z) :=
  flat_map (fun c => match c with
                     | UpdatePackPostsUsed id n => [(id, n)]
                     | _ => []
                     end) (calls tr).

(** The alerts shown in a trace, in order. *)
Definition alerts (tr : list Event) : list string :=
  flat_map (fun e => match e with Alert msg => [msg] | _ => [] end) tr.
(** * Properties *)

(** ** Shared lemmas and proof steps *)

Lemma calls_app (t1 t2 : list Event) : calls (t1 ++ t2) = calls t1 ++ calls t2.
Proof. unfold calls. apply flat_map_app. Qed.

Ltac unfold_monad :=
  unfold finally, try_catch, bind, ret, throw, request, fetch, json,
    toISOString_now, alert, console_error, navigate, emit, setItem, removeItem,
    setUser, setCompany, setPack, setLoading in *.

(** Case analysis on the head of a fault script, keeping the answer. *)
Ltac split_faults fs :=
  let e := fresh "e" in
  let rest := fresh "rest" in
  destruct fs as [| [e |] rest].

(** *** Sign out *)

(** C6. Sign-out sends the session-invalidation request first, then clears
    User, Company and Pack, whether the backend answered with a failure or
    not; the loading flag is left as it was. *)
Theorem C6_sign_out_clears_state (w : World) :
  exists w',
    signOut w = (Normal tt, w')
    /\ trace w' = trace w ++ [Net AuthSignOut]
    /\ user (auth w') = None
    /\ company (auth w') = None
    /\ pack (auth w') = None
    /\ loading (auth w') = loading (auth w)
    /\ (forall e, fault_at 0 w = Some e -> db w' = db w)
    /\ (fault_at 0 w = None -> db w' = with_session None (db w)).
Proof.
  destruct w as [d fs hk nw st tr a g pf lg].
  unfold signOut, sign_out, fault_at. unfold_monad. cbn.
  split_faults fs; cbn; eexists; (split; [reflexivity |]); cbn;
    repeat split; intros; try discriminate; reflexivity.
Qed.

Lemma C6_sign_out_clears_state_witness :
  exists w',
    signOut (Sample.at_step3 3 30 [Some (Err "network unreachable")] [])
    = (Normal tt, w')
    /\ user (auth w') = None
    /\ company (auth w') = None
    /\ pack (auth w') = None
    /\ session (db w') = Some "u1".
Proof.
  destruct (C6_sign_out_clears_state
              (Sample.at_step3 3 30 [Some (Err "network unreachable")] []))
    as (w' & E & _ & Hu & Hc & Hp & _ & Hd & _).
  exists w'. split; [exact E |]. split; [exact Hu |]. split; [exact Hc |].
  split; [exact Hp |].
  rewrite (Hd (Err "network unreachable") eq_refl). reflexivity.
Defined.

(** *** Usage accounting in the generator *)

Import PostGenerator.

Ltac unfold_generator :=
  unfold handleGenerate, generate, over_quota, setGenerating, setGeneratedPost,
    setTemplates, setLoadingTemplates in *.

Lemma over_quota_spec (p : Pack.t) :
  over_quota (Some p) = true <-> (Pack.posts_used p >= Pack.monthly_posts_limit p)%Z.
Proof. unfold over_quota. rewrite Z.leb_le. lia. Qed.

(** C1. With a Pack loaded: an attempt at or over the limit is rejected
    with no request sent and no state changed (the alert is all that
    happens when a company and a template are there); an attempt at limit minus
    one goes through and, once the webhook and the insert have succeeded,
    the counter update that is sent carries exactly the limit (old value
    plus one), which is what the pack row holds when the backend applies
    it. *)
Theorem C1_quota_boundary (w : World) (p : Pack.t) :
  pack (auth w) = Some p ->
  ((Pack.posts_used p >= Pack.monthly_posts_limit p)%Z ->
   exists w',
     handleGenerate w = (Normal tt, w')
     /\ calls (trace w') = calls (trace w)
     /\ db w' = db w /\ auth w' = auth w /\ generator w' = generator w
     /\ faults w' = faults w /\ webhook w' = webhook w
     /\ (forall c t,
            company (auth w) = Some c ->
            truthy (Company.id c) = true ->
            selectedTemplate (generator w) = Some t ->
            trace w' = trace w ++ [Alert quota_reached]))
  /\
  (forall c t g hs,
      Pack.posts_used p = (Pack.monthly_posts_limit p - 1)%Z ->
      company (auth w) = Some c ->
      truthy (Company.id c) = true ->
      selectedTemplate (generator w) = Some t ->
      webhook w = Response true (Some g) :: hs ->
      fault_at 0 w = None ->
      fresh_post_id (db w) = true ->
      exists w',
        handleGenerate w = (Normal tt, w')
        /\ calls (trace w') =
           calls (trace w)
           ++ [Fetch (payload c (platform (generator w)) (format (generator w)) t
                              (userSuggestions (generator w)));
               InsertGeneratedPost
                 (mkPostInsert (Company.id c) (platform (generator w))
                               (format (generator w)) (Template.id t)
                               (userSuggestions (generator w))
                               (image_url g) (caption g) (hashtags g) (now w));
               UpdatePackPostsUsed (Pack.id p) (Pack.monthly_posts_limit p)]
        /\ (Pack.monthly_posts_limit p = Pack.posts_used p + 1)%Z
        /\ (fault_at 1 w = None ->
            pack_tbl (db w') =
            map (fun q => if Pack.id q =? Pack.id p
                          then set_posts_used (Pack.monthly_posts_limit p) q else q)
                (pack_tbl (db w)))).
Proof.
  intros Hp. split.
  - intros Hq.
    assert (Ho : over_quota (pack (auth w)) = true)
      by (rewrite Hp; apply over_quota_spec; exact Hq).
    unfold handleGenerate.
    destruct (company (auth w)) as [c |] eqn:Ec;
      [destruct (selectedTemplate (generator w)) as [t |] eqn:Et;
       [destruct (truthy (Company.id c)) eqn:Eid; cbn [negb]; [rewrite Ho |] |] |];
      eexists; (split; [reflexivity |]); destruct w; cbn in *;
      repeat split;
      try (rewrite calls_app; cbn; apply app_nil_r);
      intros c' t' Hc' Hid' Ht'; congruence.
  - intros c t g hs Hq Hc Hid Ht Hw Hf Hfr.
    assert (Hlim : (Pack.monthly_posts_limit p = Pack.posts_used p + 1)%Z) by lia.
    assert (Ho : (Pack.monthly_posts_limit p <=? Pack.posts_used p)%Z = false)
      by (apply Z.leb_gt; lia).
    destruct w as [d fs hk nw st tr a gs pf lg].
    unfold fault_at, fresh_post_id in *. cbn in Hp, Hc, Ht, Hw, Hf, Hfr.
    apply negb_true_iff in Hfr.
    unfold_generator. unfold insert_generated_post, update_pack_posts_used.
    unfold_monad. cbn.
    rewrite Hc, Ht, Hid, Hp, Ho, Hw, <- Hlim. cbn.
    split_faults fs; cbn in Hf; try discriminate; cbn; rewrite Hfr; cbn.
    + eexists. split; [reflexivity |]. cbn.
      repeat rewrite calls_app. cbn. rewrite <- !app_assoc. cbn.
      repeat split. 
    + split_faults rest; cbn;
        (eexists; split; [reflexivity |]); cbn;
        repeat rewrite calls_app; cbn; rewrite <- !app_assoc; cbn;
        repeat split; intros; try discriminate; reflexivity.
Qed.

Lemma C1_quota_boundary_witness :
  (exists w',
      handleGenerate (Sample.at_step3 30 30 [] [Response true (Some Sample.picture)])
      = (Normal tt, w')
      /\ calls (trace w') = [])
  /\ (exists w',
         handleGenerate (Sample.at_step3 29 30 [] [Response true (Some Sample.picture)])
         = (Normal tt, w')
         /\ In (UpdatePackPostsUsed "p1" 30) (calls (trace w'))
         /\ map Pack.posts_used (pack_tbl (db w')) = [30%Z]).
Proof.
  split.
  - destruct (proj1 (C1_quota_boundary
                       (Sample.at_step3 30 30 [] [Response true (Some Sample.picture)])
                       (Sample.plan 30 30) eq_refl)) as (w' & E & Hc & _).
    + cbn. lia.
    + exists w'. split; [exact E | exact Hc].
  - destruct (proj2 (C1_quota_boundary
                       (Sample.at_step3 29 30 [] [Response true (Some Sample.picture)])
                       (Sample.plan 29 30) eq_refl)
                    Sample.salon Sample.story Sample.picture [] eq_refl eq_refl
                    eq_refl eq_refl eq_refl eq_refl eq_refl)
      as (w' & E & Hc & _ & Hd).
    exists w'. split; [exact E |]. split.
    + rewrite Hc. cbn. right. right. left. reflexivity.
    + rewrite (Hd eq_refl). reflexivity.
Defined.

(** Every path of the handler, one case per answer of the network. *)
Ltac explore :=
  repeat (cbn;
          match goal with
          | |- context [match ?x with _ => _ end] => is_var x; destruct x
          | |- context [match ?x with _ => _ end] =>
              lazymatch x with
              | context [match _ with _ => _ end] => fail
              | _ => destruct x eqn:?
              end
          end).

(** Without a pack, one attempt calls the webhook once and sends no
    counter update; the session state and the chosen template stay. *)
Lemma handleGenerate_no_pack_step (w : World) (c : Company.t) (t : Template.t) :
  pack (auth w) = None ->
  company (auth w) = Some c ->
  truthy (Company.id c) = true ->
  selectedTemplate (generator w) = Some t ->
  exists w',
    handleGenerate w = (Normal tt, w')
    /\ auth w' = auth w
    /\ selectedTemplate (generator w') = Some t
    /\ pack_tbl (db w') = pack_tbl (db w)
    /\ fetches (trace w') = S (fetches (trace w))
    /\ counter_updates (trace w') = counter_updates (trace w).
Proof.
  intros Hp Hc Hid Ht.
  destruct w as [d fs hk nw st tr a gs pf lg]. cbn in Hp, Hc, Ht.
  unfold_generator. unfold insert_generated_post. unfold_monad. cbn.
  rewrite Hc, Ht, Hid, Hp. cbn.
  explore; (eexists; split; [reflexivity |]);
    unfold fetches, counter_updates, calls; cbn;
    repeat rewrite flat_map_app; repeat rewrite filter_app;
    repeat rewrite length_app; cbn;
    repeat split; try assumption; lia.
Qed.

(** Without a pack, when the webhook answers and the insert is accepted:
    two requests, one new row, the result shown, nothing else. *)
Lemma handleGenerate_no_pack_success (w : World) (c : Company.t) (t : Template.t)
      (g : Generated) (hs : list WebhookReply) :
  pack (auth w) = None ->
  company (auth w) = Some c ->
  truthy (Company.id c) = true ->
  selectedTemplate (generator w) = Some t ->
  webhook w = Response true (Some g) :: hs ->
  fault_at 0 w = None ->
  fresh_post_id (db w) = true ->
  let row := mkPostInsert (Company.id c) (platform (generator w))
                          (format (generator w)) (Template.id t)
                          (userSuggestions (generator w))
                          (image_url g) (caption g) (hashtags g) (now w) in
  exists w',
    handleGenerate w = (Normal tt, w')
    /\ trace w' =
       trace w
       ++ [Net (Fetch (payload c (platform (generator w)) (format (generator w)) t
                               (userSuggestions (generator w))));
           Net (InsertGeneratedPost row)]
    /\ generated_post_tbl (db w') =
       generated_post_tbl (db w) ++ [new_post (uuid (db w) (issued (db w))) row]
    /\ generatedPost (generator w') = Some g.
Proof.
  intros Hp Hc Hid Ht Hw Hf Hfr.
  destruct w as [d fs hk nw st tr a gs pf lg]. destruct g as [img cap tags].
  unfold fault_at, fresh_post_id in *. cbn in Hp, Hc, Ht, Hw, Hf, Hfr.
  apply negb_true_iff in Hfr.
  unfold_generator. unfold insert_generated_post. unfold_monad. cbn.
  rewrite Hc, Ht, Hid, Hp, Hw. cbn.
  split_faults fs; cbn in Hf; try discriminate; cbn; rewrite Hfr; cbn;
    (eexists; split; [reflexivity |]); cbn; rewrite <- !app_assoc; cbn;
    repeat split.
Qed.

(** C10. With no Pack loaded, an attempt is never stopped by a quota test
    and never sends a counter update: the webhook is called, the post row
    is inserted when the webhook and the insert succeed, and any number of
    attempts in a row all reach the webhook. *)
Theorem C10_no_pack_is_unlimited (w : World) (c : Company.t) (t : Template.t) :
  pack (auth w) = None ->
  company (auth w) = Some c ->
  truthy (Company.id c) = true ->
  selectedTemplate (generator w) = Some t ->
  (exists w',
      handleGenerate w = (Normal tt, w')
      /\ fetches (trace w') = S (fetches (trace w))
      /\ counter_updates (trace w') = counter_updates (trace w)
      /\ pack_tbl (db w') = pack_tbl (db w)
      /\ (forall g hs,
             webhook w = Response true (Some g) :: hs ->
             fault_at 0 w = None ->
             fresh_post_id (db w) = true ->
             let row := mkPostInsert (Company.id c) (platform (generator w))
                                     (format (generator w)) (Template.id t)
                                     (userSuggestions (generator w))
                                     (image_url g) (caption g) (hashtags g) (now w) in
             trace w' =
             trace w
             ++ [Net (Fetch (payload c (platform (generator w)) (format (generator w))
                                     t (userSuggestions (generator w))));
                 Net (InsertGeneratedPost row)]
             /\ generated_post_tbl (db w') =
                generated_post_tbl (db w)
                ++ [new_post (uuid (db w) (issued (db w))) row]
             /\ generatedPost (generator w') = Some g))
  /\ (forall n,
         exists w',
           attempts n handleGenerate w = (Normal tt, w')
           /\ fetches (trace w') = fetches (trace w) + n
           /\ counter_updates (trace w') = counter_updates (trace w)).
Proof.
  intros Hp Hc Hid Ht. split.
  - destruct (handleGenerate_no_pack_step w c t Hp Hc Hid Ht)
      as (w' & E & _ & _ & Hpk & Hfe & Hcu).
    exists w'. repeat (split; [assumption |]).
    intros g hs Hw Hf Hfr row.
    destruct (handleGenerate_no_pack_success w c t g hs Hp Hc Hid Ht Hw Hf Hfr)
      as (w'' & E' & Htr & Hrow & Hres).
    rewrite E in E'. injection E' as <-. repeat split; assumption.
  - intros n. revert w Hp Hc Ht.
    induction n as [| n IH]; intros w Hp Hc Ht.
    + exists w. cbn. repeat split. lia.
    + destruct (handleGenerate_no_pack_step w c t Hp Hc Hid Ht)
        as (w1 & E & Ha & Hsel & _ & Hfe & Hcu).
      destruct (IH w1) as (w' & E' & Hfe' & Hcu').
      * rewrite Ha. exact Hp.
      * rewrite Ha. exact Hc.
      * exact Hsel.
      * exists w'. cbn. unfold bind. rewrite E. split; [exact E' |].
        split; [lia | congruence].
Qed.

Lemma C10_no_pack_is_unlimited_witness :
  exists w',
    attempts 3 handleGenerate
             (with_auth (mkAuth (Some Sample.owner) (Some Sample.salon) None false)
                        (Sample.at_step3 30 30 [] []))
    = (Normal tt, w')
    /\ fetches (trace w') = 3.
Proof.
  destruct (proj2 (C10_no_pack_is_unlimited
                     (with_auth (mkAuth (Some Sample.owner) (Some Sample.salon) None false)
                                (Sample.at_step3 30 30 [] []))
                     Sample.salon Sample.story eq_refl eq_refl eq_refl eq_refl) 3)
    as (w' & E & Hfe & _).
  exists w'. split; [exact E | exact Hfe].
Defined.

(** *** Failures during generation *)

(** Step 2 fails (transport error, non-success status or a body that is not
    JSON): the error is logged, the failure notice is shown, and nothing
    else is sent or stored. *)
Lemma webhook_failure_is_reported (w : World) (c : Company.t) (t : Template.t) :
  company (auth w) = Some c ->
  truthy (Company.id c) = true ->
  selectedTemplate (generator w) = Some t ->
  over_quota (pack (auth w)) = false ->
  match webhook w with
  | r :: _ => webhook_ok r = false
  | [] => True
  end ->
  exists w' e,
    handleGenerate w = (Normal tt, w')
    /\ trace w' =
       trace w
       ++ [Net (Fetch (payload c (platform (generator w)) (format (generator w)) t
                               (userSuggestions (generator w))));
           ConsoleError "Erreur génération:" e;
           Alert generation_failed]
    /\ db w' = db w
    /\ generatedPost (generator w') = generatedPost (generator w).
Proof.
  intros Hc Hid Ht Hq Hw.
  destruct w as [d fs hk nw st tr a gs pf lg]. cbn in Hc, Ht, Hq, Hw.
  unfold handleGenerate, generate, setGenerating, setGeneratedPost. unfold_monad. cbn.
  rewrite Hc, Ht, Hid, Hq. cbn.
  destruct hk as [| [e | [|] [g |]] hk]; cbn in Hw; try discriminate; cbn;
    do 2 eexists; (split; [reflexivity |]); cbn; rewrite <- !app_assoc; cbn;
    repeat split.
Qed.

(** Step 3 fails (the insert is answered with an error): the error is
    logged, the failure notice is shown, no row is stored and no counter
    update is sent. *)
Lemma insert_failure_is_reported (w : World) (c : Company.t) (t : Template.t)
      (g : Generated) (hs : list WebhookReply) (e : error) :
  company (auth w) = Some c ->
  truthy (Company.id c) = true ->
  selectedTemplate (generator w) = Some t ->
  over_quota (pack (auth w)) = false ->
  webhook w = Response true (Some g) :: hs ->
  fault_at 0 w = Some e ->
  exists w',
    handleGenerate w = (Normal tt, w')
    /\ trace w' =
       trace w
       ++ [Net (Fetch (payload c (platform (generator w)) (format (generator w)) t
                               (userSuggestions (generator w))));
           Net (InsertGeneratedPost
                  (mkPostInsert (Company.id c) (platform (generator w))
                                (format (generator w)) (Template.id t)
                                (userSuggestions (generator w))
                                (image_url g) (caption g) (hashtags g) (now w)));
           ConsoleError "Erreur génération:" e;
           Alert generation_failed]
    /\ db w' = db w
    /\ generatedPost (generator w') = generatedPost (generator w).
Proof.
  intros Hc Hid Ht Hq Hw Hf.
  destruct w as [d fs hk nw st tr a gs pf lg].
  unfold fault_at in Hf. cbn in Hc, Ht, Hq, Hw, Hf.
  unfold handleGenerate, generate, setGenerating, setGeneratedPost. unfold_monad. cbn.
  rewrite Hc, Ht, Hid, Hq, Hw. cbn.
  split_faults fs; cbn in Hf; try discriminate. injection Hf as ->. cbn.
  eexists. split; [reflexivity |]. cbn. rewrite <- !app_assoc. cbn. repeat split.
Qed.

(** C2, at the failing input. With a pack loaded under its limit, the
    webhook and the insert succeed and the counter update is answered with
    an error: the handler shows no failure notice and logs nothing; it
    presents the post as generated, the inserted row stays and the
    counter keeps its old value. *)
Theorem C2_counter_update_failure_is_silent
        (w : World) (c : Company.t) (t : Template.t) (p : Pack.t)
        (g : Generated) (hs : list WebhookReply) (e : error) :
  company (auth w) = Some c ->
  truthy (Company.id c) = true ->
  selectedTemplate (generator w) = Some t ->
  pack (auth w) = Some p ->
  (Pack.posts_used p < Pack.monthly_posts_limit p)%Z ->
  webhook w = Response true (Some g) :: hs ->
  fault_at 0 w = None ->
  fresh_post_id (db w) = true ->
  fault_at 1 w = Some e ->
  let row := mkPostInsert (Company.id c) (platform (generator w))
                          (format (generator w)) (Template.id t)
                          (userSuggestions (generator w))
                          (image_url g) (caption g) (hashtags g) (now w) in
  exists w',
    handleGenerate w = (Normal tt, w')
    /\ trace w' =
       trace w
       ++ [Net (Fetch (payload c (platform (generator w)) (format (generator w)) t
                               (userSuggestions (generator w))));
           Net (InsertGeneratedPost row);
           Net (UpdatePackPostsUsed (Pack.id p) (Pack.posts_used p + 1))]
    /\ generatedPost (generator w') = Some g
    /\ generated_post_tbl (db w') =
       generated_post_tbl (db w) ++ [new_post (uuid (db w) (issued (db w))) row]
    /\ pack_tbl (db w') = pack_tbl (db w).
Proof.
  intros Hc Hid Ht Hp Hq Hw Hf Hfr Hf1.
  assert (Ho : (Pack.monthly_posts_limit p <=? Pack.posts_used p)%Z = false)
    by (apply Z.leb_gt; lia).
  destruct w as [d fs hk nw st tr a gs pf lg]. destruct g as [img cap tags].
  unfold fault_at, fresh_post_id in *. cbn in Hc, Ht, Hp, Hw, Hf, Hfr, Hf1.
  apply negb_true_iff in Hfr.
  unfold_generator. unfold insert_generated_post, update_pack_posts_used.
  unfold_monad. cbn.
  rewrite Hc, Ht, Hid, Hp, Ho, Hw. cbn.
  split_faults fs; cbn in Hf, Hf1; try discriminate.
  split_faults rest; cbn in Hf1; try discriminate. injection Hf1 as ->.
  cbn. rewrite Hfr. cbn.
  eexists. split; [reflexivity |]. cbn. rewrite <- !app_assoc. cbn. repeat split.
Qed.

Lemma C2_counter_update_failure_is_silent_witness :
  exists w',
    handleGenerate
      (Sample.at_step3 3 30 [None; Some (Err "permission denied for table pack")]
                       [Response true (Some Sample.picture)])
    = (Normal tt, w')
    /\ existsb (fun ev => match ev with Alert _ => true | _ => false end) (trace w')
       = false
    /\ generatedPost (generator w') = Some Sample.picture
    /\ length (generated_post_tbl (db w')) = 1
    /\ map Pack.posts_used (pack_tbl (db w')) = [3%Z].
Proof.
  destruct (C2_counter_update_failure_is_silent
              (Sample.at_step3 3 30 [None; Some (Err "permission denied for table pack")]
                               [Response true (Some Sample.picture)])
              Sample.salon Sample.story (Sample.plan 3 30) Sample.picture []
              (Err "permission denied for table pack")
              eq_refl eq_refl eq_refl eq_refl eq_refl eq_refl eq_refl eq_refl eq_refl)
    as (w' & E & Htr & Hres & Hrow & Hpk).
  exists w'. split; [exact E |].
  rewrite Htr, Hres, Hrow, Hpk. repeat split.
Defined.

(** *** The load chain *)

Ltac unfold_load :=
  unfold loadUserData, select_user, select_company, select_active_pack in *.

(** The chain always settles normally, with the loading flag cleared and
    the tables as they were. *)
Lemma loadUserData_completes (uid : string) (w : World) :
  exists w',
    loadUserData uid w = (Normal tt, w')
    /\ loading (auth w') = false
    /\ db w' = db w
    /\ generator w' = generator w
    /\ profile w' = profile w
    /\ login w' = login w
    /\ exists evs, trace w' = trace w ++ Net (SelectUser uid) :: evs.
Proof.
  destruct w as [d fs hk nw st tr a gs pf lg].
  unfold_load. unfold_monad. cbn.
  explore; (eexists; split; [reflexivity |]); cbn; rewrite <- ?app_assoc; cbn;
    repeat split; eexists; reflexivity.
Qed.

Lemma loadUserData_loads (uid : string) (w : World) (u : User.t) (c : Company.t) :
  fault_at 0 w = None ->
  users_with_id uid (db w) = [u] ->
  truthy (User.company_id u) = true ->
  fault_at 1 w = None ->
  companies_with_id (User.company_id u) (db w) = [c] ->
  loadUserData uid w = (Normal tt, loaded w uid u c).
Proof.
  intros Hf0 Hu Hcid Hf1 Hc.
  destruct w as [d fs hk nw st tr a gs pf lg].
  unfold fault_at, loaded, reply_at, fault_at in *. cbn in Hf0, Hu, Hf1, Hc.
  unfold_load. unfold_monad. cbn.
  split_faults fs; cbn in Hf0, Hf1; try discriminate; cbn; rewrite Hu; cbn;
    rewrite Hcid; cbn.
  - rewrite Hc. cbn. destruct (single (active_packs (User.company_id u) d));
      cbn; rewrite <- !app_assoc; reflexivity.
  - split_faults rest; cbn in Hf1; try discriminate; cbn; rewrite Hc; cbn.
    + destruct (single (active_packs (User.company_id u) d));
        cbn; rewrite <- !app_assoc; reflexivity.
    + split_faults rest0; cbn;
        try (destruct (single (active_packs (User.company_id u) d)));
        cbn; rewrite <- !app_assoc; reflexivity.
Qed.

(** C5, as amended. When the company has no pack row with status [active]
    and the user and the company are read, the chain still ends normally:
    the pack lookup fails, nothing is logged or thrown, User and Company
    are set and the loading flag is cleared.  The pack field is left as
    the run found it: it stays empty when it was empty, and a pack loaded
    earlier is not cleared. *)
Theorem C5_missing_pack_is_absorbed
        (w : World) (uid : string) (u : User.t) (c : Company.t) :
  fault_at 0 w = None ->
  users_with_id uid (db w) = [u] ->
  truthy (User.company_id u) = true ->
  fault_at 1 w = None ->
  companies_with_id (User.company_id u) (db w) = [c] ->
  active_packs (User.company_id u) (db w) = [] ->
  exists w',
    loadUserData uid w = (Normal tt, w')
    /\ pack (auth w') = pack (auth w)
    /\ (pack (auth w) = None -> pack (auth w') = None)
    /\ user (auth w') = Some u
    /\ company (auth w') = Some c
    /\ loading (auth w') = false
    /\ trace w' =
       trace w ++ [Net (SelectUser uid);
                   Net (SelectCompany (User.company_id u));
                   Net (SelectActivePack (User.company_id u))].
Proof.
  intros Hf0 Hu Hcid Hf1 Hc Hnone.
  exists (loaded w uid u c).
  split; [apply loadUserData_loads; assumption |].
  assert (Hp : pack (auth (loaded w uid u c)) = pack (auth w)).
  { unfold loaded, reply_at, select_active_pack. cbn.
    rewrite Hnone. cbn. destruct (fault_at 2 w); reflexivity. }
  split; [exact Hp |]. split; [intros He; rewrite Hp; exact He |].
  repeat split.
Qed.

Lemma C5_missing_pack_is_absorbed_witness :
  exists w',
    loadUserData "u1"
                 (Sample.at_login
                    (mkDB [Sample.zoe] (Some "u1") [Sample.owner] [Sample.salon] []
                          [] [] Sample.uuids 0) [])
    = (Normal tt, w')
    /\ pack (auth w') = None
    /\ user (auth w') = Some Sample.owner
    /\ company (auth w') = Some Sample.salon
    /\ loading (auth w') = false.
Proof.
  destruct (C5_missing_pack_is_absorbed
              (Sample.at_login
                 (mkDB [Sample.zoe] (Some "u1") [Sample.owner] [Sample.salon] []
                       [] [] Sample.uuids 0) [])
              "u1" Sample.owner Sample.salon
              eq_refl eq_refl eq_refl eq_refl eq_refl eq_refl)
    as (w' & E & _ & Hp & Hu & Hc & Hl & _).
  exists w'. split; [exact E |]. split; [exact (Hp eq_refl) |].
  repeat split; assumption.
Defined.

(** C5 as stated fails: the salon's plan was loaded while it was active and
    has been cancelled since, so the company has no active pack row.  A
    run of the chain (the refresh after saving the profile is one) reads
    the user and the company, the pack lookup finds no row, and the pack
    field is not empty: it still holds the plan loaded before. *)
Lemma C5_missing_pack_counterexample :
  active_packs "c1" Sample.lapsed = []
  /\ pack (auth (with_db Sample.lapsed (Sample.at_profile "" []))) <> None
  /\ exists w',
      loadUserData "u1" (with_db Sample.lapsed (Sample.at_profile "" []))
      = (Normal tt, w')
      /\ refreshData (with_db Sample.lapsed (Sample.at_profile "" []))
         = (Normal tt, w')
      /\ user (auth w') = Some Sample.owner
      /\ company (auth w') = Some Sample.salon
      /\ loading (auth w') = false
      /\ pack (auth w') = Some (Sample.plan 0 30)
      /\ pack (auth w') <> None.
Proof.
  split; [reflexivity |]. split; [discriminate |].
  eexists. split; [vm_compute; reflexivity |].
  split; [vm_compute; reflexivity |].
  repeat split. discriminate.
Qed.

(** A pack loaded earlier is not cleared when the lookup finds no active
    row any more: the field keeps the old value. *)
Lemma stale_pack_is_kept (w : World) (uid : string) (u : User.t) (c : Company.t) :
  fault_at 0 w = None ->
  users_with_id uid (db w) = [u] ->
  truthy (User.company_id u) = true ->
  fault_at 1 w = None ->
  companies_with_id (User.company_id u) (db w) = [c] ->
  active_packs (User.company_id u) (db w) = [] ->
  exists w', loadUserData uid w = (Normal tt, w') /\ pack (auth w') = pack (auth w).
Proof.
  intros Hf0 Hu Hcid Hf1 Hc Hnone.
  exists (loaded w uid u c).
  split; [apply loadUserData_loads; assumption |].
  unfold loaded, reply_at, select_active_pack. cbn.
  rewrite Hnone. cbn. destruct (fault_at 2 w); reflexivity.
Qed.

(** *** Sign in *)

(** A refused sign-in throws the backend's error as it came and touches no
    state. *)
Lemma signIn_refused (w : World) (email password : string) (e : error) :
  reply_at 0 w (sign_in_with_password email password) (db w) = Failure e ->
  exists w',
    signIn email password w = (Thrown e, w')
    /\ auth w' = auth w
    /\ db w' = db w
    /\ trace w' = trace w ++ [Net (AuthSignInWithPassword email password)].
Proof.
  intros Hr.
  destruct w as [d fs hk nw st tr a gs pf lg].
  unfold reply_at, fault_at, sign_in_with_password in Hr. cbn in Hr.
  unfold signIn, sign_in_with_password. unfold_monad. cbn.
  split_faults fs; cbn in Hr; cbn;
    try (destruct (find (credentials_match email password) (identities d)));
    cbn in Hr; try discriminate; injection Hr as <-; cbn;
    eexists; repeat split.
Qed.

(** An accepted sign-in continues with the load chain of the identity. *)
Lemma signIn_accepted (w : World) (email password : string) (i : AuthIdentity) :
  fault_at 0 w = None ->
  find (credentials_match email password) (identities (db w)) = Some i ->
  signIn email password w = loadUserData (ident_id i) (signed_in w email password i).
Proof.
  intros Hf Hi.
  destruct w as [d fs hk nw st tr a gs pf lg].
  unfold fault_at, signed_in in *. cbn in Hf, Hi.
  unfold signIn, sign_in_with_password. unfold bind, request. cbn.
  split_faults fs; cbn in Hf; try discriminate; cbn; rewrite Hi; reflexivity.
Qed.

Lemma reply_at_sign_in (w : World) (email password uid : string) :
  reply_at 0 w (sign_in_with_password email password) (db w) = Data (Some uid) ->
  fault_at 0 w = None
  /\ exists i, find (credentials_match email password) (identities (db w)) = Some i
               /\ ident_id i = uid.
Proof.
  unfold reply_at, sign_in_with_password.
  destruct (fault_at 0 w); [discriminate |].
  destruct (find (credentials_match email password) (identities (db w))) as [i |];
    cbn; [| discriminate].
  intros H. injection H as <-. split; [reflexivity |]. exists i. split; reflexivity.
Qed.

Lemma fault_at_signed_in (n : nat) (w : World) (email password : string)
      (i : AuthIdentity) :
  fault_at n (signed_in w email password i) = fault_at (S n) w.
Proof.
  unfold fault_at, signed_in. cbn. destruct (faults w); [destruct n |]; reflexivity.
Qed.

(** C3, as amended. A refused sign-in throws the backend's error unchanged
    and modifies no entity.  An accepted sign-in runs the load chain for
    the identity and resolves only after it has ended, with the loading
    flag cleared; User and Company are populated when the user row and the
    company row could be read, and then the chain was user, company, pack
    in that order and the login page navigates only afterwards. *)
Theorem C3_sign_in_loads_before_resolving (w : World) (email password : string) :
  (forall e,
      reply_at 0 w (sign_in_with_password email password) (db w) = Failure e ->
      exists w',
        signIn email password w = (Thrown e, w')
        /\ auth w' = auth w
        /\ trace w' = trace w ++ [Net (AuthSignInWithPassword email password)])
  /\
  (forall uid,
      reply_at 0 w (sign_in_with_password email password) (db w) = Data (Some uid) ->
      exists w',
        signIn email password w = (Normal tt, w')
        /\ loading (auth w') = false
        /\ (exists evs,
               trace w' =
               trace w ++ Net (AuthSignInWithPassword email password)
                       :: Net (SelectUser uid) :: evs)
        /\ (forall u c,
               fault_at 1 w = None ->
               users_with_id uid (db w) = [u] ->
               truthy (User.company_id u) = true ->
               fault_at 2 w = None ->
               companies_with_id (User.company_id u) (db w) = [c] ->
               user (auth w') = Some u
               /\ company (auth w') = Some c
               /\ trace w' =
                  trace w ++ [Net (AuthSignInWithPassword email password);
                              Net (SelectUser uid);
                              Net (SelectCompany (User.company_id u));
                              Net (SelectActivePack (User.company_id u))]
               /\ (lg_email (login w) = email ->
                   lg_password (login w) = password ->
                   exists w'',
                     Login.handleSubmit w = (Normal tt, w'')
                     /\ auth w'' = auth w'
                     /\ trace w'' = trace w' ++ [Navigate "/dashboard"]))).
Proof.
  split.
  - intros e Hr. destruct (signIn_refused w email password e Hr) as (w' & E & Ha & _ & Ht).
    exists w'. repeat split; assumption.
  - intros uid Hr.
    destruct (reply_at_sign_in w email password uid Hr) as (Hf0 & i & Hi & <-).
    pose proof (signIn_accepted w email password i Hf0 Hi) as E.
    destruct (loadUserData_completes (ident_id i) (signed_in w email password i))
      as (w' & El & Hl & _ & _ & _ & _ & evs & Ht).
    exists w'. split; [rewrite E; exact El |]. split; [exact Hl |]. split.
    + exists evs. rewrite Ht. cbn. rewrite <- app_assoc. reflexivity.
    + intros u c Hf1 Hu Hcid Hf2 Hc.
      assert (El' : loadUserData (ident_id i) (signed_in w email password i)
                    = (Normal tt, loaded (signed_in w email password i) (ident_id i) u c)).
      { apply loadUserData_loads; try assumption;
          rewrite ?fault_at_signed_in; assumption. }
      rewrite El' in El. injection El as <-.
      split; [reflexivity |]. split; [reflexivity |]. split.
      * cbn. rewrite <- app_assoc. reflexivity.
      * intros <- <-. rewrite El' in E.
        destruct w as [d fs hk nw st tr a gs pf [em pw rm er ld]].
        unfold Login.handleSubmit, Login.setError, Login.setLoading.
        unfold finally, try_catch, bind, navigate, emit, removeItem, setItem. 
        cbn -[signIn loaded signed_in] in *.
        match goal with
        | |- context [signIn em pw ?W] =>
            assert (E2 : signIn em pw W = (Normal tt, loaded (signed_in W em pw i) (ident_id i) u c))
        end.
        { rewrite signIn_accepted with (i := i); [| assumption | assumption ].
          apply loadUserData_loads; try assumption;
            rewrite ?fault_at_signed_in; assumption. }
        rewrite E2. destruct rm; cbn; eexists; repeat split.
Qed.

Lemma C3_sign_in_loads_before_resolving_witness :
  (exists w',
      signIn "zoe@spa.example" "guess" (Sample.at_login (Sample.backend 0 30) [])
      = (Thrown invalid_credentials, w')
      /\ auth w' = mkAuth None None None true)
  /\ (exists w',
         Login.handleSubmit (Sample.at_login (Sample.backend 0 30) [])
         = (Normal tt, w')
         /\ user (auth w') = Some Sample.owner
         /\ company (auth w') = Some Sample.salon
         /\ trace w' =
            [Net (AuthSignInWithPassword "zoe@spa.example" "s3cret");
             Net (SelectUser "u1"); Net (SelectCompany "c1");
             Net (SelectActivePack "c1"); Navigate "/dashboard"]).
Proof.
  split.
  - destruct (proj1 (C3_sign_in_loads_before_resolving
                       (Sample.at_login (Sample.backend 0 30) [])
                       "zoe@spa.example" "guess")
                    invalid_credentials eq_refl) as (w' & E & Ha & _).
    exists w'. split; [exact E | exact Ha].
  - destruct (proj2 (C3_sign_in_loads_before_resolving
                       (Sample.at_login (Sample.backend 0 30) [])
                       "zoe@spa.example" "s3cret")
                    "u1" eq_refl) as (w' & _ & _ & _ & H).
    destruct (H Sample.owner Sample.salon eq_refl eq_refl eq_refl eq_refl eq_refl)
      as (Hu & Hc & Ht & Hlogin).
    destruct (Hlogin eq_refl eq_refl) as (w'' & E & Ha & Ht').
    exists w''. split; [exact E |].
    rewrite Ha, Ht', Ht. repeat split; assumption.
Defined.

(** C3 as stated fails: the credentials are valid and the identity has no
    [user] row (a sign-up that stopped after its first step leaves such an
    identity).  The sign-in resolves, the login page navigates, and neither
    User nor Company is populated; the company and the pack were never
    asked for. *)
Lemma C3_sign_in_counterexample :
  reply_at 0 (Sample.at_login Sample.orphaned [])
           (sign_in_with_password "zoe@spa.example" "s3cret") Sample.orphaned
  = Data (Some "u1")
  /\ exists w',
      Login.handleSubmit (Sample.at_login Sample.orphaned []) = (Normal tt, w')
      /\ user (auth w') = None
      /\ company (auth w') = None
      /\ trace w' =
         [Net (AuthSignInWithPassword "zoe@spa.example" "s3cret");
          Net (SelectUser "u1");
          ConsoleError "Error loading user data:" PGRST116;
          Navigate "/dashboard"].
Proof.
  split; [reflexivity |].
  eexists. split; [vm_compute; reflexivity |]. repeat split.
Qed.

(** *** Sign up *)

Lemma try_catch_rethrow {A} (m : M A) (w : World) :
  try_catch m (fun e => throw e) w = m w.
Proof. unfold try_catch, throw. destruct (m w) as [[a | e] w']; reflexivity. Qed.

(** One request, whatever its answer. *)
Lemma request_run {A} (c : Call) (serve : DB -> reply A * DB) (w : World) :
  request c serve w = (Normal (reply_at 0 w serve (db w)), answered c serve w).
Proof.
  destruct w as [d fs hk nw st tr a gs pf lg].
  unfold request, reply_at, answered, fault_at. cbn.
  split_faults fs; cbn; try reflexivity; destruct (serve d); reflexivity.
Qed.

Lemma fault_at_answered {A} (n : nat) (c : Call) (serve : DB -> reply A * DB)
      (w : World) :
  fault_at n (answered c serve w) = fault_at (S n) w.
Proof.
  unfold fault_at, answered. cbn. destruct (faults w); [destruct n |]; reflexivity.
Qed.

Lemma reply_at_answered {A B} (n : nat) (c : Call) (serve : DB -> reply A * DB)
      (w : World) (serve' : DB -> reply B * DB) (d : DB) :
  reply_at n (answered c serve w) serve' d = reply_at (S n) w serve' d.
Proof. unfold reply_at. rewrite fault_at_answered. reflexivity. Qed.

Lemma reply_at_data {A} (n : nat) (w : World) (serve : DB -> reply A * DB) (d : DB)
      (x : A) :
  reply_at n w serve d = Data x -> fault_at n w = None /\ fst (serve d) = Data x.
Proof. unfold reply_at. destruct (fault_at n w); [discriminate | auto]. Qed.

Lemma db_answered {A} (c : Call) (serve : DB -> reply A * DB) (w : World) :
  fault_at 0 w = None -> db (answered c serve w) = snd (serve (db w)).
Proof. intros H. unfold answered. cbn. rewrite H. reflexivity. Qed.

Lemma db_unanswered {A} (c : Call) (serve : DB -> reply A * DB) (w : World) (e : error) :
  fault_at 0 w = Some e -> db (answered c serve w) = db w.
Proof. intros H. unfold answered. cbn. rewrite H. reflexivity. Qed.

Lemma filter_none_of_existsb {A} (f : A -> bool) (l : list A) :
  existsb f l = false -> filter f l = [].
Proof.
  induction l as [| a l IH]; cbn; [reflexivity |].
  destruct (f a); cbn; [discriminate | exact IH].
Qed.

(** After its three provisioning steps were accepted, [signUp] continues
    with the load chain of the new identity. *)
Lemma signUp_provisions
      (w : World) (email password firstName lastName companyName : string)
      (uid : string) (co : Company.t) :
  reply_at 0 w (sign_up email password) (db w) = Data (Some uid) ->
  reply_at 1 w (insert_company (blank_company companyName))
           (snd (sign_up email password (db w))) = Data (Some co) ->
  let urow := User.mk uid email firstName lastName "user" (Company.id co) in
  reply_at 2 w (insert_user urow)
           (snd (insert_company (blank_company companyName)
                                (snd (sign_up email password (db w))))) = Data urow ->
  signUp email password firstName lastName companyName w
  = loadUserData uid (provisioned w email password urow companyName).
Proof.
  intros Ha Hb urow Hc. subst urow.
  destruct (reply_at_data _ _ _ _ _ Ha) as [Hf0 _].
  destruct (reply_at_data _ _ _ _ _ Hb) as [Hf1 _].
  unfold signUp. fold (blank_company companyName). unfold bind.
  rewrite request_run, Ha, try_catch_rethrow.
  rewrite request_run, reply_at_answered, (db_answered _ _ _ Hf0), Hb.
  rewrite request_run, !reply_at_answered.
  rewrite db_answered by (rewrite fault_at_answered; exact Hf1).
  rewrite (db_answered _ _ _ Hf0), Hc.
  reflexivity.
Qed.

(** Step (b) refused: the error is thrown as it came; the identity of step
    (a) stays and nothing more is sent. *)
Lemma signUp_company_refused
      (w : World) (email password firstName lastName companyName : string)
      (uid : string) (e : error) :
  reply_at 0 w (sign_up email password) (db w) = Data (Some uid) ->
  reply_at 1 w (insert_company (blank_company companyName))
           (snd (sign_up email password (db w))) = Failure e ->
  exists w',
    signUp email password firstName lastName companyName w = (Thrown e, w')
    /\ trace w' = trace w ++ [Net (AuthSignUp email password);
                              Net (InsertCompany (blank_company companyName))]
    /\ identities (db w') = identities (db w) ++ [mkIdentity uid email password]
    /\ user_tbl (db w') = user_tbl (db w)
    /\ company_tbl (db w') = company_tbl (db w)
    /\ auth w' = auth w.
Proof.
  intros Ha Hb.
  destruct (reply_at_data _ _ _ _ _ Ha) as [Hf0 Ha'].
  unfold signUp. fold (blank_company companyName). unfold bind.
  rewrite request_run, Ha, try_catch_rethrow.
  rewrite request_run, reply_at_answered, (db_answered _ _ _ Hf0), Hb.
  eexists. split; [reflexivity |].
  assert (Hd : snd (sign_up email password (db w))
               = mkDB (identities (db w) ++ [mkIdentity uid email password])
                      (Some uid) (user_tbl (db w)) (company_tbl (db w))
                      (pack_tbl (db w)) (template_tbl (db w))
                      (generated_post_tbl (db w)) (uuid (db w)) (S (issued (db w)))).
  { unfold sign_up in *.
    destruct (existsb (fun i => ident_email i =? email) (identities (db w)));
      cbn in Ha'; [discriminate |]. injection Ha' as <-. reflexivity. }
  split; [cbn; rewrite <- app_assoc; reflexivity |].
  assert (Hdb : db (answered (InsertCompany (blank_company companyName))
                             (insert_company (blank_company companyName))
                             (answered (AuthSignUp email password)
                                       (sign_up email password) w))
                = snd (sign_up email password (db w))
                \/ db (answered (InsertCompany (blank_company companyName))
                                (insert_company (blank_company companyName))
                                (answered (AuthSignUp email password)
                                          (sign_up email password) w))
                   = draw (snd (sign_up email password (db w)))).
  { unfold reply_at in Hb.
    destruct (fault_at 1 w) as [e1 |] eqn:Hf1.
    - left. erewrite db_unanswered by (rewrite fault_at_answered; exact Hf1).
      apply db_answered. exact Hf0.
    - right. rewrite db_answered by (rewrite fault_at_answered; exact Hf1).
      rewrite (db_answered _ _ _ Hf0).
      unfold insert_company in *.
      destruct (existsb _ (company_tbl (snd (sign_up email password (db w)))));
        cbn in *; [reflexivity | discriminate]. }
  destruct Hdb as [-> | ->]; rewrite Hd; cbn; repeat split.
Qed.

Lemma sign_up_accepted (email password uid : string) (d : DB) :
  fst (sign_up email password d) = Data (Some uid) ->
  snd (sign_up email password d)
  = mkDB (identities d ++ [mkIdentity uid email password]) (Some uid) (user_tbl d)
         (company_tbl d) (pack_tbl d) (template_tbl d) (generated_post_tbl d)
         (uuid d) (S (issued d)).
Proof.
  unfold sign_up.
  destruct (existsb (fun i => ident_email i =? email) (identities d)); cbn;
    [discriminate |].
  intros H. injection H as <-. reflexivity.
Qed.

Lemma insert_company_accepted (r : CompanyInsert) (d : DB) (co : Company.t) :
  fst (insert_company r d) = Data (Some co) ->
  co = new_company (Company.id co) r
  /\ companies_with_id (Company.id co) d = []
  /\ snd (insert_company r d)
     = mkDB (identities d) (session d) (user_tbl d) (company_tbl d ++ [co])
            (pack_tbl d) (template_tbl d) (generated_post_tbl d) (uuid d)
            (S (issued d)).
Proof.
  unfold insert_company, companies_with_id.
  destruct (existsb (fun c => Company.id c =? uuid d (issued d)) (company_tbl d))
    eqn:Hk; cbn; [discriminate |].
  intros H. injection H as <-. cbn.
  split; [reflexivity |]. split; [| reflexivity].
  apply filter_none_of_existsb. exact Hk.
Qed.

Lemma insert_user_accepted (r x : User.t) (d : DB) :
  fst (insert_user r d) = Data x ->
  x = r
  /\ users_with_id (User.id r) d = []
  /\ snd (insert_user r d)
     = mkDB (identities d) (session d) (user_tbl d ++ [r]) (company_tbl d)
            (pack_tbl d) (template_tbl d) (generated_post_tbl d) (uuid d) (issued d).
Proof.
  unfold insert_user, users_with_id.
  destruct (existsb (fun u => User.id u =? User.id r) (user_tbl d)) eqn:Hk; cbn;
    [discriminate |].
  intros H. injection H as <-.
  split; [reflexivity |]. split; [| reflexivity].
  apply filter_none_of_existsb. exact Hk.
Qed.

Lemma insert_user_refused (r : User.t) (d : DB) (e : error) :
  fst (insert_user r d) = Failure e -> snd (insert_user r d) = d.
Proof.
  unfold insert_user.
  destruct (existsb (fun u => User.id u =? User.id r) (user_tbl d)); cbn;
    [reflexivity | discriminate].
Qed.

(** The tables once the identity and the company of a sign-up are stored. *)
Lemma tables_after_company
      (w : World) (email password companyName uid : string) (co : Company.t) :
  reply_at 0 w (sign_up email password) (db w) = Data (Some uid) ->
  reply_at 1 w (insert_company (blank_company companyName))
           (snd (sign_up email password (db w))) = Data (Some co) ->
  snd (insert_company (blank_company companyName)
                      (snd (sign_up email password (db w))))
  = mkDB (identities (db w) ++ [mkIdentity uid email password]) (Some uid)
         (user_tbl (db w)) (company_tbl (db w) ++ [co]) (pack_tbl (db w))
         (template_tbl (db w)) (generated_post_tbl (db w)) (uuid (db w))
         (S (S (issued (db w))))
  /\ companies_with_id (Company.id co) (db w) = []
  /\ co = new_company (Company.id co) (blank_company companyName).
Proof.
  intros Ha Hb.
  destruct (reply_at_data _ _ _ _ _ Ha) as [_ Ha'].
  destruct (reply_at_data _ _ _ _ _ Hb) as [_ Hb'].
  pose proof (sign_up_accepted _ _ _ _ Ha') as Hd1.
  destruct (insert_company_accepted _ _ _ Hb') as (Hco & Hnone & Hd2).
  rewrite Hd2, Hd1. cbn. rewrite Hd1 in Hnone. auto.
Qed.

(** Step (c) refused: the error is thrown as it came; the identity and the
    company row stay and nothing more is sent. *)
Lemma signUp_user_refused
      (w : World) (email password firstName lastName companyName : string)
      (uid : string) (co : Company.t) (e : error) :
  reply_at 0 w (sign_up email password) (db w) = Data (Some uid) ->
  reply_at 1 w (insert_company (blank_company companyName))
           (snd (sign_up email password (db w))) = Data (Some co) ->
  let urow := User.mk uid email firstName lastName "user" (Company.id co) in
  reply_at 2 w (insert_user urow)
           (snd (insert_company (blank_company companyName)
                                (snd (sign_up email password (db w))))) = Failure e ->
  exists w',
    signUp email password firstName lastName companyName w = (Thrown e, w')
    /\ trace w' = trace w ++ [Net (AuthSignUp email password);
                              Net (InsertCompany (blank_company companyName));
                              Net (InsertUser urow)]
    /\ identities (db w') = identities (db w) ++ [mkIdentity uid email password]
    /\ user_tbl (db w') = user_tbl (db w)
    /\ company_tbl (db w') = company_tbl (db w) ++ [co]
    /\ auth w' = auth w.
Proof.
  intros Ha Hb urow Hc. subst urow.
  destruct (reply_at_data _ _ _ _ _ Ha) as [Hf0 _].
  destruct (reply_at_data _ _ _ _ _ Hb) as [Hf1 _].
  destruct (tables_after_company _ _ _ _ _ _ Ha Hb) as (Hd2 & _ & _).
  unfold signUp. fold (blank_company companyName). unfold bind.
  rewrite request_run, Ha, try_catch_rethrow.
  rewrite request_run, reply_at_answered, (db_answered _ _ _ Hf0), Hb.
  rewrite request_run, !reply_at_answered.
  rewrite db_answered by (rewrite fault_at_answered; exact Hf1).
  rewrite (db_answered _ _ _ Hf0), Hc.
  eexists. split; [reflexivity |].
  split; [cbn; rewrite <- !app_assoc; reflexivity |].
  match goal with
  | |- context [db ?W] =>
      assert (Hdb : db W = snd (insert_company (blank_company companyName)
                                  (snd (sign_up email password (db w)))))
  end.
  { unfold reply_at in Hc.
    destruct (fault_at 2 w) as [e2 |] eqn:Hf2.
    - erewrite db_unanswered by (rewrite !fault_at_answered; exact Hf2).
      rewrite db_answered by (rewrite fault_at_answered; exact Hf1).
      rewrite (db_answered _ _ _ Hf0). reflexivity.
    - rewrite db_answered by (rewrite !fault_at_answered; exact Hf2).
      rewrite db_answered by (rewrite fault_at_answered; exact Hf1).
      rewrite (db_answered _ _ _ Hf0).
      apply insert_user_refused with (e := e). exact Hc. }
  rewrite Hdb, Hd2. cbn. repeat split.
Qed.

Lemma filter_snoc_only {A} (f : A -> bool) (l : list A) (x : A) :
  filter f l = [] -> f x = true -> filter f (l ++ [x]) = [x].
Proof. intros Hl Hx. rewrite filter_app, Hl. cbn. rewrite Hx. reflexivity. Qed.

(** After the three steps, the tables hold exactly one user row and one
    company row under the new keys. *)
Lemma provisioned_rows
      (w : World) (email password firstName lastName companyName : string)
      (uid : string) (co : Company.t) :
  reply_at 0 w (sign_up email password) (db w) = Data (Some uid) ->
  reply_at 1 w (insert_company (blank_company companyName))
           (snd (sign_up email password (db w))) = Data (Some co) ->
  let urow := User.mk uid email firstName lastName "user" (Company.id co) in
  reply_at 2 w (insert_user urow)
           (snd (insert_company (blank_company companyName)
                                (snd (sign_up email password (db w))))) = Data urow ->
  users_with_id uid (db (provisioned w email password urow companyName)) = [urow]
  /\ companies_with_id (Company.id co)
                       (db (provisioned w email password urow companyName)) = [co].
Proof.
  intros Ha Hb urow Hc.
  destruct (reply_at_data _ _ _ _ _ Ha) as [Hf0 _].
  destruct (reply_at_data _ _ _ _ _ Hb) as [Hf1 _].
  destruct (reply_at_data _ _ _ _ _ Hc) as [Hf2 Hc'].
  destruct (tables_after_company _ _ _ _ _ _ Ha Hb) as (Hd2 & Hnone & _).
  destruct (insert_user_accepted _ _ _ Hc') as (_ & Hnou & Hd3).
  unfold provisioned.
  rewrite db_answered by (rewrite !fault_at_answered; exact Hf2).
  rewrite db_answered by (rewrite fault_at_answered; exact Hf1).
  rewrite (db_answered _ _ _ Hf0).
  rewrite Hd3. rewrite Hd2 in Hnou |- *. 
  unfold users_with_id, companies_with_id in *. cbn in *. split.
  - apply filter_snoc_only; [exact Hnou | apply String.eqb_refl].
  - apply filter_snoc_only; [exact Hnone | apply String.eqb_refl].
Qed.

(** C4. Sign-up sends, in this order, the identity creation, the insert of
    a company row with the given name and empty profile fields, and the
    insert of a user row that carries the identity's key and the company's
    key.  When the second or the third request is refused its error is
    thrown to the caller, nothing more is sent and what was created stays.
    When all three are accepted the load chain runs for the new identity
    and, its reads being answered, yields that user row and that company
    row. *)
Theorem C4_sign_up_sequence
        (w : World) (email password firstName lastName companyName uid : string) :
  reply_at 0 w (sign_up email password) (db w) = Data (Some uid) ->
  let row := blank_company companyName in
  let d1 := snd (sign_up email password (db w)) in
  row = mkCompanyInsert companyName "" [] "" [] "" ""
  /\ (forall e,
         reply_at 1 w (insert_company row) d1 = Failure e ->
         exists w',
           signUp email password firstName lastName companyName w = (Thrown e, w')
           /\ trace w' = trace w ++ [Net (AuthSignUp email password);
                                     Net (InsertCompany row)]
           /\ identities (db w') = identities (db w) ++ [mkIdentity uid email password]
           /\ auth w' = auth w)
  /\ (forall co,
         reply_at 1 w (insert_company row) d1 = Data (Some co) ->
         let urow := User.mk uid email firstName lastName "user" (Company.id co) in
         let d2 := snd (insert_company row d1) in
         co = new_company (Company.id co) row
         /\ (forall e,
                reply_at 2 w (insert_user urow) d2 = Failure e ->
                exists w',
                  signUp email password firstName lastName companyName w
                  = (Thrown e, w')
                  /\ trace w' = trace w ++ [Net (AuthSignUp email password);
                                            Net (InsertCompany row);
                                            Net (InsertUser urow)]
                  /\ identities (db w')
                     = identities (db w) ++ [mkIdentity uid email password]
                  /\ company_tbl (db w') = company_tbl (db w) ++ [co]
                  /\ auth w' = auth w)
         /\ (reply_at 2 w (insert_user urow) d2 = Data urow ->
             exists w',
               signUp email password firstName lastName companyName w
               = (Normal tt, w')
               /\ loading (auth w') = false
               /\ (exists evs,
                      trace w' =
                      trace w ++ Net (AuthSignUp email password)
                              :: Net (InsertCompany row)
                              :: Net (InsertUser urow)
                              :: Net (SelectUser uid) :: evs)
               /\ (fault_at 3 w = None ->
                   fault_at 4 w = None ->
                   truthy (Company.id co) = true ->
                   user (auth w') = Some urow
                   /\ company (auth w') = Some co
                   /\ trace w' =
                      trace w ++ [Net (AuthSignUp email password);
                                  Net (InsertCompany row);
                                  Net (InsertUser urow);
                                  Net (SelectUser uid);
                                  Net (SelectCompany (Company.id co));
                                  Net (SelectActivePack (Company.id co))]))).
Proof.
  intros Ha row d1. subst row d1.
  split; [reflexivity |]. split.
  - intros e Hb.
    destruct (signUp_company_refused w email password firstName lastName companyName
                                     uid e Ha Hb)
      as (w' & E & Ht & Hi & _ & _ & Hau).
    exists w'. repeat split; assumption.
  - intros co Hb urow d2. subst d2.
    destruct (tables_after_company _ _ _ _ _ _ Ha Hb) as (_ & _ & Hco).
    split; [exact Hco |]. split.
    + intros e Hc.
      destruct (signUp_user_refused w email password firstName lastName companyName
                                    uid co e Ha Hb Hc)
        as (w' & E & Ht & Hi & _ & Hct & Hau).
      exists w'. repeat split; assumption.
    + intros Hc.
      pose proof (signUp_provisions w email password firstName lastName companyName
                                    uid co Ha Hb Hc) as E.
      fold urow in E.
      destruct (loadUserData_completes uid
                  (provisioned w email password urow companyName))
        as (w' & El & Hl & _ & _ & _ & _ & evs & Ht).
      exists w'. split; [rewrite E; exact El |]. split; [exact Hl |]. split.
      * exists evs. rewrite Ht. cbn. rewrite <- !app_assoc. reflexivity.
      * intros Hf3 Hf4 Hcid.
        destruct (provisioned_rows w email password firstName lastName companyName
                                   uid co Ha Hb Hc) as (Hu & Hc').
        fold urow in Hu, Hc'.
        assert (El' : loadUserData uid (provisioned w email password urow companyName)
                      = (Normal tt,
                         loaded (provisioned w email password urow companyName)
                                uid urow co)).
        { apply loadUserData_loads; try assumption;
            unfold provisioned; rewrite !fault_at_answered; assumption. }
        rewrite El' in El. injection El as <-.
        split; [reflexivity |]. split; [reflexivity |].
        cbn. rewrite <- !app_assoc. reflexivity.
Qed.

Lemma C4_sign_up_sequence_witness :
  (exists w',
      signUp "zoe@spa.example" "s3cret" "Zoe" "Martin" "Spa Zen"
             (Sample.at_login Sample.unused [])
      = (Normal tt, w')
      /\ user (auth w')
         = Some (User.mk "a-uuid" "zoe@spa.example" "Zoe" "Martin" "user" "b-uuid")
      /\ company (auth w')
         = Some (Company.mk "b-uuid" "Spa Zen" "" [] "" [] None "" ""))
  /\ (exists w',
         signUp "zoe@spa.example" "s3cret" "Zoe" "Martin" "Spa Zen"
                (Sample.at_login Sample.unused [None; Some (Err "row-level security")])
         = (Thrown (Err "row-level security"), w')
         /\ identities (db w') = [mkIdentity "a-uuid" "zoe@spa.example" "s3cret"])
  /\ (exists w',
         signUp "zoe@spa.example" "s3cret" "Zoe" "Martin" "Spa Zen"
                (Sample.at_login Sample.unused
                                 [None; None; Some (Err "row-level security")])
         = (Thrown (Err "row-level security"), w')
         /\ identities (db w') = [mkIdentity "a-uuid" "zoe@spa.example" "s3cret"]
         /\ length (company_tbl (db w')) = 1).
Proof.
  split; [| split].
  - destruct (C4_sign_up_sequence (Sample.at_login Sample.unused [])
                "zoe@spa.example" "s3cret" "Zoe" "Martin" "Spa Zen" "a-uuid" eq_refl)
      as (_ & _ & H).
    destruct (H (Company.mk "b-uuid" "Spa Zen" "" [] "" [] None "" "") eq_refl)
      as (_ & _ & Hok).
    destruct (Hok eq_refl) as (w' & E & _ & _ & Hload).
    destruct (Hload eq_refl eq_refl eq_refl) as (Hu & Hc & _).
    exists w'. repeat split; assumption.
  - destruct (C4_sign_up_sequence
                (Sample.at_login Sample.unused [None; Some (Err "row-level security")])
                "zoe@spa.example" "s3cret" "Zoe" "Martin" "Spa Zen" "a-uuid" eq_refl)
      as (_ & H & _).
    destruct (H (Err "row-level security") eq_refl) as (w' & E & _ & Hi & _).
    exists w'. split; [exact E | exact Hi].
  - destruct (C4_sign_up_sequence
                (Sample.at_login Sample.unused
                                 [None; None; Some (Err "row-level security")])
                "zoe@spa.example" "s3cret" "Zoe" "Martin" "Spa Zen" "a-uuid" eq_refl)
      as (_ & _ & H).
    destruct (H (Company.mk "b-uuid" "Spa Zen" "" [] "" [] None "" "") eq_refl)
      as (_ & Hko & _).
    destruct (Hko (Err "row-level security") eq_refl) as (w' & E & _ & Hi & Hc & _).
    exists w'. split; [exact E |]. split; [exact Hi |]. rewrite Hc. reflexivity.
Defined.

(** *** Refresh *)

(** Running the chain again, from the session state the first run left and
    against the same tables answering in the same way, changes nothing in
    the session state. *)
Lemma loadUserData_twice (uid : string) (w : World)
      (hk : list WebhookReply) (nw : string) (st : list (string * string))
      (tr : list Event) (gs : GeneratorState) (pf : ProfileState) (lg : LoginState) :
  auth (snd (loadUserData uid
               (mkWorld (db w) (faults w) hk nw st tr
                        (auth (snd (loadUserData uid w))) gs pf lg)))
  = auth (snd (loadUserData uid w)).
Proof.
  destruct w as [d fs hk0 nw0 st0 tr0 a gs0 pf0 lg0].
  unfold_load. unfold single. unfold_monad. cbn.
  explore; reflexivity.
Qed.

Lemma filter_head_holds {A} (f : A -> bool) (l : list A) (x : A) (l' : list A) :
  filter f l = x :: l' -> f x = true.
Proof.
  intros H. assert (Hin : In x (filter f l)) by (rewrite H; left; reflexivity).
  apply filter_In in Hin. apply Hin.
Qed.

(** After a chain run for the signed-in user, the user in the session state
    still has the same key. *)
Lemma loadUserData_keeps_id (w : World) (u0 : User.t) :
  user (auth w) = Some u0 ->
  exists u1,
    user (auth (snd (loadUserData (User.id u0) w))) = Some u1
    /\ User.id u1 = User.id u0.
Proof.
  intros Hu.
  destruct w as [d fs hk nw st tr a gs pf lg]. cbn in Hu.
  unfold_load. unfold single, users_with_id. unfold_monad. cbn.
  destruct (filter (fun u => User.id u =? User.id u0) (user_tbl d))
    as [| u1 [| u2 l]] eqn:Hf;
    try (apply filter_head_holds in Hf; apply String.eqb_eq in Hf);
    explore; eexists; (split; [first [reflexivity | eassumption] | ]);
    first [reflexivity | assumption].
Qed.

(** With nothing scripted to fail, a chain leaves nothing scripted to fail. *)
Lemma loadUserData_no_faults (uid : string) (w : World) :
  faults w = [] -> faults (snd (loadUserData uid w)) = [].
Proof.
  intros Hf.
  destruct w as [d fs hk nw st tr a gs pf lg]. cbn in Hf. subst fs.
  unfold_load. unfold single. unfold_monad. cbn.
  explore; reflexivity.
Qed.

(** C7. Refresh with nobody signed in changes nothing.  Refresh for a
    signed-in user settles with the tables untouched, and a second refresh
    started from the session state the first one left, against a backend
    that holds the same rows and answers as it did the first time, leaves
    exactly the same User, Company and Pack (and loading flag); so do two
    refreshes in a row when no request is scripted to fail. *)
Theorem C7_refresh_is_idempotent (w : World) :
  (user (auth w) = None -> refreshData w = (Normal tt, w))
  /\ exists w1,
      refreshData w = (Normal tt, w1)
      /\ db w1 = db w
      /\ (forall w2,
             db w2 = db w1 ->
             faults w2 = faults w ->
             auth w2 = auth w1 ->
             exists w3, refreshData w2 = (Normal tt, w3) /\ auth w3 = auth w1)
      /\ (faults w = [] ->
          exists w3,
            (refreshData ;; refreshData) w = (Normal tt, w3) /\ auth w3 = auth w1).
Proof.
  split.
  - intros Hu. unfold refreshData. rewrite Hu. reflexivity.
  - assert (Hmain :
      exists w1,
        refreshData w = (Normal tt, w1)
        /\ db w1 = db w
        /\ (faults w = [] -> faults w1 = [])
        /\ (forall w2,
               db w2 = db w1 ->
               faults w2 = faults w ->
               auth w2 = auth w1 ->
               exists w3, refreshData w2 = (Normal tt, w3) /\ auth w3 = auth w1)).
    { unfold refreshData at 1.
      destruct (user (auth w)) as [u0 |] eqn:Hu.
      + destruct (loadUserData_completes (User.id u0) w) as (w1 & E & _ & Hd & _).
        exists w1. split; [exact E |]. split; [exact Hd |]. split.
        { intros Hf. pose proof (loadUserData_no_faults (User.id u0) w Hf) as Hn.
          rewrite E in Hn. exact Hn. }
        intros w2 Hd2 Hf2 Ha2.
        destruct (loadUserData_keeps_id w u0 Hu) as (u1 & Hu1 & Hid).
        rewrite E in Hu1. cbn in Hu1.
        unfold refreshData. rewrite Ha2, Hu1, Hid.
        destruct (loadUserData_completes (User.id u0) w2) as (w3 & E3 & _).
        exists w3. split; [exact E3 |].
        pose proof (loadUserData_twice (User.id u0) w (webhook w2) (now w2)
                                       (storage w2) (trace w2) (generator w2)
                                       (profile w2) (login w2))
          as Ht.
        rewrite E in Ht. cbn [snd] in Ht.
        rewrite <- Ha2, <- Hf2, <- Hd, <- Hd2 in Ht.
        destruct w2. cbn in Ht. rewrite E3 in Ht. cbn in Ht. cbn in Ha2.
        rewrite Ht. exact Ha2.
      + exists w. split; [reflexivity |]. split; [reflexivity |].
        split; [trivial |].
        intros w2 _ _ Ha2. exists w2. unfold refreshData. rewrite Ha2, Hu.
        split; reflexivity. }
    destruct Hmain as (w1 & E & Hd & Hn & H).
    exists w1. split; [exact E |]. split; [exact Hd |]. split; [exact H |].
    intros Hf. unfold bind. rewrite E.
    apply H; [reflexivity | rewrite Hf; apply Hn; exact Hf | reflexivity].
Qed.

Lemma C7_refresh_is_idempotent_witness :
  exists w1 w3,
    refreshData (Sample.at_step3 3 30 [] []) = (Normal tt, w1)
    /\ (refreshData ;; refreshData) (Sample.at_step3 3 30 [] []) = (Normal tt, w3)
    /\ auth w3 = auth w1.
Proof.
  destruct (proj2 (C7_refresh_is_idempotent (Sample.at_step3 3 30 [] [])))
    as (w1 & E & _ & _ & H).
  destruct (H eq_refl) as (w3 & E3 & Ha).
  exists w1, w3. split; [exact E |]. split; [exact E3 | exact Ha].
Defined.

(** *** Template selection *)

Lemma contains_In (column : list string) (tag : string) :
  contains column tag = true <-> In tag column.
Proof.
  unfold contains. rewrite existsb_exists. split.
  - intros (x & Hin & Heq). apply String.eqb_eq in Heq. subst x. exact Hin.
  - intros Hin. exists tag. split; [exact Hin | apply String.eqb_refl].
Qed.

(** What [loadTemplates] leaves in [templates]: the answer of the query, or
    nothing when the query failed. *)
Lemma loadTemplates_run (w : World) :
  exists w',
    loadTemplates w = (Normal tt, w')
    /\ loadingTemplates (generator w') = false
    /\ categoryFilter (generator w') = categoryFilter (generator w)
    /\ templates (generator w') =
       match fault_at 0 w with
       | Some _ => []
       | None =>
           filter (fun t => Template.is_active t
                            && contains (Template.platforms t) (platform (generator w))
                            && contains (Template.formats t) (format (generator w)))
                  (template_tbl (db w))
       end.
Proof.
  destruct w as [d fs hk nw st tr a gs pf lg].
  unfold loadTemplates, select_templates, fault_at.
  unfold setTemplates, setLoadingTemplates. unfold_monad. cbn.
  split_faults fs; cbn; eexists; repeat split.
Qed.

(** C8, as amended. For the chosen platform and format, when the template
    query is answered the generator lists exactly the templates that are
    active and carry both tags, in table order; an inactive template is
    never listed, and when the query fails the list is empty.  With the
    category filter on "all" the whole list is shown. *)
Theorem C8_active_tagged_templates_listed (w : World) :
  exists w',
    loadTemplates w = (Normal tt, w')
    /\ (fault_at 0 w = None ->
        forall t,
          In t (templates (generator w')) <->
          In t (template_tbl (db w))
          /\ Template.is_active t = true
          /\ In (platform (generator w)) (Template.platforms t)
          /\ In (format (generator w)) (Template.formats t))
    /\ (forall e, fault_at 0 w = Some e -> templates (generator w') = [])
    /\ (categoryFilter (generator w) = "all" ->
        visibleTemplates (generator w') = templates (generator w')).
Proof.
  destruct (loadTemplates_run w) as (w' & E & _ & Hcat & Ht).
  exists w'. split; [exact E |]. split; [| split].
  - intros Hf t. rewrite Ht, Hf, filter_In, !andb_true_iff, !contains_In. tauto.
  - intros e Hf. rewrite Ht, Hf. reflexivity.
  - intros Hall. unfold visibleTemplates. rewrite Hcat, Hall.
    apply forallb_filter_id. apply forallb_forall. intros t _. reflexivity.
Qed.

Lemma C8_active_tagged_templates_listed_witness :
  exists w',
    loadTemplates (Sample.at_step2 []) = (Normal tt, w')
    /\ In Sample.story (templates (generator w'))
    /\ ~ In Sample.feed_post (templates (generator w')).
Proof.
  destruct (C8_active_tagged_templates_listed (Sample.at_step2 []))
    as (w' & E & H & _).
  exists w'. split; [exact E |]. split.
  - apply (H eq_refl). cbn. intuition.
  - intros Hin. apply (H eq_refl) in Hin. destruct Hin as (_ & _ & _ & Hf).
    cbn in Hf. destruct Hf as [Hf | [ ]]. discriminate Hf.
Defined.

(** C8 as stated fails: a template that carries both tags but is not
    active is in the table and is not listed. *)
Lemma C8_templates_counterexample :
  In Sample.retired_story (template_tbl (db (Sample.at_step2 [])))
  /\ In "instagram" (Template.platforms Sample.retired_story)
  /\ In "story" (Template.formats Sample.retired_story)
  /\ exists w',
      loadTemplates (Sample.at_step2 []) = (Normal tt, w')
      /\ templates (generator w') = [Sample.story]
      /\ ~ In Sample.retired_story (templates (generator w')).
Proof.
  split; [cbn; tauto |]. split; [cbn; tauto |]. split; [cbn; tauto |].
  eexists. split; [vm_compute; reflexivity |]. cbn. split; [reflexivity |].
  intros [H | [ ]]. discriminate H.
Qed.

(** *** The services of the profile form *)

Lemma includes_In (l : list string) (x : string) : includes l x = true <-> In x l.
Proof.
  unfold includes. rewrite existsb_exists. split.
  - intros (y & Hin & Heq). apply String.eqb_eq in Heq. subst y. exact Hin.
  - intros Hin. exists x. split; [exact Hin | apply String.eqb_refl].
Qed.

Lemma truthy_empty (s : string) : truthy s = false <-> s = "".
Proof.
  unfold truthy. rewrite negb_false_iff. apply String.eqb_eq.
Qed.

(** Adding a blank entry, or one that is already listed, changes nothing. *)
Lemma handleAddService_unchanged (w : World) :
  trim (newService (profile w)) = ""
  \/ In (trim (newService (profile w))) (services (profile w)) ->
  Profile.handleAddService w = (Normal tt, w).
Proof.
  intros H. unfold Profile.handleAddService.
  destruct H as [H | H].
  - apply truthy_empty in H. rewrite H. reflexivity.
  - apply includes_In in H. rewrite H, andb_false_r. reflexivity.
Qed.

(** Adding keeps the list free of duplicates, and appends at the end. *)
Lemma handleAddService_NoDup (w : World) :
  NoDup (services (profile w)) ->
  exists w',
    Profile.handleAddService w = (Normal tt, w')
    /\ NoDup (services (profile w'))
    /\ (services (profile w') = services (profile w)
        \/ services (profile w')
           = services (profile w) ++ [trim (newService (profile w))]).
Proof.
  intros Hnd. unfold Profile.handleAddService.
  destruct (truthy (trim (newService (profile w)))) eqn:Ht; cbn.
  - destruct (includes (services (profile w)) (trim (newService (profile w))))
      eqn:Hi; cbn.
    + exists w. repeat split; [exact Hnd | left; reflexivity].
    + unfold Profile.setServices, Profile.setNewService, bind. cbn.
      eexists. split; [reflexivity |]. cbn. split; [| right; reflexivity].
      apply NoDup_app; [exact Hnd | repeat constructor; intros [] |].
      intros x Hx [<- | []].
      apply includes_In in Hx. congruence.
  - exists w. repeat split; [exact Hnd | left; reflexivity].
Qed.

(** Removing keeps the list free of duplicates. *)
Lemma handleRemoveService_NoDup (w : World) (s : string) :
  NoDup (services (profile w)) ->
  exists w',
    Profile.handleRemoveService s w = (Normal tt, w')
    /\ NoDup (services (profile w'))
    /\ ~ In s (services (profile w')).
Proof.
  intros Hnd. unfold Profile.handleRemoveService, Profile.setServices.
  eexists. split; [reflexivity |]. cbn. split.
  - apply NoDup_filter. exact Hnd.
  - rewrite filter_In, negb_true_iff, String.eqb_neq. tauto.
Qed.

Lemma filter_update_by_id (cid : string) (upd : Company.t -> Company.t)
      (l : list Company.t) :
  (forall c, Company.id (upd c) = Company.id c) ->
  filter (fun c => Company.id c =? cid)
         (map (fun c => if Company.id c =? cid then upd c else c) l)
  = map upd (filter (fun c => Company.id c =? cid) l).
Proof.
  intros Hid. induction l as [| c l IH]; cbn; [reflexivity |].
  destruct (Company.id c =? cid) eqn:E; cbn.
  - rewrite Hid, E. cbn. rewrite IH. reflexivity.
  - rewrite E. exact IH.
Qed.

Lemma companies_after_update (cid : string) (row : CompanyUpdate) (d : DB)
      (c0 : Company.t) :
  companies_with_id cid d = [c0] ->
  companies_with_id cid (snd (update_company cid row d))
  = [apply_company_update row c0].
Proof.
  unfold companies_with_id, update_company. cbn. intros H.
  rewrite filter_update_by_id by reflexivity. rewrite H. reflexivity.
Qed.

(** A refresh in which the user and the company are read. *)
Lemma refreshData_loads (w : World) (u u' : User.t) (c : Company.t) :
  user (auth w) = Some u ->
  fault_at 0 w = None ->
  users_with_id (User.id u) (db w) = [u'] ->
  truthy (User.company_id u') = true ->
  fault_at 1 w = None ->
  companies_with_id (User.company_id u') (db w) = [c] ->
  refreshData w = (Normal tt, loaded w (User.id u) u' c).
Proof.
  intros Hu Hf0 Hrow Htr Hf1 Hco. unfold refreshData. rewrite Hu.
  apply loadUserData_loads; assumption.
Qed.

(** Saving the form and reloading: the company in the session state is the
    stored row, rewritten with the values of the form. *)
Lemma handleSubmit_saves_and_reloads
      (w : World) (u u' : User.t) (c c0 : Company.t) :
  user (auth w) = Some u ->
  company (auth w) = Some c ->
  truthy (Company.id c) = true ->
  fault_at 0 w = None ->
  fault_at 1 w = None ->
  users_with_id (User.id u) (db w) = [u'] ->
  User.company_id u' = Company.id c ->
  fault_at 2 w = None ->
  companies_with_id (Company.id c) (db w) = [c0] ->
  exists w' c',
    Profile.handleSubmit w = (Normal tt, w')
    /\ company (auth w') = Some c'
    /\ companies_with_id (Company.id c) (db w') = [c']
    /\ Company.id c' = Company.id c0
    /\ Company.services c' = services (profile w)
    /\ Company.name c' = pf_name (profile w)
    /\ pf_message (profile w') = Some (success, Profile.saved).
Proof.
  intros Hu Hc Hid Hf0 Hf1 Hrow Hcid Hf2 Hco.
  unfold Profile.handleSubmit. rewrite Hc, Hid. cbn [negb].
  unfold finally, try_catch, bind, Profile.setLoading, Profile.setMessage,
    toISOString_now, emit.
  match goal with
  | |- context [request (UpdateCompany _ ?r) _ ?W] => set (row := r); set (W0 := W)
  end.
  assert (HW0f : forall n, fault_at n W0 = fault_at n w) by reflexivity.
  assert (HW0d : db W0 = db w) by reflexivity.
  assert (HW0a : auth W0 = auth w) by reflexivity.
  assert (Hrs : cu_services row = services (profile w)) by reflexivity.
  assert (Hrn : cu_name row = pf_name (profile w)) by reflexivity.
  clearbody W0 row.
  rewrite request_run.
  assert (Hr : reply_at 0 W0 (update_company (Company.id c) row) (db W0) = Data tt)
    by (unfold reply_at; rewrite HW0f, Hf0; reflexivity).
  rewrite Hr.
  set (Wa := answered (UpdateCompany (Company.id c) row)
                      (update_company (Company.id c) row) W0).
  assert (Hda : db Wa = snd (update_company (Company.id c) row (db w))).
  { unfold Wa. rewrite db_answered by (rewrite HW0f; exact Hf0).
    rewrite HW0d. reflexivity. }
  assert (Hca : companies_with_id (Company.id c) (db Wa)
                = [apply_company_update row c0]).
  { rewrite Hda. apply companies_after_update. exact Hco. }
  assert (El : refreshData Wa
               = (Normal tt, loaded Wa (User.id u) u' (apply_company_update row c0))).
  { apply refreshData_loads.
    - unfold Wa. cbn [auth answered]. rewrite HW0a. exact Hu.
    - unfold Wa. rewrite fault_at_answered, HW0f. exact Hf1.
    - rewrite Hda. exact Hrow.
    - rewrite Hcid. exact Hid.
    - unfold Wa. rewrite fault_at_answered, HW0f. exact Hf2.
    - rewrite Hcid. exact Hca. }
  rewrite El. clearbody Wa.
  do 2 eexists. split; [reflexivity |].
  cbn [auth company db profile pf_message loaded with_trace with_profile trace].
  split; [reflexivity |]. split; [exact Hca |].
  split; [reflexivity |]. split; [exact Hrs |]. split; [exact Hrn | reflexivity].
Qed.

(** *** The convention on services is kept by every handler *)

Lemma filter_head_In {A} (f : A -> bool) (l : list A) (x : A) (l' : list A) :
  filter f l = x :: l' -> In x l.
Proof.
  intros H. assert (Hin : In x (filter f l)) by (rewrite H; left; reflexivity).
  apply filter_In in Hin. apply Hin.
Qed.

Section Keeps.

Context {A B : Type}.

Lemma keeps_ret (a : A) (Q : A -> Prop) : Q a -> keeps (ret a) Q.
Proof.
  intros Ha w Hw. cbn. split; [exact Hw |].
  intros a' E. injection E as <-. exact Ha.
Qed.

Lemma keeps_throw (e : error) (Q : A -> Prop) : keeps (throw e) Q.
Proof. intros w Hw. cbn. split; [exact Hw | discriminate]. Qed.

Lemma keeps_weaken (m : M A) (Q Q' : A -> Prop) :
  keeps m Q -> (forall a, Q a -> Q' a) -> keeps m Q'.
Proof.
  intros Hm HQ w Hw. destruct (Hm w Hw) as [H1 H2].
  split; [exact H1 | intros a E; apply HQ, H2, E].
Qed.

Lemma keeps_bind (m : M A) (k : A -> M B) (Q : A -> Prop) (R : B -> Prop) :
  keeps m Q -> (forall a, Q a -> keeps (k a) R) -> keeps (bind m k) R.
Proof.
  intros Hm Hk w Hw. unfold bind.
  destruct (Hm w Hw) as [H1 H2].
  destruct (m w) as [[a | e] w1]; cbn in *.
  - apply (Hk a (H2 a eq_refl) w1 H1).
  - split; [exact H1 | discriminate].
Qed.

Lemma keeps_try_catch (body : M A) (handler : error -> M A) (Q : A -> Prop) :
  keeps body Q -> (forall e, keeps (handler e) Q) -> keeps (try_catch body handler) Q.
Proof.
  intros Hb Hh w Hw. unfold try_catch.
  destruct (Hb w Hw) as [H1 H2].
  destruct (body w) as [[a | e] w1]; cbn in *.
  - split; [exact H1 | exact H2].
  - apply (Hh e w1 H1).
Qed.

Lemma keeps_finally (body : M A) (fin : M unit) (Q : A -> Prop) :
  keeps body Q -> keeps fin (fun _ => True) -> keeps (finally body fin) Q.
Proof.
  intros Hb Hf w Hw. unfold finally.
  destruct (Hb w Hw) as [H1 H2].
  destruct (body w) as [r w1]; cbn in *.
  destruct (Hf w1 H1) as [H3 _].
  destruct (fin w1) as [[u | e] w2]; cbn in *.
  - split; [exact H3 | exact H2].
  - split; [exact H3 | discriminate].
Qed.

(** A request keeps the convention when the backend operation does. *)
Lemma keeps_request (c : Call) (serve : DB -> reply A * DB) (Q : A -> Prop) :
  (forall d, db_wf d ->
             db_wf (snd (serve d)) /\ (forall x, fst (serve d) = Data x -> Q x)) ->
  keeps (request c serve) (fun r => forall x, r = Data x -> Q x).
Proof.
  intros Hs w Hw. rewrite request_run. cbn [fst snd].
  destruct Hw as (Hp & Hc & Hd).
  destruct (Hs (db w) Hd) as [Hd' HQ].
  unfold reply_at, answered, services_wf. cbn.
  destruct (fault_at 0 w) as [e |]; (split; [repeat split; assumption |]);
    intros r E; injection E as <-.
  - discriminate.
  - exact HQ.
Qed.

End Keeps.

(** A step that only touches cells other than the services, the company
    and the tables. *)
Lemma keeps_frame (m : M unit) :
  (forall w, services (profile (snd (m w))) = services (profile w)
             /\ company (auth (snd (m w))) = company (auth w)
             /\ db (snd (m w)) = db w) ->
  keeps m (fun _ => True).
Proof.
  intros H w (Hp & Hc & Hd). destruct (H w) as (E1 & E2 & E3).
  unfold services_wf. rewrite E1, E2, E3. auto.
Qed.

Lemma keeps_request_db {A} (c : Call) (serve : DB -> reply A * DB) :
  (forall d, db_wf d -> db_wf (snd (serve d))) ->
  keeps (request c serve) (fun _ => True).
Proof.
  intros H. eapply keeps_weaken.
  - apply keeps_request with (Q := fun _ => True).
    intros d Hd. split; [apply H; exact Hd | trivial].
  - trivial.
Qed.

Lemma keeps_select_company (c : Call) (cid : string) :
  keeps (request c (select_company cid))
        (fun r => forall x, r = Data x -> NoDup (Company.services x)).
Proof.
  apply keeps_request. intros d Hd. split; [exact Hd |].
  unfold select_company, single, companies_with_id. cbn. intros x E.
  destruct (filter _ (company_tbl d)) as [| y [| z l]] eqn:Hf; try discriminate.
  injection E as <-. apply filter_head_In in Hf.
  exact (proj1 (Forall_forall _ _) Hd y Hf).
Qed.

Lemma keeps_insert_company (c : Call) (row : CompanyInsert) :
  NoDup (ci_services row) -> keeps (request c (insert_company row)) (fun _ => True).
Proof.
  intros Hr. apply keeps_request_db. intros d Hd. unfold insert_company, db_wf.
  destruct (existsb _ (company_tbl d)); cbn; [exact Hd |].
  apply Forall_app. split; [exact Hd |]. constructor; [exact Hr | constructor].
Qed.

Lemma keeps_update_company (c : Call) (cid : string) (row : CompanyUpdate) :
  NoDup (cu_services row) -> keeps (request c (update_company cid row)) (fun _ => True).
Proof.
  intros Hr. apply keeps_request_db. intros d Hd. unfold update_company, db_wf. cbn.
  apply Forall_map. eapply Forall_impl; [| exact Hd].
  intros x Hx. cbn. destruct (Company.id x =? cid); [exact Hr | exact Hx].
Qed.

(** The other backend operations leave the company table as it is. *)
Lemma keeps_request_other {A} (c : Call) (serve : DB -> reply A * DB) :
  (forall d, company_tbl (snd (serve d)) = company_tbl d) ->
  keeps (request c serve) (fun _ => True).
Proof.
  intros H. apply keeps_request_db. intros d Hd. unfold db_wf. rewrite H. exact Hd.
Qed.

Lemma keeps_setCompany (c : option Company.t) :
  (forall x, c = Some x -> NoDup (Company.services x)) ->
  keeps (setCompany c) (fun _ => True).
Proof.
  intros Hc w (Hp & _ & Hd). unfold services_wf. cbn.
  split; [| trivial]. repeat split; assumption.
Qed.

Lemma keeps_setServices (l : list string) :
  NoDup l -> keeps (Profile.setServices l) (fun _ => True).
Proof.
  intros Hl w (_ & Hc & Hd). unfold services_wf. cbn.
  split; [| trivial]. repeat split; assumption.
Qed.

Lemma keeps_fetch (body : Payload) : keeps (fetch body) (fun _ => True).
Proof.
  intros w Hw. unfold fetch. split; [| trivial].
  destruct (webhook _) as [| [e | ok b] rest]; exact Hw.
Qed.

Lemma keeps_json (b : option Generated) : keeps (json b) (fun _ => True).
Proof. destruct b; [apply keeps_ret; exact I | apply keeps_throw]. Qed.

Lemma keeps_now : keeps toISOString_now (fun _ => True).
Proof. intros w Hw. split; [exact Hw | trivial]. Qed.

Ltac keeps_frame_step := apply keeps_frame; intros ?; repeat split; reflexivity.

(** One rule of the logic, chosen by the shape of the handler. *)
Ltac keeps_step :=
  match goal with
  | |- keeps (request _ (select_company _)) _ => apply keeps_select_company
  | |- keeps ?m ?Q => is_evar Q; unify Q (fun _ : _ => True)
  | |- keeps (bind _ _) _ => eapply keeps_bind; [| intros ? ?]
  | |- keeps (try_catch _ _) _ => apply keeps_try_catch; [| intros ?]
  | |- keeps (finally _ _) _ => apply keeps_finally
  | |- keeps (ret _) _ => apply keeps_ret; exact I
  | |- keeps (throw _) _ => apply keeps_throw
  | |- keeps (json _) _ => apply keeps_json
  | |- keeps (fetch _) _ => apply keeps_fetch
  | |- keeps toISOString_now _ => apply keeps_now
  | |- keeps (setCompany _) _ =>
      apply keeps_setCompany; intros ? Hsome;
      first [discriminate Hsome | injection Hsome as <-; eauto]
  | |- keeps (Profile.setServices _) _ => apply keeps_setServices; assumption
  | |- keeps (request _ (insert_company _)) _ =>
      apply keeps_insert_company; constructor
  | |- keeps (request _ (update_company _ _)) _ =>
      apply keeps_update_company; assumption
  | |- keeps (request _ _) _ =>
      apply keeps_request_other; intros ?;
      first [ reflexivity
            | unfold sign_in_with_password, sign_up, insert_user,
                insert_generated_post;
              repeat match goal with
                     | |- context [match ?x with _ => _ end] => destruct x
                     end; reflexivity ]
  | |- keeps (match ?r with _ => _ end) _ => destruct r
  | |- keeps _ _ => keeps_frame_step
  end.

Ltac keeps_auto := repeat keeps_step.

Lemma keeps_loadUserData (uid : string) : keeps (loadUserData uid) (fun _ => True).
Proof. unfold loadUserData, console_error. keeps_auto. Qed.

Lemma keeps_refreshData : keeps refreshData (fun _ => True).
Proof.
  intros w Hw. unfold refreshData.
  destruct (user (auth w)); [apply keeps_loadUserData | split]; trivial.
Qed.

Lemma keeps_signIn (email password : string) :
  keeps (signIn email password) (fun _ => True).
Proof.
  unfold signIn. keeps_auto; apply keeps_loadUserData.
Qed.

Lemma keeps_signUp (email password firstName lastName companyName : string) :
  keeps (signUp email password firstName lastName companyName) (fun _ => True).
Proof.
  unfold signUp. keeps_auto; apply keeps_loadUserData.
Qed.

Lemma keeps_signOut : keeps signOut (fun _ => True).
Proof.
  unfold signOut. keeps_auto.
Qed.

Lemma keeps_apply {A} (m : M A) (Q : A -> Prop) (w : World) :
  keeps m Q ->
  services_wf w ->
  services_wf (snd (m w)) /\ (forall a, fst (m w) = Normal a -> Q a).
Proof. intros H Hw. apply H. exact Hw. Qed.

Lemma keeps_Login_handleSubmit : keeps Login.handleSubmit (fun _ => True).
Proof.
  intros w Hw. unfold Login.handleSubmit. cbv zeta.
  generalize (lg_email (login w)) (lg_password (login w)) (rememberMe (login w)).
  intros email password remember.
  apply keeps_apply; [| exact Hw].
  unfold navigate, setItem, removeItem.
  keeps_auto; apply keeps_signIn.
Qed.

Lemma keeps_loadTemplates : keeps loadTemplates (fun _ => True).
Proof.
  intros w Hw. unfold loadTemplates. cbv zeta.
  generalize (platform (generator w)) (format (generator w)). intros p f.
  apply keeps_apply; [| exact Hw].
  unfold console_error. keeps_auto.
Qed.

Lemma keeps_generate (c : Company.t) (pk : option Pack.t) (t : Template.t)
      (p f us : string) :
  keeps (generate c pk t p f us) (fun _ => True).
Proof.
  unfold generate, console_error, alert. keeps_auto.
Qed.

Lemma keeps_handleGenerate : keeps handleGenerate (fun _ => True).
Proof.
  intros w Hw. unfold handleGenerate. cbv zeta.
  destruct (company (auth w)) as [c |]; [| split; trivial].
  destruct (selectedTemplate (generator w)) as [t |]; [| split; trivial].
  destruct (negb (truthy (Company.id c))); [split; trivial |].
  destruct (over_quota (pack (auth w))).
  - apply keeps_apply; [| exact Hw]. unfold alert. keeps_auto.
  - apply keeps_generate. exact Hw.
Qed.

Lemma keeps_handleAddService : keeps Profile.handleAddService (fun _ => True).
Proof.
  intros w Hw. unfold Profile.handleAddService. cbv zeta.
  destruct (handleAddService_NoDup w (proj1 Hw)) as (w' & E & Hnd & _).
  unfold Profile.handleAddService in E. cbv zeta in E.
  destruct (truthy (trim (newService (profile w)))
            && negb (includes (services (profile w)) (trim (newService (profile w)))))
    eqn:Hb; [| split; trivial].
  rewrite E. cbn [fst snd]. split; [| trivial].
  unfold bind, Profile.setServices, Profile.setNewService in E. cbn in E.
  injection E as <-.
  destruct Hw as (_ & Hc & Hd). unfold services_wf in *. cbn in *. auto.
Qed.

Lemma keeps_handleRemoveService (s : string) :
  keeps (Profile.handleRemoveService s) (fun _ => True).
Proof.
  intros w Hw. unfold Profile.handleRemoveService.
  apply keeps_setServices; [| exact Hw].
  apply NoDup_filter. exact (proj1 Hw).
Qed.

Lemma keeps_loadCompany : keeps Profile.loadCompany (fun _ => True).
Proof.
  intros w (Hp & Hc & Hd). unfold Profile.loadCompany.
  destruct (company (auth w)) as [c |] eqn:E; (split; [| trivial]).
  - unfold services_wf. cbn. rewrite E. repeat split; auto.
  - cbn [snd]. unfold services_wf. rewrite E. repeat split; assumption.
Qed.

Lemma keeps_Profile_handleSubmit : keeps Profile.handleSubmit (fun _ => True).
Proof.
  intros w Hw. unfold Profile.handleSubmit. cbv zeta.
  pose proof (proj1 Hw) as Hnd. revert Hnd.
  generalize (profile w). intros p Hnd.
  destruct (company (auth w)) as [c |].
  - destruct (negb (truthy (Company.id c)));
      (apply keeps_apply; [| exact Hw]);
      unfold console_error; keeps_auto; apply keeps_refreshData.
  - apply keeps_apply; [| exact Hw]. keeps_auto.
Qed.

(** Whatever the user does, and whatever the network answers, no list of
    services ever gets a duplicate. *)
Lemma services_wf_perform (a : Action) : keeps (perform a) (fun _ => True).
Proof.
  destruct a; cbn [perform].
  - apply keeps_signIn.
  - apply keeps_signUp.
  - apply keeps_signOut.
  - apply keeps_refreshData.
  - apply keeps_Login_handleSubmit.
  - apply keeps_loadTemplates.
  - apply keeps_handleGenerate.
  - keeps_frame_step.
  - apply keeps_handleAddService.
  - apply keeps_handleRemoveService.
  - apply keeps_loadCompany.
  - apply keeps_Profile_handleSubmit.
Qed.

Lemma services_wf_perform_all (l : list Action) (w : World) :
  services_wf w -> services_wf (perform_all l w).
Proof.
  revert w. induction l as [| a l IH]; intros w Hw; cbn; [exact Hw |].
  apply IH. apply (services_wf_perform a w Hw).
Qed.

(** C9. Starting from a world where no list of services holds a duplicate,
    no sequence of user actions ever produces one, whatever the network
    answers.  Adding an entry that is blank after trimming, or already
    listed, leaves everything as it is.  A save followed by the reload
    stores the list and brings it back in the same order: the reloaded
    company, and the form filled from it, hold the saved list. *)
Theorem C9_services_unique_and_round_trip (w : World) :
  services_wf w ->
  (forall l, services_wf (perform_all l w))
  /\ (trim (newService (profile w)) = ""
      \/ In (trim (newService (profile w))) (services (profile w)) ->
      Profile.handleAddService w = (Normal tt, w))
  /\ (forall u u' c c0,
         user (auth w) = Some u ->
         company (auth w) = Some c ->
         truthy (Company.id c) = true ->
         fault_at 0 w = None ->
         fault_at 1 w = None ->
         users_with_id (User.id u) (db w) = [u'] ->
         User.company_id u' = Company.id c ->
         fault_at 2 w = None ->
         companies_with_id (Company.id c) (db w) = [c0] ->
         exists w' c' w'',
           Profile.handleSubmit w = (Normal tt, w')
           /\ company (auth w') = Some c'
           /\ companies_with_id (Company.id c) (db w') = [c']
           /\ Company.services c' = services (profile w)
           /\ NoDup (Company.services c')
           /\ Profile.loadCompany w' = (Normal tt, w'')
           /\ services (profile w'') = services (profile w)).
Proof.
  intros Hwf. split; [| split].
  - intros l. apply services_wf_perform_all. exact Hwf.
  - apply handleAddService_unchanged.
  - intros u u' c c0 Hu Hc Hid Hf0 Hf1 Hrow Hcid Hf2 Hco.
    destruct (handleSubmit_saves_and_reloads w u u' c c0 Hu Hc Hid Hf0 Hf1 Hrow Hcid
                                             Hf2 Hco)
      as (w' & c' & E & Hc' & Hdb & _ & Hs & _ & _).
    exists w', c'. eexists.
    split; [exact E |]. split; [exact Hc' |]. split; [exact Hdb |].
    split; [exact Hs |]. split; [rewrite Hs; exact (proj1 Hwf) |].
    unfold Profile.loadCompany. rewrite Hc'. split; [reflexivity |]. exact Hs.
Qed.

Lemma Sample_services_NoDup : NoDup ["Massage"; "Facial"].
Proof.
  constructor; [intros [H | []]; discriminate H |].
  constructor; [intros [] | constructor].
Defined.

Lemma Sample_at_profile_wf (entry : string) (fs : list (option error)) :
  services_wf (Sample.at_profile entry fs).
Proof.
  split; [exact Sample_services_NoDup |]. split.
  - intros c E. injection E as <-. exact Sample_services_NoDup.
  - constructor; [exact Sample_services_NoDup | constructor].
Defined.

Lemma C9_services_unique_and_round_trip_witness :
  services_wf
    (perform_all [DoTypeService "  Facial "; DoAddService;
                  DoTypeService "Sauna"; DoAddService; DoSaveProfile]
                 (Sample.at_profile "" []))
  /\ Profile.handleAddService (Sample.at_profile "  Facial " [])
     = (Normal tt, Sample.at_profile "  Facial " [])
  /\ (exists w' c',
         Profile.handleSubmit (Sample.at_profile "" []) = (Normal tt, w')
         /\ company (auth w') = Some c'
         /\ Company.services c' = ["Massage"; "Facial"]).
Proof.
  split; [| split].
  - apply (proj1 (C9_services_unique_and_round_trip
                    (Sample.at_profile "" []) (Sample_at_profile_wf "" []))).
  - apply (proj1 (proj2 (C9_services_unique_and_round_trip
                           (Sample.at_profile "  Facial " [])
                           (Sample_at_profile_wf "  Facial " [])))).
    right. cbn. tauto.
  - destruct (proj2 (proj2 (C9_services_unique_and_round_trip
                              (Sample.at_profile "" []) (Sample_at_profile_wf "" [])))
                    Sample.owner Sample.owner Sample.salon Sample.salon
                    eq_refl eq_refl eq_refl eq_refl eq_refl eq_refl eq_refl eq_refl
                    eq_refl)
      as (w' & c' & w'' & E & Hc & _ & Hs & _).
    exists w', c'. split; [exact E |]. split; [exact Hc | exact Hs].
Defined.

(** * Further properties *)

(** ** The load chain, branch by branch *)

Lemma db_after_select {A} (c : Call) (rows : DB -> reply A) (w : World) :
  db (answered c (fun d => (rows d, d)) w) = db w.
Proof. unfold answered. cbn. destruct (fault_at 0 w); reflexivity. Qed.

(** X1. When the user row cannot be read (the request fails, or no row or
    several rows carry the key), the chain stops after that one request:
    the error is logged, User, Company and Pack keep the values they had,
    and the loading flag is cleared. *)
Theorem loadUserData_user_unreadable (uid : string) (w : World) (e : error) :
  reply_at 0 w (select_user uid) (db w) = Failure e ->
  exists w',
    loadUserData uid w = (Normal tt, w')
    /\ user (auth w') = user (auth w)
    /\ company (auth w') = company (auth w)
    /\ pack (auth w') = pack (auth w)
    /\ loading (auth w') = false
    /\ trace w' = trace w ++ [Net (SelectUser uid);
                              ConsoleError "Error loading user data:" e]
    /\ db w' = db w.
Proof.
  intros Hr. unfold loadUserData, finally, try_catch, bind.
  rewrite request_run, Hr. cbn.
  eexists. split; [reflexivity |]. cbn. rewrite <- app_assoc.
  repeat split. destruct (fault_at 0 w); reflexivity.
Qed.

Lemma loadUserData_user_unreadable_witness :
  exists w',
    loadUserData "u1" (Sample.at_login Sample.orphaned []) = (Normal tt, w')
    /\ user (auth w') = None
    /\ loading (auth w') = false
    /\ trace w' = [Net (SelectUser "u1");
                   ConsoleError "Error loading user data:" PGRST116].
Proof.
  destruct (loadUserData_user_unreadable "u1" (Sample.at_login Sample.orphaned [])
                                         PGRST116 eq_refl)
    as (w' & E & Hu & _ & _ & Hl & Ht & _).
  exists w'. repeat split; assumption.
Defined.

(** X2. When the user row is read but the company is not (the user has no
    company reference, or the company read fails), the chain ends with the
    new User beside the Company and Pack it had before: the pack is never
    asked for, the failure is only logged, and the loading flag is
    cleared. *)
Theorem loadUserData_company_unreadable (uid : string) (w : World) (u : User.t) :
  reply_at 0 w (select_user uid) (db w) = Data u ->
  (truthy (User.company_id u) = false ->
   exists w',
     loadUserData uid w = (Normal tt, w')
     /\ auth w' = mkAuth (Some u) (company (auth w)) (pack (auth w)) false
     /\ trace w' = trace w ++ [Net (SelectUser uid)])
  /\ (forall e,
         truthy (User.company_id u) = true ->
         reply_at 1 w (select_company (User.company_id u)) (db w) = Failure e ->
         exists w',
           loadUserData uid w = (Normal tt, w')
           /\ auth w' = mkAuth (Some u) (company (auth w)) (pack (auth w)) false
           /\ trace w' = trace w ++ [Net (SelectUser uid);
                                     Net (SelectCompany (User.company_id u));
                                     ConsoleError "Error loading user data:" e]).
Proof.
  intros Hr. split.
  - intros Hc. unfold loadUserData, finally, try_catch, bind.
    rewrite request_run, Hr. cbn. rewrite Hc. cbn.
    eexists. repeat split.
  - intros e Hc Hr1. unfold loadUserData, finally, try_catch, bind.
    rewrite request_run, Hr. cbn [setUser fst snd]. rewrite Hc.
    rewrite request_run.
    match goal with
    | |- context [reply_at 0 ?W (select_company ?c) (db ?W)] =>
        replace (reply_at 0 W (select_company c) (db W)) with (@Failure Company.t e)
    end.
    + cbn. eexists. split; [reflexivity |]. cbn. rewrite <- !app_assoc.
      repeat split.
    + destruct (reply_at_data _ _ _ _ _ Hr) as [Hf0 _].
      rewrite <- Hr1. unfold reply_at, select_company. cbn [db with_auth answered].
      rewrite Hf0. cbn [snd select_user].
      replace (fault_at 0 _) with (fault_at 1 w); [reflexivity |].
      unfold fault_at. cbn. destruct (faults w); reflexivity.
Qed.

Lemma loadUserData_company_unreadable_witness :
  (exists w',
      loadUserData "u9"
        (Sample.at_login
           (mkDB [] None [User.mk "u9" "lee@spa.example" "Lee" "Roy" "user" ""]
                 [Sample.salon] [] [] [] Sample.uuids 0) [])
      = (Normal tt, w')
      /\ company (auth w') = None
      /\ trace w' = [Net (SelectUser "u9")])
  /\ (exists w',
         loadUserData "u1"
           (Sample.at_login (Sample.backend 0 30)
                            [None; Some (Err "permission denied for table company")])
         = (Normal tt, w')
         /\ user (auth w') = Some Sample.owner
         /\ company (auth w') = None
         /\ pack (auth w') = None).
Proof.
  split.
  - destruct (proj1 (loadUserData_company_unreadable
                       "u9"
                       (Sample.at_login
                          (mkDB [] None
                                [User.mk "u9" "lee@spa.example" "Lee" "Roy" "user" ""]
                                [Sample.salon] [] [] [] Sample.uuids 0) [])
                       (User.mk "u9" "lee@spa.example" "Lee" "Roy" "user" "") eq_refl)
                    eq_refl)
      as (w' & E & Ha & Ht).
    exists w'. split; [exact E |]. rewrite Ha. split; [reflexivity | exact Ht].
  - destruct (proj2 (loadUserData_company_unreadable
                       "u1"
                       (Sample.at_login (Sample.backend 0 30)
                          [None; Some (Err "permission denied for table company")])
                       Sample.owner eq_refl)
                    (Err "permission denied for table company") eq_refl eq_refl)
      as (w' & E & Ha & _).
    exists w'. split; [exact E |]. rewrite Ha. repeat split.
Defined.

(** X3. With the user and the company read and the pack request answered,
    the Pack is replaced exactly when one single pack row of the company
    has status [active]; with no such row, or with several, the Pack keeps
    the value it had. *)
Theorem loadUserData_pack_needs_one_active_row
        (uid : string) (w : World) (u : User.t) (c : Company.t) :
  reply_at 0 w (select_user uid) (db w) = Data u ->
  truthy (User.company_id u) = true ->
  reply_at 1 w (select_company (User.company_id u)) (db w) = Data c ->
  fault_at 2 w = None ->
  exists w',
    loadUserData uid w = (Normal tt, w')
    /\ user (auth w') = Some u
    /\ company (auth w') = Some c
    /\ pack (auth w') =
       match active_packs (User.company_id u) (db w) with
       | [p] => Some p
       | _ => pack (auth w)
       end
    /\ (forall p,
           active_packs (User.company_id u) (db w) = [p] ->
           Pack.company_id p = User.company_id u /\ Pack.status p = "active").
Proof.
  intros Hr0 Hc Hr1 Hf2.
  destruct (reply_at_data _ _ _ _ _ Hr0) as [Hf0 Hu].
  destruct (reply_at_data _ _ _ _ _ Hr1) as [Hf1 Hco].
  unfold select_user, single in Hu. cbn in Hu.
  unfold select_company, single in Hco. cbn in Hco.
  assert (Hu' : users_with_id uid (db w) = [u]).
  { destruct (users_with_id uid (db w)) as [| x [| y l]]; try discriminate.
    injection Hu as ->. reflexivity. }
  assert (Hco' : companies_with_id (User.company_id u) (db w) = [c]).
  { destruct (companies_with_id (User.company_id u) (db w)) as [| x [| y l]];
      try discriminate.
    injection Hco as ->. reflexivity. }
  exists (loaded w uid u c).
  split; [apply loadUserData_loads; assumption |].
  split; [reflexivity |]. split; [reflexivity |]. split.
  - unfold loaded, reply_at, select_active_pack, single. cbn. rewrite Hf2. cbn.
    destruct (active_packs (User.company_id u) (db w)) as [| p [| q l]]; reflexivity.
  - intros p Hp. unfold active_packs in Hp.
    apply filter_head_holds in Hp. apply andb_true_iff in Hp.
    destruct Hp as [H1 H2]. split; apply String.eqb_eq; assumption.
Qed.

Lemma loadUserData_pack_needs_one_active_row_witness :
  exists w',
    loadUserData "u1"
      (Sample.at_login
         (mkDB [Sample.zoe] None [Sample.owner] [Sample.salon]
               [Sample.plan 3 30; Pack.mk "p2" "c1" "premium" 100 0 99 "active"]
               [] [] Sample.uuids 0) [])
    = (Normal tt, w')
    /\ company (auth w') = Some Sample.salon
    /\ pack (auth w') = None.
Proof.
  destruct (loadUserData_pack_needs_one_active_row
              "u1"
              (Sample.at_login
                 (mkDB [Sample.zoe] None [Sample.owner] [Sample.salon]
                       [Sample.plan 3 30; Pack.mk "p2" "c1" "premium" 100 0 99 "active"]
                       [] [] Sample.uuids 0) [])
              Sample.owner Sample.salon eq_refl eq_refl eq_refl eq_refl)
    as (w' & E & _ & Hc & Hp & _).
  exists w'. split; [exact E |]. split; [exact Hc | exact Hp].
Defined.

(** ** The effects of the provider *)

Lemma loadUserData_frame (uid : string) (w : World) :
  exists w',
    loadUserData uid w = (Normal tt, w')
    /\ loading (auth w') = false
    /\ db w' = db w
    /\ storage w' = storage w
    /\ login w' = login w
    /\ generator w' = generator w
    /\ profile w' = profile w
    /\ webhook w' = webhook w.
Proof.
  destruct w as [d fs hk nw st tr a gs pf lg].
  unfold_load. unfold single. unfold_monad. cbn.
  explore; eexists; repeat split.
Qed.

(** X4. The two callbacks of the mount effect, for whatever session they
    are handed, settle without throwing and leave the loading flag
    cleared; they write nothing to the backend, to storage, or to the
    state of the login, generator and profile pages, and consume no
    webhook answer.  Handed no session, neither sends a request: the mount
    callback changes no entity, the notification callback clears User,
    Company and Pack. *)
Theorem auth_effects_settle (w : World) (s : option string) :
  (exists w',
      initialize s w = (Normal tt, w')
      /\ loading (auth w') = false
      /\ db w' = db w
      /\ storage w' = storage w
      /\ login w' = login w
      /\ generator w' = generator w
      /\ profile w' = profile w
      /\ webhook w' = webhook w
      /\ (s = None ->
          trace w' = trace w
          /\ faults w' = faults w
          /\ auth w' = mkAuth (user (auth w)) (company (auth w)) (pack (auth w)) false))
  /\ (exists w',
         onAuthStateChange s w = (Normal tt, w')
         /\ loading (auth w') = false
         /\ db w' = db w
         /\ storage w' = storage w
         /\ login w' = login w
         /\ generator w' = generator w
         /\ profile w' = profile w
         /\ webhook w' = webhook w
         /\ (s = None ->
             trace w' = trace w
             /\ faults w' = faults w
             /\ auth w' = mkAuth None None None false)).
Proof.
  split.
  - destruct s as [uid |]; cbn [initialize].
    + destruct (loadUserData_frame uid w)
        as (w' & E & Hl & Hd & Hst & Hlg & Hg & Hpf & Hhk).
      exists w'. repeat split; try assumption; discriminate.
    + eexists. repeat split.
  - destruct s as [uid |]; cbn [onAuthStateChange].
    + destruct (loadUserData_frame uid w)
        as (w' & E & Hl & Hd & Hst & Hlg & Hg & Hpf & Hhk).
      exists w'. repeat split; try assumption; discriminate.
    + eexists. repeat split.
Qed.

Lemma auth_effects_settle_witness :
  exists w',
    onAuthStateChange None (Sample.at_step3 3 30 [] []) = (Normal tt, w')
    /\ auth w' = mkAuth None None None false
    /\ trace w' = []
    /\ generator w' = generator (Sample.at_step3 3 30 [] []).
Proof.
  destruct (proj2 (auth_effects_settle (Sample.at_step3 3 30 [] []) None))
    as (w' & E & _ & _ & _ & _ & Hg & _ & _ & H).
  destruct (H eq_refl) as (Ht & _ & Ha).
  exists w'. repeat split; assumption.
Defined.

(** The chain sends the same requests and logs the same errors whenever it
    meets the same tables answering in the same way, whatever the rest of
    the world is: the user is asked for first, and at most two more
    requests follow. *)
Lemma loadUserData_replay (uid : string) (w : World)
      (hk : list WebhookReply) (nw : string) (st : list (string * string))
      (tr : list Event) (a : AuthState) (gs : GeneratorState) (pf : ProfileState)
      (lg : LoginState) :
  exists evs,
    trace (snd (loadUserData uid w)) = trace w ++ Net (SelectUser uid) :: evs
    /\ trace (snd (loadUserData uid
                     (mkWorld (db w) (faults w) hk nw st tr a gs pf lg)))
       = tr ++ Net (SelectUser uid) :: evs
    /\ length (calls evs) <= 2.
Proof.
  destruct w as [d fs hk0 nw0 st0 tr0 a0 gs0 pf0 lg0].
  unfold_load. unfold single. unfold_monad. cbn.
  explore; cbn; eexists;
    (split; [rewrite <- ?app_assoc; cbn; reflexivity |]);
    (split; [rewrite <- ?app_assoc; cbn; reflexivity |]); cbn; lia.
Qed.

(** X5. The chain started by the sign-in notification, after [signIn] has
    already run it, repeats it and changes nothing: started from the
    session state the sign-in left, against the same tables answering as
    they did, it sends again the requests the first chain sent (the user,
    then at most two more) and logs what it logged, and ends with the same
    User, Company, Pack and loading flag and the same tables.  When the
    user and the company are read, that is three more requests. *)
Theorem sign_in_notification_changes_nothing
        (w : World) (email password uid : string) :
  reply_at 0 w (sign_in_with_password email password) (db w) = Data (Some uid) ->
  exists w1 evs,
    signIn email password w = (Normal tt, w1)
    /\ trace w1
       = trace w ++ Net (AuthSignInWithPassword email password)
                 :: Net (SelectUser uid) :: evs
    /\ length (calls evs) <= 2
    /\ (forall u c,
           fault_at 1 w = None ->
           users_with_id uid (db w) = [u] ->
           truthy (User.company_id u) = true ->
           fault_at 2 w = None ->
           companies_with_id (User.company_id u) (db w) = [c] ->
           evs = [Net (SelectCompany (User.company_id u));
                  Net (SelectActivePack (User.company_id u))])
    /\ forall w2,
        db w2 = db w1 ->
        faults w2 = tl (faults w) ->
        auth w2 = auth w1 ->
        exists w3,
          onAuthStateChange (Some uid) w2 = (Normal tt, w3)
          /\ auth w3 = auth w1
          /\ db w3 = db w1
          /\ trace w3 = trace w2 ++ Net (SelectUser uid) :: evs.
Proof.
  intros Hr.
  destruct (reply_at_sign_in w email password uid Hr) as (Hf0 & i & Hi & <-).
  pose proof (signIn_accepted w email password i Hf0 Hi) as E.
  set (ws := signed_in w email password i) in *.
  destruct (loadUserData_frame (ident_id i) ws) as (w1 & E1 & _ & Hd1 & _).
  assert (Hrep : exists evs,
             trace w1 = trace ws ++ Net (SelectUser (ident_id i)) :: evs
             /\ length (calls evs) <= 2
             /\ forall hk nw st tr a gs pf lg,
                 trace (snd (loadUserData (ident_id i)
                               (mkWorld (db ws) (faults ws) hk nw st tr a gs pf lg)))
                 = tr ++ Net (SelectUser (ident_id i)) :: evs).
  { destruct (loadUserData_replay (ident_id i) ws [] "" [] [] (auth ws)
                                  (generator ws) (profile ws) (login ws))
      as (evs & Ht1 & _ & Hlen).
    exists evs. rewrite E1 in Ht1. cbn [snd] in Ht1.
    split; [exact Ht1 |]. split; [exact Hlen |].
    intros hk nw st tr a gs pf lg.
    destruct (loadUserData_replay (ident_id i) ws hk nw st tr a gs pf lg)
      as (evs' & Ht1' & Ht2' & _).
    rewrite E1 in Ht1'. cbn [snd] in Ht1'. rewrite Ht1 in Ht1'.
    apply app_inv_head in Ht1'. injection Ht1' as <-. exact Ht2'. }
  destruct Hrep as (evs & Ht1 & Hlen & Hany).
  exists w1, evs. split; [rewrite E; exact E1 |].
  split.
  { rewrite Ht1. unfold ws. cbn [trace signed_in].
    rewrite <- app_assoc. reflexivity. }
  split; [exact Hlen |]. split.
  - intros u c Hf1 Hu Hcid Hf2 Hc.
    assert (El : loadUserData (ident_id i) ws
                 = (Normal tt, loaded ws (ident_id i) u c)).
    { apply loadUserData_loads; try assumption;
        unfold ws, fault_at; cbn [faults signed_in];
        unfold fault_at in Hf1, Hf2; destruct (faults w); cbn in *;
        try assumption; reflexivity. }
    rewrite E1 in El. injection El as ->.
    cbn [trace loaded] in Ht1. apply app_inv_head in Ht1.
    injection Ht1 as <-. reflexivity.
  - intros w2 Hd2 Hf2 Ha2. cbn [onAuthStateChange].
    destruct (loadUserData_frame (ident_id i) w2) as (w3 & E3 & _ & Hd3 & _).
    exists w3. split; [exact E3 |].
    pose proof (loadUserData_twice (ident_id i) ws
                                   (webhook w2) (now w2) (storage w2) (trace w2)
                                   (generator w2) (profile w2) (login w2)) as Ht.
    pose proof (Hany (webhook w2) (now w2) (storage w2) (trace w2) (auth w2)
                     (generator w2) (profile w2) (login w2)) as Hev.
    rewrite E1 in Ht. cbn [snd] in Ht.
    rewrite <- Hd1 in Ht, Hev.
    change (faults ws) with (tl (faults w)) in Ht, Hev.
    rewrite <- Ha2, <- Hf2, <- Hd2 in Ht.
    rewrite <- Hf2, <- Hd2 in Hev.
    destruct w2. cbn in Ht, Hev. rewrite E3 in Ht, Hev. cbn in Ht, Hev.
    cbn in Ha2, Hd2, Hd3.
    split; [rewrite Ht; exact Ha2 |].
    split; [rewrite Hd3; exact Hd2 | exact Hev].
Qed.

Lemma sign_in_notification_changes_nothing_witness :
  exists w1 w3,
    signIn "zoe@spa.example" "s3cret" (Sample.at_login (Sample.backend 0 30) [])
    = (Normal tt, w1)
    /\ onAuthStateChange (Some "u1") (with_faults [] w1) = (Normal tt, w3)
    /\ auth w3 = auth w1
    /\ trace w3
       = trace (with_faults [] w1)
         ++ [Net (SelectUser "u1"); Net (SelectCompany "c1");
             Net (SelectActivePack "c1")].
Proof.
  destruct (sign_in_notification_changes_nothing
              (Sample.at_login (Sample.backend 0 30) []) "zoe@spa.example" "s3cret"
              "u1" eq_refl) as (w1 & evs & E & _ & _ & Hthree & H).
  destruct (H (with_faults [] w1) eq_refl eq_refl eq_refl)
    as (w3 & E3 & Ha & _ & Ht).
  exists w1, w3. split; [exact E |]. split; [exact E3 |]. split; [exact Ha |].
  rewrite Ht.
  rewrite (Hthree Sample.owner Sample.salon eq_refl eq_refl eq_refl eq_refl eq_refl).
  reflexivity.
Defined.

(** ** Sign-up, sign-out and the login page *)

(** X6. When the identity cannot be created (the request fails, or the
    email is already registered), sign-up throws that error as it came
    after this single request: no company and no user row is written and
    no state changes. *)
Theorem signUp_identity_refused
        (w : World) (email password firstName lastName companyName : string)
        (e : error) :
  reply_at 0 w (sign_up email password) (db w) = Failure e ->
  exists w',
    signUp email password firstName lastName companyName w = (Thrown e, w')
    /\ trace w' = trace w ++ [Net (AuthSignUp email password)]
    /\ db w' = db w
    /\ auth w' = auth w.
Proof.
  intros Hr. unfold signUp, bind. rewrite request_run, Hr.
  eexists. split; [reflexivity |]. cbn. repeat split.
  unfold reply_at in Hr. destruct (fault_at 0 w); [reflexivity |].
  unfold sign_up in *.
  destruct (existsb _ (identities (db w))); [reflexivity | discriminate].
Qed.

Lemma signUp_identity_refused_witness :
  exists w',
    signUp "zoe@spa.example" "other" "Zoe" "Martin" "Spa Zen"
           (Sample.at_login (Sample.backend 0 30) [])
    = (Thrown already_registered, w')
    /\ db w' = Sample.backend 0 30.
Proof.
  destruct (signUp_identity_refused
              (Sample.at_login (Sample.backend 0 30) [])
              "zoe@spa.example" "other" "Zoe" "Martin" "Spa Zen" already_registered
              eq_refl) as (w' & E & _ & Hd & _).
  exists w'. split; [exact E | exact Hd].
Defined.

(** X7. A refused sign-in on the login page ends with the error's message
    in the form (the fallback text when the message is empty), the page no
    longer loading, no navigation, and the remembered values in storage
    untouched. *)
Theorem Login_refused_shows_message (w : World) (e : error) :
  reply_at 0 w (sign_in_with_password (lg_email (login w)) (lg_password (login w)))
           (db w) = Failure e ->
  exists w',
    Login.handleSubmit w = (Normal tt, w')
    /\ lg_error (login w') =
       (if truthy (message e) then message e else "Erreur de connexion")
    /\ lg_loading (login w') = false
    /\ storage w' = storage w
    /\ auth w' = auth w
    /\ trace w' =
       trace w ++ [Net (AuthSignInWithPassword (lg_email (login w))
                                               (lg_password (login w)))].
Proof.
  intros Hr.
  destruct w as [d fs hk nw st tr a gs pf [em pw rm er ld]].
  cbn [login lg_email lg_password db] in Hr.
  unfold Login.handleSubmit, Login.setError, Login.setLoading.
  unfold finally, try_catch, bind.
  cbn [login lg_email lg_password rememberMe with_login db faults webhook now
       storage trace auth generator profile snd fst].
  unfold signIn, bind. rewrite request_run.
  match goal with
  | |- context [reply_at 0 ?W ?s (db ?W)] =>
      change (reply_at 0 W s (db W))
        with (reply_at 0 (mkWorld d fs hk nw st tr a gs pf (mkLogin em pw rm er ld))
                       s d)
  end.
  rewrite Hr. cbn.
  eexists. repeat split.
Qed.

Lemma Login_refused_shows_message_witness :
  exists w',
    Login.handleSubmit (Sample.at_login Sample.unused []) = (Normal tt, w')
    /\ lg_error (login w') = "Invalid login credentials"
    /\ trace w' = [Net (AuthSignInWithPassword "zoe@spa.example" "s3cret")].
Proof.
  destruct (Login_refused_shows_message (Sample.at_login Sample.unused [])
                                        invalid_credentials eq_refl)
    as (w' & E & He & _ & _ & _ & Ht).
  exists w'. split; [exact E |]. split; [exact He | exact Ht].
Defined.

Lemma getItem_setItem (k v : string) (st : list (string * string)) :
  getItem k (filter (fun kv => negb (fst kv =? k)) st ++ [(k, v)]) = Some v.
Proof.
  unfold getItem. induction st as [| [k0 v0] st IH]; cbn.
  - rewrite String.eqb_refl. reflexivity.
  - destruct (k0 =? k) eqn:E; cbn; [exact IH |]. rewrite E. exact IH.
Qed.

Lemma getItem_removeItem (k : string) (st : list (string * string)) :
  getItem k (filter (fun kv => negb (fst kv =? k)) st) = None.
Proof.
  unfold getItem. induction st as [| [k0 v0] st IH]; cbn; [reflexivity |].
  destruct (k0 =? k) eqn:E; cbn; [exact IH |]. rewrite E. exact IH.
Qed.

Lemma getItem_other (k k' : string) (st : list (string * string))
      (tail : list (string * string)) :
  (k' =? k) = false ->
  getItem k (filter (fun kv => negb (fst kv =? k')) st ++ tail)
  = match getItem k st with
    | Some v => Some v
    | None => getItem k tail
    end.
Proof.
  intros Hk. unfold getItem. induction st as [| [k0 v0] st IH]; cbn.
  - reflexivity.
  - destruct (k0 =? k') eqn:E; cbn.
    + apply String.eqb_eq in E. subst k0. rewrite Hk. exact IH.
    + destruct (k0 =? k); [reflexivity | exact IH].
Qed.

Lemma getItem_other_key (k k' : string) (st tail : list (string * string)) :
  (k' =? k) = false ->
  getItem k tail = None ->
  getItem k (filter (fun kv => negb (fst kv =? k')) st ++ tail) = getItem k st.
Proof.
  intros Hk Ht. rewrite getItem_other by exact Hk. rewrite Ht.
  destruct (getItem k st); reflexivity.
Qed.

Lemma getItem_single_other (k k' v : string) :
  (k' =? k) = false -> getItem k [(k', v)] = None.
Proof. intros Hk. unfold getItem, find. cbn [fst]. rewrite Hk. reflexivity. Qed.

(** X8. An accepted sign-in on the login page ends on the dashboard with
    no error shown and the page no longer loading; afterwards storage
    remembers the email exactly when the box was ticked: ticked, the flag
    reads "true" and the email is the one typed; not ticked, both keys are
    gone, whatever was stored before.  Every other key of storage reads as
    it did. *)
Theorem Login_accepted_remembers (w : World) (uid : string) :
  reply_at 0 w (sign_in_with_password (lg_email (login w)) (lg_password (login w)))
           (db w) = Data (Some uid) ->
  exists w' evs,
    Login.handleSubmit w = (Normal tt, w')
    /\ trace w' = trace w ++ evs ++ [Navigate "/dashboard"]
    /\ lg_error (login w') = ""
    /\ lg_loading (login w') = false
    /\ getItem "rememberMe" (storage w')
       = (if rememberMe (login w) then Some "true" else None)
    /\ getItem "rememberedEmail" (storage w')
       = (if rememberMe (login w) then Some (lg_email (login w)) else None)
    /\ (forall k, k <> "rememberMe" -> k <> "rememberedEmail" ->
                  getItem k (storage w') = getItem k (storage w)).
Proof.
  intros Hr.
  destruct w as [d fs hk nw st tr a gs pf [em pw rm er ld]].
  cbn [login lg_email lg_password db rememberMe] in *.
  destruct (reply_at_sign_in _ _ _ _ Hr) as (Hf0 & i & Hi & <-).
  unfold Login.handleSubmit, Login.setError, Login.setLoading.
  unfold finally, try_catch, bind, navigate, emit, setItem, removeItem.
  cbn [login lg_email lg_password rememberMe with_login db faults webhook now
       storage trace auth generator profile snd fst].
  match goal with
  | |- context [signIn em pw ?W] =>
      rewrite (signIn_accepted W em pw i Hf0 Hi);
      destruct (loadUserData_frame (ident_id i) (signed_in W em pw i))
        as (w1 & E1 & _ & _ & Hst & Hlg & _);
      destruct (loadUserData_completes (ident_id i) (signed_in W em pw i))
        as (w1' & E1' & _ & _ & _ & _ & _ & evs & Ht)
  end.
  rewrite E1 in E1'. injection E1' as <-. rewrite E1.
  cbn [storage signed_in login trace] in Hst, Hlg, Ht.
  destruct w1 as [d1 fs1 hk1 nw1 st1 tr1 a1 gs1 pf1 lg1].
  cbn in Hst, Hlg, Ht. subst st1 lg1 tr1.
  destruct rm; cbn; eexists;
    exists (Net (AuthSignInWithPassword em pw) :: Net (SelectUser (ident_id i)) :: evs);
    (split; [reflexivity |]); cbn;
    (split; [rewrite <- !app_assoc; reflexivity |]);
    do 2 (split; [reflexivity |]).
  - split; [| split].
    + rewrite getItem_other by reflexivity.
      rewrite getItem_setItem. reflexivity.
    + apply getItem_setItem.
    + intros k Hk1 Hk2.
      apply String.eqb_neq in Hk1, Hk2. rewrite String.eqb_sym in Hk1, Hk2.
      rewrite getItem_other_key;
        [| exact Hk2 | apply getItem_single_other; exact Hk2].
      apply getItem_other_key; [exact Hk1 | apply getItem_single_other; exact Hk1].
  - split; [| split].
    + rewrite <- (app_nil_r (filter _ (filter _ st))).
      rewrite getItem_other by reflexivity.
      rewrite getItem_removeItem. reflexivity.
    + apply getItem_removeItem.
    + intros k Hk1 Hk2.
      apply String.eqb_neq in Hk1, Hk2. rewrite String.eqb_sym in Hk1, Hk2.
      rewrite <- (app_nil_r (filter _ (filter _ st))).
      rewrite getItem_other_key; [| exact Hk2 | reflexivity].
      rewrite <- (app_nil_r (filter _ st)).
      apply getItem_other_key; [exact Hk1 | reflexivity].
Qed.

Lemma Login_accepted_remembers_witness :
  exists w',
    Login.handleSubmit
      (with_storage [("rememberMe", "true"); ("rememberedEmail", "old@spa.example");
                     ("theme", "dark")]
                    (Sample.at_login (Sample.backend 0 30) []))
    = (Normal tt, w')
    /\ getItem "rememberMe" (storage w') = None
    /\ getItem "rememberedEmail" (storage w') = None
    /\ getItem "theme" (storage w') = Some "dark".
Proof.
  destruct (Login_accepted_remembers
              (with_storage [("rememberMe", "true");
                             ("rememberedEmail", "old@spa.example");
                             ("theme", "dark")]
                            (Sample.at_login (Sample.backend 0 30) []))
              "u1" eq_refl) as (w' & evs & E & _ & _ & _ & H1 & H2 & H3).
  assert (Hk1 : "theme" <> "rememberMe") by discriminate.
  assert (Hk2 : "theme" <> "rememberedEmail") by discriminate.
  exists w'. split; [exact E |]. split; [exact H1 |]. split; [exact H2 |].
  rewrite (H3 "theme" Hk1 Hk2). reflexivity.
Defined.

(** X9. Leaving the profile page: whatever the backend answers to the
    sign-out, User, Company and Pack are cleared, the page navigates to
    the login screen as the last thing done, and a refresh started
    afterwards sends no request. *)
Theorem handleSignOut_leaves (w : World) :
  exists w',
    handleSignOut w = (Normal tt, w')
    /\ trace w' = trace w ++ [Net AuthSignOut; Navigate "/login"]
    /\ user (auth w') = None
    /\ company (auth w') = None
    /\ pack (auth w') = None
    /\ refreshData w' = (Normal tt, w').
Proof.
  destruct w as [d fs hk nw st tr a g pf lg].
  unfold handleSignOut, signOut, sign_out, refreshData. unfold_monad. cbn.
  split_faults fs; cbn; eexists; (split; [reflexivity |]); cbn;
    rewrite <- app_assoc; repeat split.
Qed.

(** ** The generator *)

(** X10. What a generation attempt never does, on any path: it never
    throws, never changes the session state, the choices of the wizard or
    the listed templates, never touches the identities, users, companies or
    templates of the backend, never calls the webhook twice and never shows
    more than one alert; once past its guards it leaves the generating flag
    off. *)
Theorem handleGenerate_frame (w : World) :
  exists w',
    handleGenerate w = (Normal tt, w')
    /\ auth w' = auth w
    /\ (currentStep (generator w'), platform (generator w'), format (generator w'),
        selectedTemplate (generator w'), userSuggestions (generator w'),
        templates (generator w'), categoryFilter (generator w'))
       = (currentStep (generator w), platform (generator w), format (generator w),
          selectedTemplate (generator w), userSuggestions (generator w),
          templates (generator w), categoryFilter (generator w))
    /\ (identities (db w'), user_tbl (db w'), company_tbl (db w'),
        template_tbl (db w'))
       = (identities (db w), user_tbl (db w), company_tbl (db w), template_tbl (db w))
    /\ fetches (trace w') <= S (fetches (trace w))
    /\ length (alerts (trace w')) <= S (length (alerts (trace w)))
    /\ (generator w' = generator w \/ generating (generator w') = false).
Proof.
  destruct w as [d fs hk nw st tr [au ac ap al] [cs pl fo tp sel lt cf us gen gp]
                   pf lg].
  unfold_generator. unfold insert_generated_post, update_pack_posts_used.
  unfold_monad. cbn.
  explore; (eexists; split; [reflexivity |]);
    unfold fetches, alerts, calls; cbn;
    repeat rewrite flat_map_app; repeat rewrite filter_app;
    repeat rewrite length_app; cbn;
    repeat split; try lia; auto.
Qed.

Lemma set_posts_used_twice (pid : string) (n : Z) (l : list Pack.t) :
  map (fun q => if Pack.id q =? pid then set_posts_used n q else q)
      (map (fun q => if Pack.id q =? pid then set_posts_used n q else q) l)
  = map (fun q => if Pack.id q =? pid then set_posts_used n q else q) l.
Proof.
  rewrite map_map. apply map_ext. intros q.
  destruct (Pack.id q =? pid) eqn:E; cbn; rewrite E; reflexivity.
Qed.

(** One attempt with a pack loaded under its limit. *)
Lemma handleGenerate_under_limit_step
      (w : World) (c : Company.t) (t : Template.t) (p : Pack.t) :
  pack (auth w) = Some p ->
  (Pack.posts_used p < Pack.monthly_posts_limit p)%Z ->
  company (auth w) = Some c ->
  truthy (Company.id c) = true ->
  selectedTemplate (generator w) = Some t ->
  exists w',
    handleGenerate w = (Normal tt, w')
    /\ auth w' = auth w
    /\ selectedTemplate (generator w') = Some t
    /\ fetches (trace w') = S (fetches (trace w))
    /\ (alerts (trace w') = alerts (trace w)
        \/ alerts (trace w') = alerts (trace w) ++ [generation_failed])
    /\ (counter_updates_sent (trace w') = counter_updates_sent (trace w)
        \/ counter_updates_sent (trace w')
           = counter_updates_sent (trace w)
             ++ [(Pack.id p, (Pack.posts_used p + 1)%Z)])
    /\ (pack_tbl (db w') = pack_tbl (db w)
        \/ pack_tbl (db w')
           = map (fun q => if Pack.id q =? Pack.id p
                           then set_posts_used (Pack.posts_used p + 1) q else q)
                 (pack_tbl (db w))).
Proof.
  intros Hp Hq Hc Hid Ht.
  assert (Ho : (Pack.monthly_posts_limit p <=? Pack.posts_used p)%Z = false)
    by (apply Z.leb_gt; lia).
  destruct w as [d fs hk nw st tr [au ac ap al] [cs pl fo tp sel lt cf us gen gp]
                   pf lg].
  cbn in Hp, Hc, Ht. subst ap ac sel.
  unfold_generator. unfold insert_generated_post, update_pack_posts_used.
  unfold_monad. cbn. rewrite Hid, Ho. cbn.
  explore; (eexists; split; [reflexivity |]);
    unfold fetches, alerts, counter_updates_sent, calls; cbn;
    repeat rewrite flat_map_app; repeat rewrite filter_app;
    repeat rewrite length_app; cbn; rewrite ?app_nil_r;
    repeat split; try lia; auto.
Qed.

(** X11. The quota is tested against the pack as it was loaded, and no
    attempt reloads it: with a pack loaded under its limit, any number of
    attempts in a row all reach the webhook and none is stopped by the
    quota alert.  Every counter update they send carries the same value,
    the loaded counter plus one, so the stored counter is never raised
    beyond that, however many posts were generated. *)
Theorem stale_pack_never_stops_generation
        (w : World) (c : Company.t) (t : Template.t) (p : Pack.t) (n : nat) :
  pack (auth w) = Some p ->
  (Pack.posts_used p < Pack.monthly_posts_limit p)%Z ->
  company (auth w) = Some c ->
  truthy (Company.id c) = true ->
  selectedTemplate (generator w) = Some t ->
  exists w' k j,
    attempts n handleGenerate w = (Normal tt, w')
    /\ pack (auth w') = Some p
    /\ fetches (trace w') = fetches (trace w) + n
    /\ j <= n
    /\ alerts (trace w') = alerts (trace w) ++ repeat generation_failed j
    /\ k <= n
    /\ counter_updates_sent (trace w')
       = counter_updates_sent (trace w)
         ++ repeat (Pack.id p, (Pack.posts_used p + 1)%Z) k
    /\ (pack_tbl (db w') = pack_tbl (db w)
        \/ pack_tbl (db w')
           = map (fun q => if Pack.id q =? Pack.id p
                           then set_posts_used (Pack.posts_used p + 1) q else q)
                 (pack_tbl (db w))).
Proof.
  intros Hp Hq Hc Hid Ht. revert w Hp Hc Ht.
  induction n as [| n IH]; intros w Hp Hc Ht.
  - exists w, 0, 0. cbn. rewrite !app_nil_r.
    repeat split; try lia; auto.
  - destruct (handleGenerate_under_limit_step w c t p Hp Hq Hc Hid Ht)
      as (w1 & E & Ha & Hsel & Hfe & Hal & Hcu & Hpk).
    destruct (IH w1) as (w' & k & j & E' & Hp' & Hfe' & Hj & Hal' & Hk & Hcu' & Hpk').
    + rewrite Ha. exact Hp.
    + rewrite Ha. exact Hc.
    + exact Hsel.
    + assert (Hal2 : exists j', j' <= S n
                       /\ alerts (trace w')
                          = alerts (trace w) ++ repeat generation_failed j').
      { destruct Hal as [Hal | Hal]; rewrite Hal in Hal'.
        - exists j. split; [lia | exact Hal'].
        - exists (S j). split; [lia |]. rewrite Hal', <- app_assoc. reflexivity. }
      assert (Hcu2 : exists k', k' <= S n
                       /\ counter_updates_sent (trace w')
                          = counter_updates_sent (trace w)
                            ++ repeat (Pack.id p, (Pack.posts_used p + 1)%Z) k').
      { destruct Hcu as [Hcu | Hcu]; rewrite Hcu in Hcu'.
        - exists k. split; [lia | exact Hcu'].
        - exists (S k). split; [lia |]. rewrite Hcu', <- app_assoc. reflexivity. }
      destruct Hal2 as (j' & Hj' & Hal2). destruct Hcu2 as (k' & Hk' & Hcu2).
      exists w', k', j'. cbn [attempts]. unfold bind. rewrite E.
      split; [exact E' |]. split; [exact Hp' |]. split; [lia |].
      split; [exact Hj' |]. split; [exact Hal2 |]. split; [exact Hk' |].
      split; [exact Hcu2 |].
      destruct Hpk as [Hpk | Hpk]; destruct Hpk' as [Hpk' | Hpk'];
        rewrite Hpk' , Hpk; auto.
      right. apply set_posts_used_twice.
Qed.

Lemma stale_pack_never_stops_generation_witness :
  exists w',
    attempts 3 handleGenerate
             (Sample.at_step3 29 30 []
                [Response true (Some Sample.picture);
                 Response true (Some Sample.picture);
                 Response true (Some Sample.picture)])
    = (Normal tt, w')
    /\ fetches (trace w') = 3
    /\ (map Pack.posts_used (pack_tbl (db w')) = [29%Z]
        \/ map Pack.posts_used (pack_tbl (db w')) = [30%Z]).
Proof.
  destruct (stale_pack_never_stops_generation
              (Sample.at_step3 29 30 []
                 [Response true (Some Sample.picture);
                  Response true (Some Sample.picture);
                  Response true (Some Sample.picture)])
              Sample.salon Sample.story (Sample.plan 29 30) 3
              eq_refl eq_refl eq_refl eq_refl eq_refl)
    as (w' & k & j & E & _ & Hfe & _ & _ & _ & _ & Hpk).
  exists w'. split; [exact E |]. split; [exact Hfe |].
  destruct Hpk as [-> | ->]; [left | right]; reflexivity.
Defined.

(** ** Profile page: saving *)





(** The update rewrites the rows with the given id and no other. *)
Lemma update_company_other_rows (cid : string) (row : CompanyUpdate) (d : DB) :
  filter (fun x => negb (Company.id x =? cid))
         (company_tbl (snd (update_company cid row d)))
  = filter (fun x => negb (Company.id x =? cid)) (company_tbl d).
Proof.
  unfold update_company. cbn.
  induction (company_tbl d) as [| x l IH]; cbn; [reflexivity |].
  destruct (Company.id x =? cid) eqn:E; cbn; rewrite E; cbn; rewrite IH; reflexivity.
Qed.

(** The company [Profile.handleSubmit] stores for the form [p] over the
    row [c0]. *)
Lemma handleSubmit_stores_form
      (w : World) (u u' : User.t) (c c0 : Company.t) :
  user (auth w) = Some u ->
  company (auth w) = Some c ->
  truthy (Company.id c) = true ->
  fault_at 0 w = None ->
  fault_at 1 w = None ->
  users_with_id (User.id u) (db w) = [u'] ->
  User.company_id u' = Company.id c ->
  fault_at 2 w = None ->
  companies_with_id (Company.id c) (db w) = [c0] ->
  exists w' row,
    Profile.handleSubmit w = (Normal tt, w')
    /\ company (auth w') = Some (apply_company_update row c0)
    /\ db w' = snd (update_company (Company.id c) row (db w))
    /\ row = mkCompanyUpdate (pf_name (profile w)) (businessSector (profile w))
                             (services (profile w)) (targetAudience (profile w))
                             (brandColors (profile w))
                             (if truthy (logoUrl (profile w))
                              then Some (logoUrl (profile w)) else None)
                             (toneOfVoice (profile w)) (visualStyle (profile w))
                             (now w)
    /\ pf_loading (profile w') = false
    /\ newService (profile w') = newService (profile w).
Proof.
  intros Hu Hc Hid Hf0 Hf1 Hrow Hcid Hf2 Hco.
  unfold Profile.handleSubmit. rewrite Hc, Hid. cbn [negb].
  unfold finally, try_catch, bind, Profile.setLoading, Profile.setMessage,
    toISOString_now, emit.
  match goal with
  | |- context [request (UpdateCompany _ ?r) _ ?W] => set (row := r); set (W0 := W)
  end.
  assert (HW0f : forall n, fault_at n W0 = fault_at n w) by reflexivity.
  assert (HW0d : db W0 = db w) by reflexivity.
  assert (HW0a : auth W0 = auth w) by reflexivity.
  assert (HW0n : newService (profile W0) = newService (profile w)) by reflexivity.
  assert (Hr0 : row = mkCompanyUpdate (pf_name (profile w)) (businessSector (profile w))
                             (services (profile w)) (targetAudience (profile w))
                             (brandColors (profile w))
                             (if truthy (logoUrl (profile w))
                              then Some (logoUrl (profile w)) else None)
                             (toneOfVoice (profile w)) (visualStyle (profile w))
                             (now w)) by reflexivity.
  clearbody W0 row.
  rewrite request_run.
  assert (Hr : reply_at 0 W0 (update_company (Company.id c) row) (db W0) = Data tt)
    by (unfold reply_at; rewrite HW0f, Hf0; reflexivity).
  rewrite Hr.
  set (Wa := answered (UpdateCompany (Company.id c) row)
                      (update_company (Company.id c) row) W0).
  assert (Hda : db Wa = snd (update_company (Company.id c) row (db w))).
  { unfold Wa. rewrite db_answered by (rewrite HW0f; exact Hf0).
    rewrite HW0d. reflexivity. }
  assert (Hna : newService (profile Wa) = newService (profile w))
    by (unfold Wa; cbn [profile answered]; exact HW0n).
  assert (Hca : companies_with_id (Company.id c) (db Wa)
                = [apply_company_update row c0]).
  { rewrite Hda. apply companies_after_update. exact Hco. }
  assert (El : refreshData Wa
               = (Normal tt, loaded Wa (User.id u) u' (apply_company_update row c0))).
  { apply refreshData_loads.
    - unfold Wa. cbn [auth answered]. rewrite HW0a. exact Hu.
    - unfold Wa. rewrite fault_at_answered, HW0f. exact Hf1.
    - rewrite Hda. exact Hrow.
    - rewrite Hcid. exact Hid.
    - unfold Wa. rewrite fault_at_answered, HW0f. exact Hf2.
    - rewrite Hcid. exact Hca. }
  rewrite El. clearbody Wa.
  do 2 eexists. split; [reflexivity |].
  cbn [auth company db profile pf_loading newService loaded with_trace with_profile
       trace].
  split; [reflexivity |]. split; [exact Hda |]. split; [exact Hr0 |].
  split; [reflexivity | exact Hna].
Qed.

(** X14. The whole form survives a save: once the update and the reload
    have gone through, the effect that fills the form from the reloaded
    company puts back exactly what was typed, field by field (an empty
    logo address is stored as null and comes back empty); and in the
    table only the rows with the company's id were rewritten. *)
Theorem Profile_form_round_trip
        (w : World) (u u' : User.t) (c c0 : Company.t) :
  user (auth w) = Some u ->
  company (auth w) = Some c ->
  truthy (Company.id c) = true ->
  fault_at 0 w = None ->
  fault_at 1 w = None ->
  users_with_id (User.id u) (db w) = [u'] ->
  User.company_id u' = Company.id c ->
  fault_at 2 w = None ->
  companies_with_id (Company.id c) (db w) = [c0] ->
  exists w' w'',
    Profile.handleSubmit w = (Normal tt, w')
    /\ Profile.loadCompany w' = (Normal tt, w'')
    /\ pf_name (profile w'') = pf_name (profile w)
    /\ businessSector (profile w'') = businessSector (profile w)
    /\ services (profile w'') = services (profile w)
    /\ targetAudience (profile w'') = targetAudience (profile w)
    /\ brandColors (profile w'') = brandColors (profile w)
    /\ logoUrl (profile w'') = logoUrl (profile w)
    /\ toneOfVoice (profile w'') = toneOfVoice (profile w)
    /\ visualStyle (profile w'') = visualStyle (profile w)
    /\ newService (profile w'') = newService (profile w)
    /\ filter (fun x => negb (Company.id x =? Company.id c)) (company_tbl (db w'))
       = filter (fun x => negb (Company.id x =? Company.id c)) (company_tbl (db w))
    /\ user_tbl (db w') = user_tbl (db w)
    /\ pack_tbl (db w') = pack_tbl (db w).
Proof.
  intros Hu Hc Hid Hf0 Hf1 Hrow Hcid Hf2 Hco.
  destruct (handleSubmit_stores_form w u u' c c0 Hu Hc Hid Hf0 Hf1 Hrow Hcid Hf2 Hco)
    as (w' & row & E & Hc' & Hd & Hr & _ & Hn).
  exists w'. eexists. split; [exact E |].
  unfold Profile.loadCompany. rewrite Hc'. split; [reflexivity |].
  cbn [profile with_profile pf_name businessSector services targetAudience
       brandColors logoUrl toneOfVoice visualStyle newService].
  rewrite Hd, Hr. cbn.
  repeat (split; [reflexivity |]).
  split.
  { unfold truthy. destruct (logoUrl (profile w) =? "")%string eqn:El; cbn.
    - apply String.eqb_eq in El. symmetry. exact El.
    - reflexivity. }
  repeat (split; [reflexivity |]).
  split; [exact Hn |].
  split; [| split; reflexivity].
  apply (update_company_other_rows (Company.id c) _ (db w)).
Qed.

Lemma Profile_form_round_trip_witness :
  exists w' w'',
    Profile.handleSubmit (Sample.at_profile "Sauna" []) = (Normal tt, w')
    /\ Profile.loadCompany w' = (Normal tt, w'')
    /\ services (profile w'') = ["Massage"; "Facial"]
    /\ logoUrl (profile w'') = ""
    /\ newService (profile w'') = "Sauna".
Proof.
  destruct (Profile_form_round_trip
              (Sample.at_profile "Sauna" []) Sample.owner Sample.owner
              Sample.salon Sample.salon
              eq_refl eq_refl eq_refl eq_refl eq_refl eq_refl eq_refl eq_refl eq_refl)
    as (w' & w'' & E & E' & _ & _ & Hs & _ & _ & Hl & _ & _ & Hn & _).
  exists w', w''. split; [exact E |]. split; [exact E' |].
  split; [exact Hs |]. split; [exact Hl | exact Hn].
Defined.

(** ** Profile page: the list of services *)

Lemma filter_remove_last (l : list string) (x : string) :
  ~ In x l -> filter (fun s => negb (s =? x)) (l ++ [x]) = l.
Proof.
  intros Hn. rewrite filter_app. cbn. rewrite String.eqb_refl. cbn.
  rewrite app_nil_r. apply forallb_filter_id. apply forallb_forall.
  intros s Hs. apply negb_true_iff, String.eqb_neq. intros ->. exact (Hn Hs).
Qed.

(** X15. Adding an entry that is accepted and removing it again gives
    back the list as it was; the entry box is left empty, and nothing
    else happens.  (The service removed is the trimmed entry, which is
    what the list shows.) *)
Theorem add_then_remove_restores (w : World) :
  truthy (trim (newService (profile w))) = true ->
  ~ In (trim (newService (profile w))) (services (profile w)) ->
  exists w',
    (Profile.handleAddService ;;
     Profile.handleRemoveService (trim (newService (profile w)))) w
    = (Normal tt, w')
    /\ services (profile w') = services (profile w)
    /\ newService (profile w') = ""
    /\ trace w' = trace w /\ db w' = db w /\ auth w' = auth w.
Proof.
  intros Ht Hn.
  assert (Hi : includes (services (profile w)) (trim (newService (profile w)))
               = false).
  { destruct (includes _ _) eqn:E; [| reflexivity].
    exfalso. apply Hn. apply includes_In. exact E. }
  unfold bind, Profile.handleAddService. rewrite Ht, Hi. cbn [andb negb].
  unfold bind, Profile.setServices, Profile.setNewService,
    Profile.handleRemoveService.
  eexists. split; [reflexivity |].
  destruct w as [d fs hk nw st tr a gs pf lg]. cbn in *.
  rewrite filter_remove_last by exact Hn. repeat split.
Qed.

Lemma add_then_remove_restores_witness :
  exists w',
    (Profile.handleAddService ;; Profile.handleRemoveService "Sauna")
      (Sample.at_profile " Sauna " [])
    = (Normal tt, w')
    /\ services (profile w') = ["Massage"; "Facial"]
    /\ newService (profile w') = "".
Proof.
  assert (Hn : ~ In (trim " Sauna ") ["Massage"; "Facial"]).
  { intros [H | [H | []]]; discriminate H. }
  destruct (add_then_remove_restores (Sample.at_profile " Sauna " []) eq_refl Hn)
    as (w' & E & Hs & Hb & _).
  exists w'. split; [exact E |]. split; [exact Hs | exact Hb].
Defined.

(** ** PostGenerator page: the wizard *)

(** Past its guards, an attempt posts the selected template with the
    platform and format of the moment. *)
Lemma handleGenerate_posts_selection (w : World) (c : Company.t) (t : Template.t) :
  company (auth w) = Some c ->
  truthy (Company.id c) = true ->
  over_quota (pack (auth w)) = false ->
  selectedTemplate (generator w) = Some t ->
  exists w' rest,
    handleGenerate w = (Normal tt, w')
    /\ trace w'
       = trace w
         ++ Net (Fetch (payload c (platform (generator w)) (format (generator w)) t
                                (userSuggestions (generator w)))) :: rest.
Proof.
  intros Hc Hid Ho Ht.
  destruct w as [d fs hk nw st tr [au ac ap al] [cs pl fo tp sel lt cf us gen gp]
                   pf lg].
  cbn in Hc, Ho, Ht. subst ac sel.
  unfold handleGenerate. cbn [auth generator company pack selectedTemplate platform
                              format userSuggestions].
  rewrite Hid, Ho. cbn [negb].
  unfold generate, setGenerating, setGeneratedPost, insert_generated_post,
    update_pack_posts_used.
  unfold_monad. cbn.
  explore; (do 2 eexists; split; [reflexivity |]); cbn;
    repeat rewrite <- app_assoc; cbn; reflexivity.
Qed.

(** X16. Nothing clears the selected template when the choices of step 1
    change.  Going back to step 1, choosing another platform and format and
    continuing reloads the list for the new choices (one query), but the
    template selected earlier stays selected, whether or not it carries
    the new tags or is in the new list, and so do the category filter and
    the suggestions; a generation attempt made then posts that template
    together with the new platform and format. *)
Theorem selection_survives_new_choices
        (w : World) (c : Company.t) (t : Template.t) (p f : string) :
  selectedTemplate (generator w) = Some t ->
  truthy p = true ->
  truthy f = true ->
  company (auth w) = Some c ->
  truthy (Company.id c) = true ->
  over_quota (pack (auth w)) = false ->
  exists w1 w2 rest,
    (setCurrentStep Step1 ;; templates_effect ;;
     setPlatform p ;; templates_effect ;;
     setFormat f ;; templates_effect ;;
     setCurrentStep Step2 ;; templates_effect) w = (Normal tt, w1)
    /\ calls (trace w1) = calls (trace w) ++ [SelectTemplates p f]
    /\ templates (generator w1)
       = match fault_at 0 w with
         | Some _ => []
         | None => filter (fun x => Template.is_active x
                                    && contains (Template.platforms x) p
                                    && contains (Template.formats x) f)
                          (template_tbl (db w))
         end
    /\ selectedTemplate (generator w1) = Some t
    /\ categoryFilter (generator w1) = categoryFilter (generator w)
    /\ handleGenerate w1 = (Normal tt, w2)
    /\ trace w2
       = trace w1
         ++ Net (Fetch (payload c p f t (userSuggestions (generator w)))) :: rest.
Proof.
  intros Ht Hp Hf Hc Hid Ho.
  assert (E1 : exists w1,
             (setCurrentStep Step1 ;; templates_effect ;;
              setPlatform p ;; templates_effect ;;
              setFormat f ;; templates_effect ;;
              setCurrentStep Step2 ;; templates_effect) w = (Normal tt, w1)
             /\ calls (trace w1) = calls (trace w) ++ [SelectTemplates p f]
             /\ templates (generator w1)
                = match fault_at 0 w with
                  | Some _ => []
                  | None => filter (fun x => Template.is_active x
                                             && contains (Template.platforms x) p
                                             && contains (Template.formats x) f)
                                   (template_tbl (db w))
                  end
             /\ selectedTemplate (generator w1) = Some t
             /\ categoryFilter (generator w1) = categoryFilter (generator w)
             /\ auth w1 = auth w
             /\ platform (generator w1) = p /\ format (generator w1) = f
             /\ userSuggestions (generator w1) = userSuggestions (generator w)).
  { destruct w as [d fs hk nw st tr a [cs pl fo tp sel lt cf us gen gp] pf lg].
    cbn in Ht. subst sel.
    unfold bind, setCurrentStep, setPlatform, setFormat, templates_effect.
    cbn [generator with_generator currentStep platform format is_step2 andb ret].
    rewrite Hp, Hf. cbn [andb].
    unfold loadTemplates, select_templates, fault_at, setTemplates,
      setLoadingTemplates.
    unfold_monad. cbn.
    split_faults fs; cbn; eexists; (split; [reflexivity |]); cbn;
      repeat rewrite calls_app; cbn; rewrite ?app_nil_r, <- ?app_assoc;
      repeat split. }
  destruct E1 as (w1 & E & Hcalls & Htp & Hsel & Hcf & Ha & Hpl & Hfo & Hus).
  destruct (handleGenerate_posts_selection w1 c t) as (w2 & rest & E2 & Htr).
  - rewrite Ha. exact Hc.
  - exact Hid.
  - rewrite Ha. exact Ho.
  - exact Hsel.
  - rewrite Hpl, Hfo, Hus in Htr.
    exists w1, w2, rest. repeat split; assumption.
Qed.

Lemma selection_survives_new_choices_witness :
  exists w1 w2 rest,
    (setCurrentStep Step1 ;; templates_effect ;;
     setPlatform "linkedin" ;; templates_effect ;;
     setFormat "post" ;; templates_effect ;;
     setCurrentStep Step2 ;; templates_effect)
      (Sample.at_step3 0 30 [] [Response true (Some Sample.picture)])
    = (Normal tt, w1)
    /\ selectedTemplate (generator w1) = Some Sample.story
    /\ handleGenerate w1 = (Normal tt, w2)
    /\ trace w2
       = trace w1
         ++ Net (Fetch (payload Sample.salon "linkedin" "post" Sample.story
                                (userSuggestions
                                   (generator
                                      (Sample.at_step3 0 30 []
                                         [Response true (Some Sample.picture)])))))
            :: rest.
Proof.
  destruct (selection_survives_new_choices
              (Sample.at_step3 0 30 [] [Response true (Some Sample.picture)])
              Sample.salon Sample.story "linkedin" "post"
              eq_refl eq_refl eq_refl eq_refl eq_refl eq_refl)
    as (w1 & w2 & rest & E & _ & _ & Hsel & _ & E2 & Htr).
  exists w1, w2, rest. repeat split; assumption.
Defined.

(** X17. After [resetGenerator] the wizard is inert: the templates effect
    sends nothing (no platform is chosen) and a generation attempt does
    nothing at all (no template is selected).  The reset itself sends
    nothing and leaves the session state, the listed templates and the
    generating flag as they were. *)
Theorem resetGenerator_makes_wizard_inert (w : World) :
  exists w',
    resetGenerator w = (Normal tt, w')
    /\ templates_effect w' = (Normal tt, w')
    /\ handleGenerate w' = (Normal tt, w')
    /\ resetGenerator w' = (Normal tt, w')
    /\ trace w' = trace w /\ db w' = db w /\ auth w' = auth w
    /\ templates (generator w') = templates (generator w)
    /\ generating (generator w') = generating (generator w)
    /\ loadingTemplates (generator w') = loadingTemplates (generator w).
Proof.
  destruct w as [d fs hk nw st tr [au ac ap al] [cs pl fo tp sel lt cf us gen gp]
                   pf lg].
  exists (mkWorld d fs hk nw st tr (mkAuth au ac ap al)
                  (mkGenerator Step1 "" "" tp None lt "all" "" gen None) pf lg).
  destruct ac; repeat split; vm_compute; reflexivity.
Qed.

(** ** The category buttons of step 2 *)

Lemma distinct_In (l : list string) (x : string) : In x (distinct l) <-> In x l.
Proof.
  induction l as [| a l IH]; cbn; [tauto |].
  rewrite filter_In, negb_true_iff, String.eqb_neq, IH.
  destruct (String.eqb_spec a x) as [-> | Hne]; [tauto |].
  split; [tauto |]. intros [H | H]; [tauto |]. right. split; [exact H |].
  intros ->. exact (Hne eq_refl).
Qed.

Lemma distinct_NoDup (l : list string) : NoDup (distinct l).
Proof.
  induction l as [| a l IH]; cbn; constructor.
  - rewrite filter_In, negb_true_iff, String.eqb_neq. tauto.
  - apply NoDup_filter. exact IH.
Qed.

Lemma list_sum_step (a : nat) (l : list nat) : list_sum (a :: l) = a + list_sum l.
Proof. reflexivity. Qed.

Lemma filter_step {A} (f : A -> bool) (x : A) (l : list A) :
  filter f (x :: l) = if f x then x :: filter f l else filter f l.
Proof. reflexivity. Qed.

(** Over a duplicate-free list of categories that holds the category of
    every template, the counts add up to the number of templates. *)
Lemma counts_add_up (l : list Template.t) (cs : list string) :
  NoDup cs ->
  (forall t, In t l -> In (Template.category t) cs) ->
  list_sum (map (fun c => length (filter (fun t => Template.category t =? c) l)) cs)
  = length l.
Proof.
  intros Hnd. induction l as [| t l IH]; intros Hall.
  - cbn. clear. induction cs as [| c cs IHc]; cbn; [reflexivity | exact IHc].
  - assert (Hin : In (Template.category t) cs) by (apply Hall; left; reflexivity).
    assert (IH' := IH (fun t' H => Hall t' (or_intror H))). clear IH Hall.
    cbn [length]. rewrite <- IH'. clear IH'.
    induction cs as [| c cs IHc]; [destruct Hin |].
    inversion Hnd as [| c' cs' Hnotin Hnd']; subst.
    cbn [map]. rewrite !list_sum_step. rewrite filter_step.
    destruct (String.eqb_spec (Template.category t) c) as [Heq | Hne].
    + cbn [length].
      assert (Hrest : map (fun c0 => length (filter (fun t0 => Template.category t0 =? c0)
                                                    (t :: l))) cs
                      = map (fun c0 => length (filter (fun t0 => Template.category t0 =? c0)
                                                      l)) cs).
      { apply map_ext_in. intros c0 Hc0. cbn [filter].
        destruct (String.eqb_spec (Template.category t) c0) as [Heq0 | _];
          [| reflexivity].
        exfalso. apply Hnotin. rewrite <- Heq, Heq0. exact Hc0. }
      rewrite Hrest. lia.
    + destruct Hin as [Hin | Hin]; [exfalso; apply Hne; symmetry; exact Hin |].
      rewrite (IHc Hnd' Hin). lia.
Qed.

(** X18. The category buttons partition the listed templates: each
    category present is offered once, only categories present are
    offered, and the counts shown on the buttons add up to the count shown
    on the button for all templates. *)
Theorem categories_partition_templates (g : GeneratorState) :
  NoDup (categories g)
  /\ (forall c, In c (categories g)
                <-> exists t, In t (templates g) /\ Template.category t = c)
  /\ list_sum (map (category_count g) (categories g)) = length (templates g)
  /\ (forall c, In c (categories g) -> 0 < category_count g c).
Proof.
  unfold categories, category_count. split; [apply distinct_NoDup |]. split.
  - intros c. rewrite distinct_In, in_map_iff. split.
    + intros (t & E & H). exists t. tauto.
    + intros (t & H & E). exists t. tauto.
  - split.
    + apply counts_add_up; [apply distinct_NoDup |].
      intros t Ht. apply distinct_In, in_map. exact Ht.
    + intros c Hc. apply distinct_In, in_map_iff in Hc.
      destruct Hc as (t & E & Ht).
      assert (Hin : In t (filter (fun t0 => Template.category t0 =? c) (templates g))).
      { apply filter_In. split; [exact Ht |]. rewrite E. apply String.eqb_refl. }
      destruct (filter _ (templates g)); [destruct Hin | cbn; lia].
Qed.

(** ** Dashboard page *)

(** X19. The dashboard and the generator read the same pack but do not
    always agree.  With a pack whose limit is not zero, the dashboard
    shows that the limit is reached exactly when the generator refuses to
    generate.  A limit of zero is displayed as 30: the dashboard then
    announces posts left while the generator refuses every attempt.
    Without a pack the dashboard shows 30 posts left, and the generator
    applies no limit. *)
Theorem Dashboard_and_generator_quota (p : Pack.t) :
  (Pack.monthly_posts_limit p <> 0%Z ->
   (Dashboard.usageLine (Some p) = Dashboard.LimitReached
    <-> over_quota (Some p) = true))
  /\ (Pack.monthly_posts_limit p = 0%Z ->
      (0 <= Pack.posts_used p < 30)%Z ->
      over_quota (Some p) = true
      /\ exists n plural,
           Dashboard.usageLine (Some p) = Dashboard.PostsLeft n plural
           /\ (n = 30 - Pack.posts_used p)%Z)
  /\ Dashboard.usageLine None = Dashboard.PostsLeft 30 true
  /\ over_quota None = false.
Proof.
  assert (Hused : (if (Pack.posts_used p =? 0)%Z then 0%Z else Pack.posts_used p)
                  = Pack.posts_used p).
  { destruct (Z.eqb_spec (Pack.posts_used p) 0) as [E | _]; [| reflexivity].
    symmetry. exact E. }
  unfold Dashboard.usageLine, Dashboard.remainingPosts, Dashboard.postsLimit,
    Dashboard.postsUsed, over_quota.
  rewrite !Hused.
  split; [| split; [| split; reflexivity]].
  - intros Hl.
    destruct (Z.eqb_spec (Pack.monthly_posts_limit p) 0) as [E | _]; [contradiction |].
    rewrite Z.leb_le.
    destruct (Z.ltb_spec 0 (Pack.monthly_posts_limit p - Pack.posts_used p))
      as [Hlt | Hge]; split; intros Hx;
      first [discriminate Hx | lia | reflexivity].
  - intros Hl Hu. rewrite Hl. cbn [Z.eqb].
    split; [apply Z.leb_le; lia |].
    destruct (Z.ltb_spec 0 (30 - Pack.posts_used p)) as [Hlt | Hge]; [| lia].
    do 2 eexists. split; reflexivity.
Qed.

Lemma Dashboard_and_generator_quota_witness :
  (Dashboard.usageLine (Some (Sample.plan 30 30)) = Dashboard.LimitReached
   <-> over_quota (Some (Sample.plan 30 30)) = true)
  /\ over_quota (Some (Sample.plan 5 0)) = true
  /\ exists n plural,
       Dashboard.usageLine (Some (Sample.plan 5 0)) = Dashboard.PostsLeft n plural
       /\ n = 25%Z.
Proof.
  split; [| split].
  - apply (proj1 (Dashboard_and_generator_quota (Sample.plan 30 30))).
    discriminate.
  - apply (proj1 (proj2 (Dashboard_and_generator_quota (Sample.plan 5 0)))
             eq_refl).
    cbn. lia.
  - destruct (proj1 (proj2 (Dashboard_and_generator_quota (Sample.plan 5 0)))
                eq_refl) as (_ & n & plural & E & Hn); [cbn; lia |].
    exists n, plural. split; [exact E | exact Hn].
Defined.

(** X20. Clicking a category button lists exactly the templates of that
    category, as many as the button announces, provided the category is
    not itself called all: that name is the filter value that shows
    everything. *)
Theorem category_button_lists_its_count (w : World) (c : string) :
  c <> "all" ->
  exists w',
    setCategoryFilter c w = (Normal tt, w')
    /\ templates (generator w') = templates (generator w)
    /\ selectedTemplate (generator w') = selectedTemplate (generator w)
    /\ length (visibleTemplates (generator w')) = category_count (generator w) c
    /\ (forall t, In t (visibleTemplates (generator w'))
                  <-> In t (templates (generator w)) /\ Template.category t = c).
Proof.
  intros Hc. apply String.eqb_neq in Hc.
  unfold setCategoryFilter. eexists. split; [reflexivity |].
  unfold visibleTemplates, category_count.
  cbn [generator with_generator templates selectedTemplate categoryFilter].
  rewrite Hc. cbn [orb].
  do 3 (split; [reflexivity |]).
  intros t. rewrite filter_In, String.eqb_eq. reflexivity.
Qed.

Lemma category_button_lists_its_count_witness :
  exists w',
    setCategoryFilter "promotion" (Sample.at_step3 0 30 [] []) = (Normal tt, w')
    /\ length (visibleTemplates (generator w')) = 1.
Proof.
  assert (Hne : "promotion" <> "all") by discriminate.
  destruct (category_button_lists_its_count (Sample.at_step3 0 30 [] []) "promotion"
                                            Hne)
    as (w' & E & _ & _ & Hl & _).
  exists w'. split; [exact E |]. rewrite Hl. reflexivity.
Defined.

(** ** Sign-up: after a partial failure *)

Lemma existsb_snoc_holds {A} (f : A -> bool) (l : list A) (x : A) :
  f x = true -> existsb f (l ++ [x]) = true.
Proof. intros H. rewrite existsb_app. cbn. rewrite H. apply orb_true_iff. auto. Qed.

(** X21. A sign-up that fails at the company step cannot be retried: the
    identity created by its first step stays behind, so a second sign-up
    with the same email, whatever the password, is refused by the backend
    as already registered, and writes nothing. *)
Theorem signUp_partial_failure_blocks_retry
        (w : World) (email password password' firstName lastName companyName : string)
        (uid : string) (e : error) :
  reply_at 0 w (sign_up email password) (db w) = Data (Some uid) ->
  reply_at 1 w (insert_company (blank_company companyName))
           (snd (sign_up email password (db w))) = Failure e ->
  fault_at 2 w = None ->
  exists w' w'',
    signUp email password firstName lastName companyName w = (Thrown e, w')
    /\ signUp email password' firstName lastName companyName w'
       = (Thrown already_registered, w'')
    /\ db w'' = db w'
    /\ identities (db w') = identities (db w) ++ [mkIdentity uid email password]
    /\ user_tbl (db w') = user_tbl (db w)
    /\ auth w'' = auth w.
Proof.
  intros Ha Hb Hf2.
  destruct (reply_at_data _ _ _ _ _ Ha) as [Hf0 Ha'].
  assert (Hd1 := sign_up_accepted _ _ _ _ Ha').
  unfold signUp at 1. fold (blank_company companyName). unfold bind.
  rewrite request_run, Ha, try_catch_rethrow.
  rewrite request_run, reply_at_answered, (db_answered _ _ _ Hf0), Hb.
  set (w1 := answered (InsertCompany (blank_company companyName))
                      (insert_company (blank_company companyName))
                      (answered (AuthSignUp email password)
                                (sign_up email password) w)).
  assert (Hd : identities (db w1)
               = identities (db w) ++ [mkIdentity uid email password]
               /\ user_tbl (db w1) = user_tbl (db w)).
  { unfold w1. destruct (fault_at 1 w) as [e1 |] eqn:Hf1.
    - rewrite (db_unanswered _ _ _ e1) by (rewrite fault_at_answered; exact Hf1).
      rewrite (db_answered _ _ _ Hf0), Hd1. split; reflexivity.
    - rewrite db_answered by (rewrite fault_at_answered; exact Hf1).
      rewrite (db_answered _ _ _ Hf0), Hd1.
      unfold insert_company, draw. cbn.
      destruct (existsb _ (company_tbl (db w))); split; reflexivity. }
  destruct Hd as [Hids Hus].
  assert (Hf : fault_at 0 w1 = None).
  { unfold w1. rewrite !fault_at_answered. exact Hf2. }
  assert (Hau : auth w1 = auth w) by reflexivity.
  clearbody w1.
  assert (Hr : reply_at 0 w1 (sign_up email password') (db w1)
               = Failure already_registered).
  { unfold reply_at. rewrite Hf. unfold sign_up. rewrite Hids.
    rewrite existsb_snoc_holds; [reflexivity |]. cbn. apply String.eqb_refl. }
  exists w1. unfold signUp, bind. rewrite request_run, Hr.
  eexists. split; [reflexivity |]. split; [reflexivity |].
  split.
  { rewrite db_answered by exact Hf. unfold sign_up. rewrite Hids.
    rewrite existsb_snoc_holds; [reflexivity |]. cbn. apply String.eqb_refl. }
  split; [exact Hids |]. split; [exact Hus | exact Hau].
Qed.

Lemma signUp_partial_failure_blocks_retry_witness :
  exists w' w'',
    signUp "lea@spa.example" "pw" "Lea" "Roy" "Spa Lea"
           (Sample.at_login Sample.unused [None; Some (Err "row-level security")])
    = (Thrown (Err "row-level security"), w')
    /\ signUp "lea@spa.example" "pw2" "Lea" "Roy" "Spa Lea" w'
       = (Thrown already_registered, w'')
    /\ user_tbl (db w'') = [].
Proof.
  destruct (signUp_partial_failure_blocks_retry
              (Sample.at_login Sample.unused [None; Some (Err "row-level security")])
              "lea@spa.example" "pw" "pw2" "Lea" "Roy" "Spa Lea"
              (Sample.uuids 0) (Err "row-level security")
              eq_refl eq_refl eq_refl)
    as (w' & w'' & E & E' & Hd & _ & Hu & _).
  exists w', w''. split; [exact E |]. split; [exact E' |].
  rewrite Hd, Hu. reflexivity.
Defined.
